(** * Adaptive-mode decision engine: frustration scoring, mode selection,
      answer submission and the inactivity monitor.

    A shallow embedding of the decision-relevant Python code
    ([Frustraiton.py], [LearningApp.py], [learning_webapp.py],
    [run_addition_app.py], [preferred_mode_analyzer.py],
    [Emoitiontracker.py]) together with the properties stated about it.

    Conventions of the embedding.
    - Python [float] values (response times, scores, clock readings) are
      exact rationals [Q]; every operation is the exact one, the binary64
      rounding of the individual operations is not modelled, and there is
      no NaN or infinity. Where the rounding of an average decides what
      the code does ([preferred_mode_analyzer]), the average is a
      parameter.
    - Python [str] values are [string]. The embedding is exact for the
      strings of ASCII characters ([Py.is_ascii]): on these [lower],
      [upper] and [strip] are Python's. Python maps some characters outside
      ASCII to ASCII letters (the long s to S), so a property that relates
      the two letter cases takes [Py.is_ascii] as a hypothesis.
    - A CSV file is the list of its data rows (the header line is not a
      row); a file that does not exist is [None].
    - A CSV cell that the code converts with [int()] or [float()] is the
      result of that conversion, [None] when the conversion raises; a
      number the code writes converts back to the same number.
    - A function that can raise returns a [Py.result]; where the code
      catches what a file operation raises, how the operation ends is an
      argument.
    - Code that several threads run at once is a sequence of steps that
      interleave ([run_addition_app.act]). *)

From Stdlib Require Import QArith Qround Lqa Lia List String Ascii ZArith Bool.
From stdpp Require Import gmap strings list sorting.
Import ListNotations.

Local Open Scope Q_scope.

(** ** Python built-ins used by the code *)

Module Py.

(** The outcome of a call: a returned value or an uncaught exception. *)
Inductive result (A : Type) : Type :=
  | Returns (a : A)
  | Raises.

Arguments Returns {A} a.
Arguments Raises {A}.

Definition bind {A B : Type} (r : result A) (k : A -> result B) : result B :=
  match r with
  | Returns a => k a
  | Raises => Raises
  end.

Definition of_option {A : Type} (o : option A) : result A :=
  match o with
  | Some a => Returns a
  | None => Raises
  end.

Definition is_upper (c : ascii) : bool :=
  let n := N_of_ascii c in ((65 <=? n) && (n <=? 90))%N.

Definition is_lower (c : ascii) : bool :=
  let n := N_of_ascii c in ((97 <=? n) && (n <=? 122))%N.

Definition lower_char (c : ascii) : ascii :=
  if is_upper c then ascii_of_N (N_of_ascii c + 32) else c.

Definition upper_char (c : ascii) : ascii :=
  if is_lower c then ascii_of_N (N_of_ascii c - 32) else c.

(** Whether every character of the string is an ASCII character. *)
Fixpoint is_ascii (s : string) : bool :=
  match s with
  | EmptyString => true
  | String c s' => (N_of_ascii c <? 128)%N && is_ascii s'
  end.

(** [str.lower()] *)
Fixpoint lower (s : string) : string :=
  match s with
  | EmptyString => EmptyString
  | String c s' => String (lower_char c) (lower s')
  end.

(** [str.upper()] *)
Fixpoint upper (s : string) : string :=
  match s with
  | EmptyString => EmptyString
  | String c s' => String (upper_char c) (upper s')
  end.

(** The ASCII characters [str.strip()] removes: TAB, LF, VT, FF, CR,
    FS, GS, RS, US and the space. *)
Definition is_space (c : ascii) : bool :=
  let n := N_of_ascii c in
  (((9 <=? n) && (n <=? 13)) || ((28 <=? n) && (n <=? 32)))%N.

Fixpoint lstrip (s : string) : string :=
  match s with
  | EmptyString => EmptyString
  | String c s' => if is_space c then lstrip s' else s
  end.

Fixpoint rstrip (s : string) : string :=
  match s with
  | EmptyString => EmptyString
  | String c s' =>
      match rstrip s' with
      | EmptyString => if is_space c then EmptyString else String c EmptyString
      | r => String c r
      end
  end.

(** [str.strip()] *)
Definition strip (s : string) : string := rstrip (lstrip s).

(** Truth value of a string: the empty string is false. *)
Definition truthy (s : string) : bool :=
  match s with EmptyString => false | _ => true end.

(** Truth value of an optional string ([None] is false). *)
Definition truthy_opt (o : option string) : bool :=
  match o with Some s => truthy s | None => false end.

Definition Qlt_bool (x y : Q) : bool := negb (Qle_bool y x).

(** [min(a, b)] on two numbers: [b] when [b < a], otherwise [a]. *)
Definition min (a b : Q) : Q := if Qlt_bool b a then b else a.

(** [sum(l)] for a list of numbers, starting from 0, left to right. *)
Definition sum (l : list Q) : Q := fold_left Qplus l 0.

(** [sorted(l)]: a stable insertion sort into ascending order. *)
Fixpoint insert_sorted (x : Q) (l : list Q) : list Q :=
  match l with
  | [] => [x]
  | y :: l' => if Qle_bool x y then x :: l else y :: insert_sorted x l'
  end.

Definition sorted (l : list Q) : list Q := fold_right insert_sorted [] l.

(** [statistics.median(data)]; it raises StatisticsError on no data. An
    index out of range raises as well. *)
Definition median (data : list Q) : result Q :=
  let data := sorted data in
  let n := length data in
  if (n =? 0)%nat then Raises
  else if (n mod 2 =? 1)%nat then of_option (nth_error data (n / 2))
  else
    let i := (n / 2)%nat in
    bind (of_option (nth_error data (i - 1))) (fun a =>
    bind (of_option (nth_error data i)) (fun b =>
    Returns ((a + b) / 2))).

(** A [dict] with integer keys and string values, in insertion order:
    [d.get(k)] and [d[k] = v]. *)
Fixpoint dict_get (k : Z) (d : list (Z * string)) : option string :=
  match d with
  | [] => None
  | (k', v) :: rest => if (k' =? k)%Z then Some v else dict_get k rest
  end.

Fixpoint dict_set (k : Z) (v : string) (d : list (Z * string))
  : list (Z * string) :=
  match d with
  | [] => [(k, v)]
  | (k', v') :: rest =>
      if (k' =? k)%Z then (k', v) :: rest else (k', v') :: dict_set k v rest
  end.

(** Rounding to the nearest integer, ties to the even one. *)
Definition round_half_even (y : Q) : Z :=
  let f := Qfloor y in
  match Qcompare (y - inject_Z f) (1 # 2) with
  | Lt => f
  | Gt => (f + 1)%Z
  | Eq => if Z.even f then f else (f + 1)%Z
  end.

(** [round(x, 2)] *)
Definition round2 (x : Q) : Q := inject_Z (round_half_even (x * 100)) / 100.

(** [max(a, b)] on two numbers: [b] when [a < b], otherwise [a]. *)
Definition max (a b : Q) : Q := if Qlt_bool a b then b else a.

End Py.

(** ** Frustraiton.py: the per-test frustration score *)

Module Frustraiton.

Definition NEGATIVE_EMOTIONS : list string :=
  ["angry"; "disgust"; "fear"; "sad"]%string.

Definition NEUTRAL_EMOTION : string := "neutral"%string.

(** One parsed row of the learner log, as [_read_log_grouped_by_test]
    builds it. *)
Record entry : Type := mk_entry {
  mode : string;
  question : string;
  response_time : Q;
  correct : bool;
  skipped : bool;
  emotion : string
}.

Inductive Note : Type :=
  | Low_frustration
  | Moderate_frustration
  | High_frustration.

Definition in_strings (s : string) (l : list string) : bool :=
  existsb (String.eqb s) l.

Definition rts_correct (entries : list entry) : list Q :=
  map response_time (List.filter (fun e => correct e && negb (skipped e)) entries).

Definition rts_all (entries : list entry) : list Q :=
  map response_time (List.filter (fun e => negb (skipped e)) entries).

(** Per-test baseline response time. *)
Definition baseline_of (entries : list entry) : Py.result Q :=
  if (2 <=? length (rts_correct entries))%nat then Py.median (rts_correct entries)
  else
    match rts_all entries with
    | _ :: _ => Py.median (rts_all entries)
    | [] => Py.Returns 10
    end.

Definition err_count (entries : list entry) : nat :=
  length (List.filter (fun e => skipped e || negb (correct e)) entries).

Definition err_rate_of (entries : list entry) : Q :=
  inject_Z (Z.of_nat (err_count entries)) / inject_Z (Z.of_nat (length entries)).

(** The value appended to [rt_excess] for one non-skipped entry. *)
Definition excess_of (baseline rt : Q) : Q :=
  if Qle_bool baseline 0 then 0
  else if Qle_bool rt baseline then 0
  else Py.min ((rt - baseline) / (baseline * 1.5)) 1.

Fixpoint rt_excess (baseline : Q) (entries : list entry) : list Q :=
  match entries with
  | [] => []
  | e :: rest =>
      if skipped e then rt_excess baseline rest
      else excess_of baseline (response_time e) :: rt_excess baseline rest
  end.

Definition rt_norm_of (baseline : Q) (entries : list entry) : Q :=
  let xs := rt_excess baseline entries in
  Py.sum xs / inject_Z (Z.max 1 (Z.of_nat (length xs))).

Definition emo_val (e : entry) : Q :=
  let emo := Py.lower (emotion e) in
  if in_strings emo NEGATIVE_EMOTIONS then 1
  else if String.eqb emo NEUTRAL_EMOTION then 0.4
  else 0.

Definition valence_of (entries : list entry) : Q :=
  Py.sum (map emo_val entries) / inject_Z (Z.of_nat (length entries)).

Definition composite (err_rate rt_norm valence : Q) : Q :=
  0.45 * err_rate + 0.25 * rt_norm + 0.30 * valence.

Definition smoothstep (s : Q) : Q := 3 * s * s - 2 * s * s * s.

Definition note_of (score : Q) : Note :=
  if Py.Qlt_bool 0.75 score then High_frustration
  else if Py.Qlt_bool 0.4 score then Moderate_frustration
  else Low_frustration.

(** The composite [s] of a non-empty test, before the smoothstep. *)
Definition composite_of (entries : list entry) : Py.result Q :=
  Py.bind (baseline_of entries) (fun baseline =>
  Py.Returns (composite (err_rate_of entries) (rt_norm_of baseline entries)
                (valence_of entries))).

Definition _compute_test_frustration (entries : list entry)
  : Py.result (Q * Note) :=
  match entries with
  | [] => Py.Returns (0, Low_frustration)
  | _ :: _ =>
      Py.bind (composite_of entries) (fun s =>
      let score := smoothstep s in
      Py.Returns (Py.round2 score, note_of score))
  end.

(** *** The batch entry point *)

(** [_to_bool] on a CSV cell. *)
Definition _to_bool (v : string) : bool :=
  in_strings (Py.lower (Py.strip v)) ["true"; "1"; "yes"; "y"]%string.

(** One data row of [learner_log{learner_id}.csv]. *)
Record log_row : Type := mk_log_row {
  log_learner_id : string;
  log_test_number : option Z;          (* int(row["test_number"]) *)
  log_mode : string;
  log_question : string;
  log_response_time_sec : option Q;    (* float(row["response_time_sec"]) *)
  log_correct : string;
  log_skipped : string;
  log_emotion : string
}.

(** One data row of [frustration_report{learner_id}.csv]. *)
Record report_row : Type := mk_report_row {
  rep_learner_id : string;
  rep_test_number : option Z;          (* int(row["test_number"]) *)
  rep_timestamp : string;
  rep_mode : string;
  rep_frustration_score : option Q;    (* float(row["frustration_score"]) *)
  rep_notes : string
}.

Definition note_text (n : Note) : string :=
  match n with
  | Low_frustration => "Low frustration"
  | Moderate_frustration => "Moderate frustration"
  | High_frustration => "High frustration"
  end.

(** The body of the [for row in reader] loop of
    [_read_log_grouped_by_test]: a row that fails to convert is skipped. *)
Definition read_log_step (acc : option string * gmap Z (list entry))
    (row : log_row) : option string * gmap Z (list entry) :=
  let '(learner_id_found, tests) := acc in
  match log_test_number row, log_response_time_sec row with
  | Some test_number, Some rt =>
      let e := {| mode := log_mode row;
                  question := log_question row;
                  response_time := rt;
                  correct := _to_bool (log_correct row);
                  skipped := _to_bool (log_skipped row);
                  emotion := Py.lower (Py.strip (log_emotion row)) |} in
      (if Py.truthy (log_learner_id row) then Some (log_learner_id row)
       else learner_id_found,
       <[test_number := default [] (tests !! test_number) ++ [e]]> tests)
  | _, _ => acc
  end.

Definition _read_log_grouped_by_test (log_file : option (list log_row))
  : option string * gmap Z (list entry) :=
  match log_file with
  | None => (None, ∅)
  | Some rows => fold_left read_log_step rows (None, ∅)
  end.

Definition _existing_tests_in_report (output_file : option (list report_row))
    (learner_id : string) : gset Z :=
  match output_file with
  | None => ∅
  | Some rows =>
      fold_left (fun (existing : gset Z) row =>
                   if String.eqb (rep_learner_id row) learner_id then
                     match rep_test_number row with
                     | Some t => {[ t ]} ∪ existing
                     | None => existing
                     end
                   else existing)
                rows ∅
  end.

Definition _ensure_report_header (output_file : option (list report_row))
  : option (list report_row) :=
  match output_file with
  | None => Some []
  | Some rows => Some rows
  end.

(** [sorted(tests)]: the test numbers in ascending order. *)
Definition sorted_tests (tests : gmap Z (list entry)) : list Z :=
  merge_sort Z.le (elements (dom tests)).

(** The rows collected by the [for test_number in sorted(tests)] loop;
    [now t] is the reading of [datetime.now()] taken for test [t]. *)
Fixpoint new_rows (now : Z -> string) (learner_id : string)
    (tests : gmap Z (list entry)) (already : gset Z) (keys : list Z)
  : Py.result (list report_row) :=
  match keys with
  | [] => Py.Returns []
  | test_number :: rest =>
      if bool_decide (test_number ∈ already) then
        new_rows now learner_id tests already rest
      else
        let entries := default [] (tests !! test_number) in
        Py.bind (_compute_test_frustration entries) (fun '(score, note) =>
        let mode :=
          match entries with
          | e :: _ => mode e
          | [] => "unknown"%string
          end in
        Py.bind (new_rows now learner_id tests already rest) (fun rows =>
        Py.Returns ({| rep_learner_id := learner_id;
                       rep_test_number := Some test_number;
                       rep_timestamp := now test_number;
                       rep_mode := mode;
                       rep_frustration_score := Some score;
                       rep_notes := note_text note |} :: rows)))
  end.

(** [compute_frustration_per_test]: the report file after the call. *)
Definition compute_frustration_per_test (now : Z -> string)
    (log_file : option (list log_row)) (output_file : option (list report_row))
  : Py.result (option (list report_row)) :=
  let '(learner_id, tests) := _read_log_grouped_by_test log_file in
  match learner_id with
  | None => Py.Returns output_file
  | Some learner_id =>
      if bool_decide (tests = ∅) then Py.Returns output_file
      else
        let output_file := _ensure_report_header output_file in
        let already := _existing_tests_in_report output_file learner_id in
        Py.bind (new_rows now learner_id tests already (sorted_tests tests))
          (fun rows =>
             match rows with
             | [] => Py.Returns output_file
             | _ :: _ => Py.Returns (Some (default [] output_file ++ rows))
             end)
  end.

(** The number of rows of the report that belong to a learner. *)
Definition report_rows_of (output_file : option (list report_row))
    (learner_id : string) : nat :=
  length (List.filter (fun row => String.eqb (rep_learner_id row) learner_id)
            (default [] output_file)).

(** The test number and the entry a row of the log stands for; [None] for
    a row that fails to convert and is skipped. *)
Definition parsed_row (row : log_row) : option (Z * entry) :=
  match log_test_number row, log_response_time_sec row with
  | Some test_number, Some rt =>
      Some (test_number,
            {| mode := log_mode row;
               question := log_question row;
               response_time := rt;
               correct := _to_bool (log_correct row);
               skipped := _to_bool (log_skipped row);
               emotion := Py.lower (Py.strip (log_emotion row)) |})
  | _, _ => None
  end.

(** The entries of the rows of one test, in the order of the file. *)
Definition entries_of_test (t : Z) (rows : list log_row) : list entry :=
  flat_map (fun row =>
              match parsed_row row with
              | Some (t', e) => if (t' =? t)%Z then [e] else []
              | None => []
              end) rows.

End Frustraiton.

(** ** LearningApp.py: mode selection and answer submission *)

Module LearningApp.

Import Frustraiton.

Definition MODES : list string := ["visual"; "auditory"; "kinesthetic"]%string.

(** One data row of [preferred_mode.csv]. *)
Record pref_row : Type := mk_pref_row {
  pref_learner_id : string;
  pref_preferred_mode : string
}.

(** The files the application reads and writes. The report and the log
    have the learner id in their file name. *)
Record files : Type := mk_files {
  PREFERRED_MODE_FILE : option (list pref_row);
  frustration_report : string -> option (list report_row);
  learner_log : string -> option (list log_row)
}.

Fixpoint first_frustration (learner_id : string) (rows : list report_row)
  : Py.result (option Q) :=
  match rows with
  | [] => Py.Returns None
  | row :: rest =>
      if String.eqb (rep_learner_id row) learner_id then
        match rep_frustration_score row with
        | Some x => Py.Returns (Some x)
        | None => Py.Raises
        end
      else first_frustration learner_id rest
  end.

Definition get_frustration (fs : files) (learner_id : string)
  : Py.result (option Q) :=
  match frustration_report fs learner_id with
  | None => Py.Returns None
  | Some rows => first_frustration learner_id rows
  end.

Fixpoint first_preferred (learner_id : string) (rows : list pref_row)
  : option string :=
  match rows with
  | [] => None
  | row :: rest =>
      if String.eqb (pref_learner_id row) learner_id
      then Some (pref_preferred_mode row)
      else first_preferred learner_id rest
  end.

Definition get_preferred_mode (fs : files) (learner_id : string)
  : option string :=
  match PREFERRED_MODE_FILE fs with
  | None => None
  | Some rows => first_preferred learner_id rows
  end.

(** The [for row in reader] loop of [get_last_used_mode]. *)
Fixpoint last_used_loop (rows : list log_row) (last_mode : option string)
    (max_test_number : Z) : Py.result (option string) :=
  match rows with
  | [] => Py.Returns last_mode
  | row :: rest =>
      match log_test_number row with
      | None => Py.Raises
      | Some test_num =>
          if (max_test_number <=? test_num)%Z
          then last_used_loop rest (Some (log_mode row)) test_num
          else last_used_loop rest last_mode max_test_number
      end
  end.

Definition get_last_used_mode (fs : files) (learner_id : string)
  : option string :=
  match learner_log fs learner_id with
  | None => None
  | Some rows =>
      match last_used_loop rows None 0 with
      | Py.Returns m => m
      | Py.Raises => None
      end
  end.

Definition save_preferred_mode (fs : files) (learner_id mode : string) : files :=
  {| PREFERRED_MODE_FILE :=
       Some (default [] (PREFERRED_MODE_FILE fs)
             ++ [ {| pref_learner_id := learner_id;
                     pref_preferred_mode := mode |} ]);
     frustration_report := frustration_report fs;
     learner_log := learner_log fs |}.

(** [list.index]: the position of the first occurrence. *)
Fixpoint index (x : string) (l : list string) : option nat :=
  match l with
  | [] => None
  | y :: rest =>
      if String.eqb y x then Some 0%nat
      else option_map S (index x rest)
  end.

Definition get_next_mode (current : string) : Py.result string :=
  Py.bind (Py.of_option (index current MODES)) (fun idx =>
  Py.of_option (nth_error MODES ((idx + 1) mod length MODES))).

(** [start_quiz] up to the choice of [current_mode]: the chosen mode
    ([None] when the learner id is empty and the quiz does not start) and
    the files after the call. *)
Definition start_quiz (fs : files) (id_input : string)
  : Py.result (option string * files) :=
  let learner_id := Py.strip id_input in
  if negb (Py.truthy learner_id) then Py.Returns (None, fs)
  else
    let preferred_mode := get_preferred_mode fs learner_id in
    Py.bind (get_frustration fs learner_id) (fun frustration_score =>
    let last_used_mode := get_last_used_mode fs learner_id in
    match frustration_score with
    | None => Py.Returns (Some "visual"%string, fs)
    | Some score =>
        if Qle_bool 0.4 score then
          match last_used_mode with
          | Some m =>
              if Py.truthy m then
                Py.bind (get_next_mode m) (fun current_mode =>
                Py.Returns (Some current_mode, fs))
              else Py.Returns (Some "auditory"%string, fs)
          | None => Py.Returns (Some "auditory"%string, fs)
          end
        else
          let current_mode :=
            if Py.truthy_opt preferred_mode then default ""%string preferred_mode
            else if Py.truthy_opt last_used_mode
                 then default ""%string last_used_mode
                 else "visual"%string in
          Py.Returns (Some current_mode,
                      save_preferred_mode fs learner_id current_mode)
    end).


(** A question of the question bank. *)
Record question_data : Type := mk_question {
  q_question : string;
  q_answer : string
}.

(** One record of [session_data]. *)
Record session_row : Type := mk_session_row {
  s_learner_id : string;
  s_test_number : Z;
  s_mode : string;
  s_question : string;
  s_response_time_sec : Q;
  s_correct : bool;
  s_skipped : bool;
  s_emotion : string
}.

(** The module-level state of the running quiz. *)
Record app_state : Type := mk_app_state {
  learner_id : string;
  test_number : Z;
  current_mode : string;
  current_question : question_data;
  question_start_time : Q;
  question_index : nat;
  session_data : list session_row
}.

(** [submit_answer(answer)] up to the advance of the question index;
    [now] is the reading of [time.time()] and [current_emotion] what the
    emotion tracker returns on stopping. The display of the next question
    is outside the state. *)
Definition submit_answer (st : app_state) (answer : string) (now : Q)
    (current_emotion : string) : app_state :=
  let time_taken := now - question_start_time st in
  let correct :=
    String.eqb (Py.lower (Py.strip answer))
               (Py.lower (q_answer (current_question st))) in
  let skipped := String.eqb (Py.upper (Py.strip answer)) "SKIP" in
  let skipped := if String.eqb answer "" then true else skipped in
  {| learner_id := learner_id st;
     test_number := test_number st;
     current_mode := current_mode st;
     current_question := current_question st;
     question_start_time := question_start_time st;
     question_index := S (question_index st);
     session_data :=
       session_data st
       ++ [ {| s_learner_id := learner_id st;
               s_test_number := test_number st;
               s_mode := current_mode st;
               s_question := q_question (current_question st);
               s_response_time_sec := Py.round2 time_taken;
               s_correct := correct;
               s_skipped := skipped;
               s_emotion := current_emotion |} ] |}.

End LearningApp.

(** ** learning_webapp.py: answer submission of the web application *)

Module learning_webapp.

Import LearningApp.

(** The entry of [current_sessions] for one session id. *)
Record session_info : Type := mk_session_info {
  si_learner_id : string;
  si_current_mode : string;
  si_test_number : Z;
  si_question_index : nat;
  si_session_data : list session_row;
  si_question_start_time : Q;
  si_current_question : question_data
}.

(** [submit_answer] up to the record it appends to [session_data] and the
    advance of the question index; [raw_answer] is the ['answer'] field of
    the request. *)
Definition submit_answer (si : session_info) (raw_answer : string) (now : Q)
    (current_emotion : string) : session_info :=
  let answer := Py.strip raw_answer in
  let time_taken := now - si_question_start_time si in
  let correct :=
    String.eqb (Py.lower answer) (Py.lower (q_answer (si_current_question si))) in
  let skipped :=
    String.eqb (Py.upper answer) "SKIP" || String.eqb answer "" in
  {| si_learner_id := si_learner_id si;
     si_current_mode := si_current_mode si;
     si_test_number := si_test_number si;
     si_question_index := S (si_question_index si);
     si_session_data :=
       si_session_data si
       ++ [ {| s_learner_id := si_learner_id si;
               s_test_number := si_test_number si;
               s_mode := si_current_mode si;
               s_question := q_question (si_current_question si);
               s_response_time_sec := Py.round2 time_taken;
               s_correct := correct;
               s_skipped := skipped;
               s_emotion := current_emotion |} ];
     si_question_start_time := si_question_start_time si;
     si_current_question := si_current_question si |}.

(** The end of a mode's questions in [submit_answer]: the finished mode
    is appended to [completed_modes] unless it is there already. *)
Definition mark_completed (current_mode_finished : string)
    (completed_modes : list string) : list string :=
  if Frustraiton.in_strings current_mode_finished completed_modes
  then completed_modes
  else completed_modes ++ [current_mode_finished].

(** [while next_mode in completed_modes and safety < 5]: at most
    [safety_left] further calls of [get_next_mode]. *)
Fixpoint advance_mode (safety_left : nat) (completed_modes : list string)
    (next_mode : string) : Py.result string :=
  match safety_left with
  | O => Py.Returns next_mode
  | S k =>
      if Frustraiton.in_strings next_mode completed_modes
      then Py.bind (LearningApp.get_next_mode next_mode)
                   (advance_mode k completed_modes)
      else Py.Returns next_mode
  end.

(** The mode bookkeeping of [submit_answer] after the last question of
    [current_mode_finished]: the new [completed_modes], and the mode the
    session switches to ([None] when the three modes are completed). *)
Definition finish_mode (current_mode_finished : string)
    (completed_modes : list string)
    : Py.result (list string * option string) :=
  let completed_modes := mark_completed current_mode_finished completed_modes in
  if (length completed_modes <? 3)%nat then
    Py.bind (LearningApp.get_next_mode current_mode_finished) (fun next_mode =>
    Py.bind (advance_mode 5 completed_modes next_mode) (fun next_mode =>
    Py.Returns (completed_modes, Some next_mode)))
  else Py.Returns (completed_modes, None).

(** One entry of [inactivity_thresholds.json]. *)
Record threshold_entry : Type := mk_threshold_entry {
  te_test_number : Z;
  te_avg_response_time_sec : Q;
  te_inactivity_threshold_sec : Q;
  te_updated_at : string
}.

(** The rows of the log whose [test_number], as the function reads and
    converts it, is the given test number; [None] stands for a cell that
    is empty or fails to convert. *)
Definition filtered_rows (test_number : Z) (records : list Frustraiton.log_row)
  : list Frustraiton.log_row :=
  List.filter
    (fun row =>
       match Frustraiton.log_test_number row with
       | Some tn_val => (tn_val =? test_number)%Z
       | None => false
       end) records.

(** The response times of these rows that convert with [float()] to a
    number that is not negative. *)
Fixpoint times_list (filtered : list Frustraiton.log_row) : list Q :=
  match filtered with
  | [] => []
  | row :: rest =>
      match Frustraiton.log_response_time_sec row with
      | Some val => if Qle_bool 0 val then val :: times_list rest
                    else times_list rest
      | None => times_list rest
      end
  end.

Definition avg_of (filtered : list Frustraiton.log_row) : Q :=
  match filtered with
  | [] => 0
  | _ =>
      match times_list filtered with
      | [] => 0
      | times => Py.sum times / inject_Z (Z.of_nat (length times))
      end
  end.

(** [learner_log{learner_id}.csv] as the function finds it: no such file,
    a file that [pd.read_csv] rejects, or the records read. *)
Inductive log_file : Type :=
  | LogMissing
  | LogUnreadable
  | LogRows (records : list Frustraiton.log_row).

(** A value under a key of [inactivity_thresholds.json]: an entry as this
    function writes it, or any other JSON value, kept as it is. *)
Inductive entry_value : Type :=
  | Threshold (e : threshold_entry)
  | OtherValue (raw : string).

(** [inactivity_thresholds.json]: no such file, a file that [json.load]
    rejects, a JSON object, a JSON value that is not an object and counts
    as false ([null], [0], the empty string or list), or any other JSON
    value. *)
Inductive thresholds_file : Type :=
  | NoFile
  | Invalid
  | JsonObject (entries : gmap string entry_value)
  | JsonFalsy (raw : string)
  | JsonOther (raw : string).

(** How writing the thresholds file ends: it succeeds, or it raises and
    leaves the file in some state. *)
Inductive write_result : Type :=
  | WriteOk
  | WriteFails (after : thresholds_file).

(** [existing] before the assignment [existing[str(learner_id)] = ...]:
    the object read, or the empty object when there is no file, when the
    file cannot be read or when its value counts as false. On any other
    value the assignment raises: [None]. *)
Definition existing_of (output_file : thresholds_file)
  : option (gmap string entry_value) :=
  match output_file with
  | NoFile | Invalid | JsonFalsy _ => Some ∅
  | JsonObject entries => Some entries
  | JsonOther _ => None
  end.

(** [_compute_and_store_inactivity_threshold]: the threshold returned and
    the thresholds file after the call; [now] is the time stamp written.
    Whatever raises inside the function (reading the log, the assignment
    to [existing], the write) makes it return 120 through the outer
    [except]. *)
Definition _compute_and_store_inactivity_threshold
    (log : log_file) (output_file : thresholds_file) (write : write_result)
    (learner_id : string) (test_number : Z) (now : string)
  : Q * thresholds_file :=
  match log with
  | LogMissing => (120, output_file)
  | LogUnreadable => (120, output_file)
  | LogRows records =>
      let filtered := filtered_rows test_number records in
      let avg := avg_of filtered in
      let threshold := Py.max 0 avg + 120 in
      match existing_of output_file with
      | None => (120, output_file)
      | Some existing =>
          match write with
          | WriteOk =>
              (threshold,
               JsonObject
                 (<[learner_id :=
                      Threshold
                        {| te_test_number := test_number;
                           te_avg_response_time_sec := avg;
                           te_inactivity_threshold_sec := threshold;
                           te_updated_at := now |}]> existing))
          | WriteFails after => (120, after)
          end
      end
  end.

End learning_webapp.

(** ** run_addition_app.py: the inactivity monitor *)

Module run_addition_app.

(** One data row of [preferred_modes.csv]. A row that is shorter than the
    header has no cell for the mode. *)
Record pm_row : Type := mk_pm_row {
  pm_learner_id : option Z;            (* int(row['learner_id']) *)
  pm_preferred_mode : option string    (* row['preferred_mode'] *)
}.

(** The module-level state and the files the monitor uses.
    [INACTIVITY_TEST_SECONDS] is the value of the environment variable when
    it is set, non-empty and converts with [float()]; [inactivity_thresholds]
    holds, per learner, the numeric [inactivity_threshold_sec] of
    [inactivity_thresholds.json]. *)
Record state : Type := mk_state {
  _last_interaction_ts : gmap Z Q;
  _monitor_threads : gset Z;
  _launched_subtraction : gset Z;
  preferred_modes_csv : option (list pm_row);
  INACTIVITY_TEST_SECONDS : option Q;
  inactivity_thresholds : gmap Z Q
}.

Definition _load_inactivity_threshold (st : state) (learner_id : Z) : Q :=
  match INACTIVITY_TEST_SECONDS st with
  | Some seconds => seconds
  | None => default 120 (inactivity_thresholds st !! learner_id)
  end.

Definition _mark_interaction (st : state) (learner_id : Z) (now : Q) : state :=
  {| _last_interaction_ts := <[learner_id := now]> (_last_interaction_ts st);
     _monitor_threads := _monitor_threads st;
     _launched_subtraction := _launched_subtraction st;
     preferred_modes_csv := preferred_modes_csv st;
     INACTIVITY_TEST_SECONDS := INACTIVITY_TEST_SECONDS st;
     inactivity_thresholds := inactivity_thresholds st |}.

(** The mode a row of the file stands for: [strip().lower()], with
    'interactive' read as 'kinesthetic'. *)
Definition normalize_mode (cell : string) : string :=
  let preferred_mode := Py.lower (Py.strip cell) in
  if String.eqb preferred_mode "interactive"
  then "kinesthetic"%string else preferred_mode.

(** The [for row in reader] loop of [load_preferred_modes]: [int()] raises
    on a learner id that is not an integer, [.strip()] on a missing cell. *)
Fixpoint load_rows (rows : list pm_row) (modes_dict : list (Z * string))
  : Py.result (list (Z * string)) :=
  match rows with
  | [] => Py.Returns modes_dict
  | row :: rest =>
      match pm_learner_id row with
      | None => Py.Raises
      | Some learner_id =>
          match pm_preferred_mode row with
          | None => Py.Raises
          | Some cell =>
              let preferred_mode := normalize_mode cell in
              load_rows rest (Py.dict_set learner_id preferred_mode modes_dict)
          end
      end
  end.

(** [load_preferred_modes]: any exception gives the empty dictionary. *)
Definition load_preferred_modes (csv : option (list pm_row))
  : list (Z * string) :=
  match csv with
  | None => []
  | Some rows =>
      match load_rows rows [] with
      | Py.Returns modes_dict => modes_dict
      | Py.Raises => []
      end
  end.

(** [mode_cycle.get(current_mode, 'visual')] *)
Definition mode_cycle (current_mode : string) : string :=
  if String.eqb current_mode "visual" then "kinesthetic"%string
  else if String.eqb current_mode "kinesthetic" then "auditory"%string
  else if String.eqb current_mode "auditory" then "visual"%string
  else "visual"%string.

(** The line "[Inactivity] Changed learner .. mode from .. to .." that a
    firing check prints. *)
Record changed : Type := mk_changed {
  ch_learner_id : Z;
  ch_current_mode : string;
  ch_new_mode : string
}.

(** [preferred_modes.get(learner_id, 'visual')] on the loaded file: the
    persisted mode of the learner as the monitor reads it. *)
Definition current_mode_of (st : state) (learner_id : Z) : string :=
  default "visual"%string
    (Py.dict_get learner_id (load_preferred_modes (preferred_modes_csv st))).

(** The row [writer.writerow([lid, mode])] leaves in the file. *)
Definition written_row (item : Z * string) : pm_row :=
  {| pm_learner_id := Some (fst item); pm_preferred_mode := Some (snd item) |}.

(** How writing [preferred_modes.csv] ends: it succeeds, or it raises and
    leaves the file in some state ([None]: no file). *)
Inductive write_outcome : Type :=
  | Written
  | WriteRaises (after : option (list pm_row)).

(** [_check_inactivity_and_launch(learner_id)] when nothing else runs
    between its first and its last statement: [t_default] and [t_now] are
    the two readings of [time.time()], in the order the code takes them,
    and [write] says how the write of the file ends. An exception in the
    [try] block is caught and the learner is flagged all the same. The
    restart helper that is spawned is outside the state. *)
Definition _check_inactivity_and_launch (st : state) (learner_id : Z)
    (t_default t_now : Q) (write : write_outcome) : state * option changed :=
  let threshold := _load_inactivity_threshold st learner_id in
  let last_ts := default t_default (_last_interaction_ts st !! learner_id) in
  let elapsed := t_now - last_ts in
  let remaining := threshold - elapsed in
  if Qle_bool remaining 0 then
    if bool_decide (learner_id ∈ _launched_subtraction st) then (st, None)
    else
      let preferred_modes := load_preferred_modes (preferred_modes_csv st) in
      let current_mode := current_mode_of st learner_id in
      let new_mode := mode_cycle current_mode in
      let preferred_modes := Py.dict_set learner_id new_mode preferred_modes in
      match write with
      | Written =>
          ({| _last_interaction_ts := _last_interaction_ts st;
              _monitor_threads := _monitor_threads st;
              _launched_subtraction :=
                {[ learner_id ]} ∪ _launched_subtraction st;
              preferred_modes_csv := Some (map written_row preferred_modes);
              INACTIVITY_TEST_SECONDS := INACTIVITY_TEST_SECONDS st;
              inactivity_thresholds := inactivity_thresholds st |},
           Some {| ch_learner_id := learner_id;
                   ch_current_mode := current_mode;
                   ch_new_mode := new_mode |})
      | WriteRaises after =>
          ({| _last_interaction_ts := _last_interaction_ts st;
              _monitor_threads := _monitor_threads st;
              _launched_subtraction :=
                {[ learner_id ]} ∪ _launched_subtraction st;
              preferred_modes_csv := after;
              INACTIVITY_TEST_SECONDS := INACTIVITY_TEST_SECONDS st;
              inactivity_thresholds := inactivity_thresholds st |},
           None)
      end
  else (st, None).

(** [_start_inactivity_monitor]: registers the thread once per learner. *)
Definition _start_inactivity_monitor (st : state) (learner_id : Z) : state :=
  if bool_decide (learner_id ∈ _monitor_threads st) then st
  else
    {| _last_interaction_ts := _last_interaction_ts st;
       _monitor_threads := {[ learner_id ]} ∪ _monitor_threads st;
       _launched_subtraction := _launched_subtraction st;
       preferred_modes_csv := preferred_modes_csv st;
       INACTIVITY_TEST_SECONDS := INACTIVITY_TEST_SECONDS st;
       inactivity_thresholds := inactivity_thresholds st |}.

(** *** Checks that run in several threads

    The monitor thread of a learner and the request handlers call
    [_check_inactivity_and_launch] with no lock, and the function reads
    and writes a file between its test of [_launched_subtraction] and its
    [_launched_subtraction.add]. A check is therefore four steps, and the
    steps of different threads interleave. *)

(** Where a check stands in its thread, with its local variables. *)
Inductive in_check : Type :=
  | Entered (learner_id : Z)
      (* [remaining <= 0] and the learner is not flagged *)
  | Loaded (learner_id : Z) (current_mode new_mode : string)
      (preferred_modes : list (Z * string))
      (* the file is read and the dictionary updated *)
  | Left_try (learner_id : Z).
      (* the [try] block is left; before [_launched_subtraction.add] *)

(** The module-level state with the checks in flight, by thread. *)
Record world : Type := mk_world {
  shared : state;
  threads : gmap nat in_check
}.

Definition set_csv (st : state) (csv : option (list pm_row)) : state :=
  {| _last_interaction_ts := _last_interaction_ts st;
     _monitor_threads := _monitor_threads st;
     _launched_subtraction := _launched_subtraction st;
     preferred_modes_csv := csv;
     INACTIVITY_TEST_SECONDS := INACTIVITY_TEST_SECONDS st;
     inactivity_thresholds := inactivity_thresholds st |}.

Definition add_flag (st : state) (learner_id : Z) : state :=
  {| _last_interaction_ts := _last_interaction_ts st;
     _monitor_threads := _monitor_threads st;
     _launched_subtraction := {[ learner_id ]} ∪ _launched_subtraction st;
     preferred_modes_csv := preferred_modes_csv st;
     INACTIVITY_TEST_SECONDS := INACTIVITY_TEST_SECONDS st;
     inactivity_thresholds := inactivity_thresholds st |}.

(** One step of one thread, or an interaction that a request handler
    marks. A step that does not fit where the thread stands does nothing. *)
Inductive action : Type :=
  | Mark (learner_id : Z) (now : Q)
  | Enter (thread : nat) (learner_id : Z) (t_default t_now : Q)
  | Load (thread : nat)
  | Store (thread : nat) (write : write_outcome)
  | Add (thread : nat).

Definition act (w : world) (a : action) : world * option changed :=
  match a with
  | Mark learner_id now =>
      (mk_world (_mark_interaction (shared w) learner_id now) (threads w),
       None)
  | Enter thread learner_id t_default t_now =>
      let st := shared w in
      let threshold := _load_inactivity_threshold st learner_id in
      let last_ts :=
        default t_default (_last_interaction_ts st !! learner_id) in
      let elapsed := t_now - last_ts in
      let remaining := threshold - elapsed in
      match threads w !! thread with
      | Some _ => (w, None)
      | None =>
          if Qle_bool remaining 0
             && negb (bool_decide (learner_id ∈ _launched_subtraction st))
          then (mk_world st (<[thread := Entered learner_id]> (threads w)),
                None)
          else (w, None)
      end
  | Load thread =>
      match threads w !! thread with
      | Some (Entered learner_id) =>
          let st := shared w in
          let preferred_modes :=
            load_preferred_modes (preferred_modes_csv st) in
          let current_mode := current_mode_of st learner_id in
          let new_mode := mode_cycle current_mode in
          let preferred_modes :=
            Py.dict_set learner_id new_mode preferred_modes in
          (mk_world st
             (<[thread := Loaded learner_id current_mode new_mode
                            preferred_modes]> (threads w)),
           None)
      | _ => (w, None)
      end
  | Store thread write =>
      match threads w !! thread with
      | Some (Loaded learner_id current_mode new_mode preferred_modes) =>
          match write with
          | Written =>
              (mk_world
                 (set_csv (shared w) (Some (map written_row preferred_modes)))
                 (<[thread := Left_try learner_id]> (threads w)),
               Some {| ch_learner_id := learner_id;
                       ch_current_mode := current_mode;
                       ch_new_mode := new_mode |})
          | WriteRaises after =>
              (mk_world (set_csv (shared w) after)
                 (<[thread := Left_try learner_id]> (threads w)),
               None)
          end
      | _ => (w, None)
      end
  | Add thread =>
      match threads w !! thread with
      | Some (Left_try learner_id) =>
          (mk_world (add_flag (shared w) learner_id)
             (delete thread (threads w)),
           None)
      | _ => (w, None)
      end
  end.

(** The world after a schedule and the changes printed, in order. *)
Fixpoint exec (w : world) (schedule : list action) : world * list changed :=
  match schedule with
  | [] => (w, [])
  | a :: rest =>
      let '(w1, out) := act w a in
      let '(w2, outs) := exec w1 rest in
      (w2, match out with Some c => c :: outs | None => outs end)
  end.

(** The four steps of one check in one thread. *)
Definition check_steps (thread : nat) (learner_id : Z) (t_default t_now : Q)
    (write : write_outcome) : list action :=
  [ Enter thread learner_id t_default t_now; Load thread;
    Store thread write; Add thread ].

(** Two checks of one learner, in the threads [a] and [b], that both
    succeed in writing the file: one after the other, and overlapping, so
    that both pass the test of [_launched_subtraction] before either
    reaches [_launched_subtraction.add]. *)
Definition one_after_the_other (a b : nat) (learner_id : Z)
    (ta_default ta tb_default tb : Q) : list action :=
  check_steps a learner_id ta_default ta Written
  ++ check_steps b learner_id tb_default tb Written.

Definition overlapping (a b : nat) (learner_id : Z)
    (ta_default ta tb_default tb : Q) : list action :=
  [ Enter a learner_id ta_default ta; Enter b learner_id tb_default tb;
    Load a; Store a Written; Add a;
    Load b; Store b Written; Add b ].

(** The changes printed for one learner. *)
Definition fired_for (learner_id : Z) (outs : list changed) : list changed :=
  List.filter (fun c => (ch_learner_id c =? learner_id)%Z) outs.

(** The last row of the file for a learner. *)
Definition last_row_of (learner_id : Z) (rows : list pm_row) : option pm_row :=
  List.find (fun row => bool_decide (pm_learner_id row = Some learner_id))
            (rev rows).

End run_addition_app.

(** ** preferred_mode_analyzer.py: the mode with the lowest frustration *)

Module preferred_mode_analyzer.

Import Frustraiton.

(** A [dict] with string keys, in insertion order: [d.get(k)], and the
    update [d[k] = f(d.get(k))] that keeps the position of a key that is
    present and appends a new key. *)
Fixpoint get {V : Type} (k : string) (d : list (string * V)) : option V :=
  match d with
  | [] => None
  | (k', v) :: rest => if String.eqb k' k then Some v else get k rest
  end.

Fixpoint update {V : Type} (k : string) (f : option V -> V)
    (d : list (string * V)) : list (string * V) :=
  match d with
  | [] => [(k, f None)]
  | (k', v) :: rest =>
      if String.eqb k' k then (k', f (Some v)) :: rest
      else (k', v) :: update k f rest
  end.

(** [raw_mode] is the cell of the file; a missing cell counts as the empty
    string, as [(raw_mode or "")] makes it. *)
Definition _normalize_mode_name (raw_mode : string) : string :=
  let m := Py.lower (Py.strip raw_mode) in
  if in_strings m ["interactive"; "kinaesthetic"; "hands-on"; "hands on";
                   "kinesthetics"]%string
  then "kinesthetic"%string
  else if in_strings m ["visual"; "auditory"; "kinesthetic"]%string then m
  else m.

(** The body of the [for row in reader] loop of
    [analyze_frustration_by_mode]: a row whose score does not convert with
    [float()] is skipped before any key is created. *)
Definition analyze_row (learner_mode_scores : list (string * list (string * list Q)))
    (row : report_row) : list (string * list (string * list Q)) :=
  let learner_id := rep_learner_id row in
  let mode := _normalize_mode_name (rep_mode row) in
  match rep_frustration_score row with
  | None => learner_mode_scores
  | Some frustration_score =>
      update learner_id
        (fun mode_scores =>
           update mode (fun scores => default [] scores ++ [frustration_score])
                  (default [] mode_scores))
        learner_mode_scores
  end.

(** [analyze_frustration_by_mode]: [mode_column] tells whether the header
    of the file has a column 'mode'; [None] is a missing file. *)
Definition analyze_frustration_by_mode (mode_column : bool)
    (frustration_file : option (list report_row))
  : list (string * list (string * list Q)) :=
  match frustration_file with
  | None => []
  | Some rows =>
      if mode_column then fold_left analyze_row rows [] else []
  end.

(** The entry [find_preferred_modes] makes for a learner. *)
Record preferred : Type := mk_preferred {
  preferred_mode : string;
  avg_frustration : Q;
  mode_scores : list (string * Q)
}.

Section averages.

(** [sum(scores) / len(scores)] as the interpreter computes it, in binary
    floating point. The result is a number; nothing is assumed about how
    it is rounded, so what is proved of [find_preferred_modes] holds for
    the averages Python computes. *)
Variable mean : list Q -> Q.

(** [mode_averages]: the average of every mode that has scores. *)
Definition mode_averages_of (mode_scores : list (string * list Q))
  : list (string * Q) :=
  fold_left
    (fun mode_averages item =>
       match snd item with
       | [] => mode_averages
       | scores => update (fst item) (fun _ => mean scores) mode_averages
       end)
    mode_scores [].

(** [min(.., key=..)] over the items of a dictionary, from the first item
    on: a later item replaces the best one only when its value is
    smaller. *)
Fixpoint min_by_value (best : string * Q) (items : list (string * Q))
  : string * Q :=
  match items with
  | [] => best
  | item :: rest =>
      if Py.Qlt_bool (snd item) (snd best) then min_by_value item rest
      else min_by_value best rest
  end.

Definition find_preferred_modes
    (learner_mode_scores : list (string * list (string * list Q)))
  : list (string * preferred) :=
  fold_left
    (fun preferred_modes item =>
       match mode_averages_of (snd item) with
       | [] => preferred_modes
       | first :: rest =>
           let best := min_by_value first rest in
           update (fst item)
             (fun _ => {| preferred_mode := fst best;
                          avg_frustration := snd best;
                          mode_scores := first :: rest |})
             preferred_modes
       end)
    learner_mode_scores [].

End averages.

(** The average in exact arithmetic. *)
Definition exact_mean (scores : list Q) : Q :=
  Py.sum scores / inject_Z (Z.of_nat (length scores)).

(** The scores of the rows of a learner whose mode has the given
    normalized name, in the order of the file. *)
Fixpoint scores_of (learner_id mode : string) (rows : list report_row)
  : list Q :=
  match rows with
  | [] => []
  | row :: rest =>
      if String.eqb (rep_learner_id row) learner_id
         && String.eqb (_normalize_mode_name (rep_mode row)) mode
      then match rep_frustration_score row with
           | Some s => s :: scores_of learner_id mode rest
           | None => scores_of learner_id mode rest
           end
      else scores_of learner_id mode rest
  end.

End preferred_mode_analyzer.

(** ** Emoitiontracker.py: the emotion reported for a question *)

Module Emoitiontracker.

(** [Counter(emotion_list)]: the labels with their counts, in the order in
    which the labels were first seen. *)
Fixpoint counter_add (label : string) (counts : list (string * nat))
  : list (string * nat) :=
  match counts with
  | [] => [(label, 1%nat)]
  | (k, n) :: rest =>
      if String.eqb k label then (k, S n) :: rest
      else (k, n) :: counter_add label rest
  end.

Definition Counter (emotion_list : list string) : list (string * nat) :=
  fold_left (fun counts label => counter_add label counts) emotion_list [].

(** [most_common(1)] takes the maximum by count over the items in their
    order: a later item replaces the best one only when its count is
    larger. *)
Fixpoint max_by_count (best : string * nat) (items : list (string * nat))
  : string * nat :=
  match items with
  | [] => best
  | item :: rest =>
      if (snd best <? snd item)%nat then max_by_count item rest
      else max_by_count best rest
  end.

Definition most_common_1 (counts : list (string * nat))
  : list (string * nat) :=
  match counts with
  | [] => []
  | first :: rest => [max_by_count first rest]
  end.

(** [stop_emotion_tracking], from the samples the capture loop has
    collected when its thread is joined. The index [[0]] raises on an
    empty list. *)
Definition stop_emotion_tracking (emotion_list : list string)
  : Py.result string :=
  match emotion_list with
  | [] => Py.Returns "Unknown"%string
  | _ =>
      match most_common_1 (Counter emotion_list) with
      | item :: _ => Py.Returns (fst item)
      | [] => Py.Raises
      end
  end.

End Emoitiontracker.

(** ** The reference definitions of the specification

    These follow the wording of the specification, not the code. A value
    the wording leaves undefined (a quotient by zero) is [None]. *)

Module Spec.

Import Frustraiton.

(** The arithmetic mean, with the given count as denominator. *)
Definition total (l : list Q) : Q := fold_right Qplus 0 l.

(** A quotient, undefined when the divisor is zero. *)
Definition quotient (a b : Q) : option Q :=
  if Qeq_bool b 0 then None else Some (a / b).

(** The smaller of two numbers. *)
Definition smaller (a b : Q) : Q := if Qle_bool a b then a else b.

(** Baseline response time: the median over the correct non-skipped
    records; with fewer than 2 of them the median over all non-skipped
    records; with none of those the constant 10. *)
Definition baseline (records : list entry) : option Q :=
  let good := List.filter (fun r => negb (skipped r) && correct r) records in
  let answered := List.filter (fun r => negb (skipped r)) records in
  let med (rs : list entry) :=
    match Py.median (map response_time rs) with
    | Py.Returns m => Some m
    | Py.Raises => None
    end in
  if (length good <? 2)%nat then
    if (length answered =? 0)%nat then Some 10 else med answered
  else med good.

(** err_rate: the fraction of records that are skipped or incorrect. *)
Definition err_rate (records : list entry) : Q :=
  inject_Z (Z.of_nat (length (List.filter (fun r => skipped r || negb (correct r))
                                records)))
  / inject_Z (Z.of_nat (length records)).

(** The excess of one response time as the specification words it:
    min((rt - baseline) / (baseline * 1.5), 1) for rt above the baseline
    and 0 otherwise. *)
Definition excess (b rt : Q) : option Q :=
  if Py.Qlt_bool b rt then
    option_map (fun x => smaller x 1) (quotient (rt - b) (b * 1.5))
  else Some 0.

(** The excess with the guard of the code: 0 whenever the baseline is not
    positive. *)
Definition excess_guarded (b rt : Q) : option Q :=
  if Qle_bool b 0 then Some 0 else excess b rt.

(** All the values of a list of optional values, if all are defined. *)
Fixpoint all_defined (l : list (option Q)) : option (list Q) :=
  match l with
  | [] => Some []
  | None :: _ => None
  | Some x :: rest => option_map (cons x) (all_defined rest)
  end.

(** rt_norm: the mean excess over the non-skipped records, with a
    denominator of at least 1. *)
Definition rt_norm (exc : Q -> Q -> option Q) (b : Q) (records : list entry)
  : option Q :=
  let answered := List.filter (fun r => negb (skipped r)) records in
  option_map
    (fun xs => total xs / inject_Z (Z.max 1 (Z.of_nat (length answered))))
    (all_defined (map (fun r => exc b (response_time r)) answered)).

(** The valence weight of an emotion label. *)
Definition weight (label : string) : Q :=
  if in_strings label ["angry"; "disgust"; "fear"; "sad"]%string then 1
  else if String.eqb label "neutral" then 0.4
  else 0.

(** valence: the mean weight over all records. *)
Definition valence (records : list entry) : Q :=
  total (map (fun r => weight (emotion r)) records)
  / inject_Z (Z.of_nat (length records)).

(** The note for a score: High above 0.75, Moderate above 0.4, else Low. *)
Definition note (score : Q) : Note :=
  if Py.Qlt_bool 0.75 score then High_frustration
  else if Py.Qlt_bool 0.4 score then Moderate_frustration
  else Low_frustration.

(** The scorer of the specification, for a given wording of the excess:
    the empty list gives (0, Low); otherwise the smoothstep of the
    composite, rounded to 2 decimals, with the note of the smoothstep
    value. *)
Definition score_with (exc : Q -> Q -> option Q) (records : list entry)
  : option (Q * Note) :=
  match records with
  | [] => Some (0, Low_frustration)
  | _ :: _ =>
      match baseline records with
      | None => None
      | Some b =>
          match rt_norm exc b records with
          | None => None
          | Some rtn =>
              let s := 0.45 * err_rate records + 0.25 * rtn
                       + 0.30 * valence records in
              let sc := 3 * (s * s) - 2 * (s * s * s) in
              Some (Py.round2 sc, note sc)
          end
      end
  end.

(** The reference definition as stated. *)
Definition score : list entry -> option (Q * Note) := score_with excess.

(** The reference definition with the guard on the baseline. *)
Definition score_guarded : list entry -> option (Q * Note) :=
  score_with excess_guarded.

(** An interaction record of the data model: a response time that is not
    negative, a lowercase-normalized emotion label, and no record both
    skipped and correct. *)
Definition well_formed (r : entry) : Prop :=
  0 <= response_time r
  /\ Py.lower (emotion r) = emotion r
  /\ (skipped r = true -> correct r = false).

(** The scorer and a reference definition agree: both are defined, with
    equal scores and the same note. *)
Definition agree (code : Py.result (Q * Note)) (ref : option (Q * Note))
  : Prop :=
  match code, ref with
  | Py.Returns (sc, n), Some (sc', n') => sc == sc' /\ n = n'
  | _, _ => False
  end.

(** A record with its response time replaced, all other fields kept. *)
Definition with_response_time (r : entry) (rt : Q) : entry :=
  {| mode := mode r;
     question := question r;
     response_time := rt;
     correct := correct r;
     skipped := skipped r;
     emotion := emotion r |}.

(** A record and a later version of it that differ at most by a larger
    response time. *)
Definition slower (r r' : entry) : Prop :=
  skipped r = skipped r' /\ response_time r <= response_time r'.

(** A row of the report is the report of test [t] of learner [l]. *)
Definition row_of (l : string) (t : Z) (row : report_row) : Prop :=
  rep_learner_id row = l /\ rep_test_number row = Some t.

(** The closed interval from 0 to 1. *)
Definition unit_interval (x : Q) : Prop := 0 <= x /\ x <= 1.

(** *** Mode selection *)

Import LearningApp.

(** next_mode: the cyclic order visual, auditory, kinesthetic, visual. *)
Definition next_mode (m : string) : string :=
  if String.eqb m "visual" then "auditory"%string
  else if String.eqb m "auditory" then "kinesthetic"%string
  else if String.eqb m "kinesthetic" then "visual"%string
  else m.

(** The latest frustration score of a learner: the score of the report
    appended last for that learner; [None] when no report exists. *)
Definition latest_frustration (fs : files) (l : string) : option Q :=
  match List.filter (fun row => String.eqb (rep_learner_id row) l)
               (default [] (frustration_report fs l)) with
  | [] => None
  | row :: rows => rep_frustration_score (List.last rows row)
  end.

(** The stored PreferredMode of a learner: the value written last. *)
Definition preferred_mode (fs : files) (l : string) : option string :=
  match List.filter (fun row => String.eqb (pref_learner_id row) l)
               (default [] (PREFERRED_MODE_FILE fs)) with
  | [] => None
  | row :: rows => Some (pref_preferred_mode (List.last rows row))
  end.

(** Whether a learner has any report. *)
Definition has_report (fs : files) (l : string) : bool :=
  existsb (fun row => String.eqb (rep_learner_id row) l)
          (default [] (frustration_report fs l)).

(** The five-row decision table, in priority order. *)
Definition select_mode_live (fs : files) (l : string) : string :=
  if negb (has_report fs l) then "visual"%string
  else
    match latest_frustration fs l with
    | None => "visual"%string
    | Some score =>
        if Qle_bool 0.4 score then
          match get_last_used_mode fs l with
          | Some m => next_mode m
          | None => "auditory"%string
          end
        else
          match preferred_mode fs l with
          | Some pm => pm
          | None =>
              match get_last_used_mode fs l with
              | Some m => m
              | None => "visual"%string
              end
          end
    end.

End Spec.

(** ** Concrete inputs used in the statements below *)

Module Examples.

Import Frustraiton.

(** Three correct answers after 0, 0 and 1 seconds: the baseline is 0. *)
Definition zero_baseline_records : list entry :=
  [ mk_entry "visual" "q1" 0 true false "neutral";
    mk_entry "visual" "q2" 0 true false "neutral";
    mk_entry "visual" "q3" 1 true false "neutral" ].

(** A correct and an incorrect answer, both after 1 second. *)
Definition borderline_records : list entry :=
  [ mk_entry "visual" "q1" 1 true false "sad";
    mk_entry "visual" "q2" 1 false false "neutral" ].

(** A fast correct answer and a slow incorrect one. *)
Definition two_records : list entry :=
  [ mk_entry "visual" "q1" 2 true false "happy";
    mk_entry "visual" "q2" 9 false false "sad" ].

(** Correct answers after 1, 1 and 10 seconds, and the same test with the
    first response time raised from 1 to 10 seconds. *)
Definition slow_third_records : list entry :=
  [ mk_entry "visual" "q1" 1 true false "happy";
    mk_entry "visual" "q2" 1 true false "happy";
    mk_entry "visual" "q3" 10 true false "happy" ].

Definition slow_first_and_third_records : list entry :=
  [ mk_entry "visual" "q1" 10 true false "happy";
    mk_entry "visual" "q2" 1 true false "happy";
    mk_entry "visual" "q3" 10 true false "happy" ].

Import LearningApp.

(** The files of a single learner, "7". *)
Definition only_learner_7 {A : Type} (rows : list A) : string -> option (list A) :=
  fun learner_id => if String.eqb learner_id "7" then Some rows else None.

Definition report_of_7 (t : Z) (score : Q) (notes : string) : report_row :=
  mk_report_row "7" (Some t) "2024-01-01 10:00:00" "visual" (Some score) notes.

Definition log_of_7 (t : Z) (m : string) : log_row :=
  mk_log_row "7" (Some t) m "2 + 2" (Some 3) "True" "False" "happy".

(** Learner 7 took two tests in visual mode: the first was scored 0.8, the
    second and latest 0.1. No preference is stored. *)
Definition calmed_down_files : files :=
  mk_files None
    (only_learner_7 [ report_of_7 1 0.8 "High frustration";
                      report_of_7 2 0.1 "Low frustration" ])
    (only_learner_7 [ log_of_7 1 "visual"; log_of_7 2 "visual" ]).

(** Learner 7 took one calm test and has the stored preference
    kinesthetic. *)
Definition settled_files : files :=
  mk_files (Some [ mk_pref_row "7" "kinesthetic" ])
    (only_learner_7 [ report_of_7 1 0.1 "Low frustration" ])
    (only_learner_7 [ log_of_7 1 "visual" ]).


(** Only a stored preference, visual, for learner 7. *)
Definition preference_files : files :=
  mk_files (Some [ mk_pref_row "7" "visual" ]) (fun _ => None) (fun _ => None).


(** A question whose answer key is the word "skip", in the desktop
    application and in the web application. *)
Definition skip_question : question_data :=
  mk_question "Which word lets you pass a question?" "skip".

Definition desktop_state : app_state :=
  mk_app_state "7" 1 "visual" skip_question 100 0 [].

Definition web_session : learning_webapp.session_info :=
  learning_webapp.mk_session_info "7" "visual" 1 0 [] 100 skip_question.

(** A question with an ordinary answer key. *)
Definition sum_question : question_data := mk_question "2 + 2" "4".

Definition desktop_state_sum : app_state :=
  mk_app_state "7" 1 "visual" sum_question 100 0 [].


(** Learner 7, mode visual stored, last interaction at time 1000, monitor
    running, no threshold stored and no override. *)
Definition idle_state : run_addition_app.state :=
  run_addition_app.mk_state (<[7%Z := 1000]> ∅) {[ 7%Z ]} ∅
    (Some [ run_addition_app.mk_pm_row (Some 7%Z) (Some "visual"%string) ])
    None ∅.

(** As [idle_state], with a file that also has two rows of learner 8. *)
Definition shared_file_state : run_addition_app.state :=
  run_addition_app.mk_state (<[7%Z := 1000]> ∅) {[ 7%Z ]} ∅
    (Some [ run_addition_app.mk_pm_row (Some 8%Z) (Some "Visual"%string);
            run_addition_app.mk_pm_row (Some 7%Z) (Some "visual"%string);
            run_addition_app.mk_pm_row (Some 8%Z)
              (Some " Interactive "%string) ])
    None ∅.

(** As [idle_state], with a file whose second row has the learner id "x",
    which is not an integer. *)
Definition malformed_file_state : run_addition_app.state :=
  run_addition_app.mk_state (<[7%Z := 1000]> ∅) {[ 7%Z ]} ∅
    (Some [ run_addition_app.mk_pm_row (Some 8%Z) (Some "auditory"%string);
            run_addition_app.mk_pm_row None (Some "visual"%string) ])
    None ∅.

End Examples.

(** * Properties *)

(** ** The frustration scorer returns *)

Lemma insert_sorted_length (x : Q) (l : list Q) :
  length (Py.insert_sorted x l) = S (length l).
Proof.
  induction l as [|y l IH]; simpl; [reflexivity|].
  destruct (Qle_bool x y); simpl; [reflexivity|]. now rewrite IH.
Qed.

Lemma sorted_length (l : list Q) : length (Py.sorted l) = length l.
Proof.
  induction l as [|x l IH]; [reflexivity|].
  change (Py.sorted (x :: l)) with (Py.insert_sorted x (Py.sorted l)).
  rewrite insert_sorted_length, IH. reflexivity.
Qed.

Lemma nth_error_in_range {A : Type} (l : list A) (i : nat) :
  (i < length l)%nat -> exists a, nth_error l i = Some a.
Proof.
  intros H. destruct (nth_error l i) as [a|] eqn:E; [eauto|].
  apply nth_error_None in E. lia.
Qed.

Lemma median_returns (l : list Q) :
  l <> [] -> exists m, Py.median l = Py.Returns m.
Proof.
  intros Hne. unfold Py.median. rewrite sorted_length.
  assert (Hlen : (0 < length l)%nat) by (destruct l; simpl; [congruence|lia]).
  destruct (Nat.eqb_spec (length l) 0) as [E|_]; [lia|].
  destruct (Nat.eqb_spec (length l mod 2) 1) as [Hodd|Heven].
  - destruct (nth_error_in_range (Py.sorted l) (length l / 2)) as [a Ha].
    + rewrite sorted_length. apply Nat.div_lt; lia.
    + rewrite Ha. eauto.
  - assert (Hmod : (length l mod 2 = 0)%nat).
    { pose proof (Nat.mod_upper_bound (length l) 2). lia. }
    pose proof (Nat.div_mod_eq (length l) 2) as Hdm.
    destruct (nth_error_in_range (Py.sorted l) (length l / 2 - 1)) as [a Ha].
    { rewrite sorted_length. lia. }
    destruct (nth_error_in_range (Py.sorted l) (length l / 2)) as [b Hb].
    { rewrite sorted_length. lia. }
    rewrite Ha, Hb. simpl. eauto.
Qed.

Lemma baseline_returns (entries : list Frustraiton.entry) :
  exists b, Frustraiton.baseline_of entries = Py.Returns b.
Proof.
  unfold Frustraiton.baseline_of.
  destruct (Nat.leb_spec 2 (length (Frustraiton.rts_correct entries))) as [H|H].
  - apply median_returns. intros E. rewrite E in H. simpl in H. lia.
  - destruct (Frustraiton.rts_all entries) as [|x xs] eqn:E; [eauto|].
    apply median_returns. congruence.
Qed.

Lemma composite_returns (entries : list Frustraiton.entry) :
  exists s, Frustraiton.composite_of entries = Py.Returns s.
Proof.
  unfold Frustraiton.composite_of.
  destruct (baseline_returns entries) as [b ->]. simpl. eauto.
Qed.

(** ** Bounds of the components *)

Import Spec(unit_interval).

Lemma fold_left_Qplus_bounds (l : list Q) (a : Q) :
  Forall unit_interval l ->
  a <= fold_left Qplus l a
  /\ fold_left Qplus l a <= a + inject_Z (Z.of_nat (length l)).
Proof.
  revert a. induction l as [|x l IH]; intros a Hl.
  - cbn [fold_left length]. change (inject_Z (Z.of_nat 0)) with 0.
    split; lra.
  - inversion Hl as [|? ? [Hx0 Hx1] Hl']; subst.
    destruct (IH (a + x) Hl') as [H1 H2].
    change (fold_left Qplus (x :: l) a) with (fold_left Qplus l (a + x)).
    replace (Z.of_nat (length (x :: l))) with (Z.of_nat (length l) + 1)%Z
      by (simpl length; lia).
    rewrite inject_Z_plus. change (inject_Z 1) with 1. split; lra.
Qed.

Lemma sum_bounds (l : list Q) :
  Forall unit_interval l ->
  0 <= Py.sum l /\ Py.sum l <= inject_Z (Z.of_nat (length l)).
Proof.
  intros Hl. destruct (fold_left_Qplus_bounds l 0 Hl) as [H1 H2].
  unfold Py.sum. split; lra.
Qed.

Lemma Qle_bool_false (x y : Q) : Qle_bool x y = false -> y < x.
Proof.
  intros H. apply Qnot_le_lt. intros Hle.
  apply Qle_bool_iff in Hle. congruence.
Qed.

Lemma Qlt_bool_true (x y : Q) : Py.Qlt_bool x y = true -> x < y.
Proof.
  unfold Py.Qlt_bool. intros H. apply Qle_bool_false.
  now destruct (Qle_bool y x).
Qed.

Lemma Qlt_bool_false (x y : Q) : Py.Qlt_bool x y = false -> y <= x.
Proof.
  unfold Py.Qlt_bool. intros H. apply Qle_bool_iff.
  now destruct (Qle_bool y x).
Qed.

Lemma min_one_bounds (x : Q) : 0 <= x -> unit_interval (Py.min x 1).
Proof.
  intros Hx. unfold Py.min, unit_interval.
  destruct (Py.Qlt_bool 1 x) eqn:E.
  - split; lra.
  - apply Qlt_bool_false in E. split; lra.
Qed.

Lemma ratio_nonneg (b rt : Q) : 0 < b -> b < rt -> 0 <= (rt - b) / (b * 1.5).
Proof.
  intros Hb Hrt. apply Qle_shift_div_l; lra.
Qed.

Lemma excess_of_bounds (b rt : Q) : unit_interval (Frustraiton.excess_of b rt).
Proof.
  unfold Frustraiton.excess_of.
  destruct (Qle_bool b 0) eqn:Eb; [split; lra|].
  destruct (Qle_bool rt b) eqn:Ert; [split; lra|].
  apply Qle_bool_false in Eb, Ert.
  apply min_one_bounds, ratio_nonneg; assumption.
Qed.

Lemma rt_excess_bounds (b : Q) (entries : list Frustraiton.entry) :
  Forall unit_interval (Frustraiton.rt_excess b entries).
Proof.
  induction entries as [|e es IH]; simpl; [constructor|].
  destruct (Frustraiton.skipped e); [assumption|].
  constructor; [apply excess_of_bounds | assumption].
Qed.

Lemma mean_bounds (total : Q) (n d : Z) :
  0 <= total -> total <= inject_Z n -> (n <= d)%Z -> (0 < d)%Z ->
  unit_interval (total / inject_Z d).
Proof.
  intros H0 Hn Hnd Hd.
  assert (Hd' : 0 < inject_Z d).
  { change 0 with (inject_Z 0). rewrite <- Zlt_Qlt. exact Hd. }
  assert (Hnd' : inject_Z n <= inject_Z d) by (rewrite <- Zle_Qle; exact Hnd).
  split.
  - apply Qle_shift_div_l; [assumption|lra].
  - apply Qle_shift_div_r; [assumption|lra].
Qed.

Lemma rt_norm_bounds (b : Q) (entries : list Frustraiton.entry) :
  unit_interval (Frustraiton.rt_norm_of b entries).
Proof.
  unfold Frustraiton.rt_norm_of.
  destruct (sum_bounds _ (rt_excess_bounds b entries)) as [H0 H1].
  eapply mean_bounds; eauto; lia.
Qed.

Lemma filter_length_le {A : Type} (f : A -> bool) (l : list A) :
  (length (List.filter f l) <= length l)%nat.
Proof.
  induction l as [|x l IH]; simpl; [lia|]. destruct (f x); simpl; lia.
Qed.

Lemma err_rate_bounds (e : Frustraiton.entry) (es : list Frustraiton.entry) :
  unit_interval (Frustraiton.err_rate_of (e :: es)).
Proof.
  unfold Frustraiton.err_rate_of, Frustraiton.err_count.
  pose proof (filter_length_le
    (fun e => Frustraiton.skipped e || negb (Frustraiton.correct e)) (e :: es)).
  eapply mean_bounds with (n := Z.of_nat _).
  - change 0 with (inject_Z 0). rewrite <- Zle_Qle. lia.
  - apply Qle_refl.
  - lia.
  - simpl length. lia.
Qed.

Lemma emo_val_bounds (e : Frustraiton.entry) :
  unit_interval (Frustraiton.emo_val e).
Proof.
  unfold Frustraiton.emo_val, unit_interval.
  destruct (Frustraiton.in_strings _ _); [split; lra|].
  destruct (String.eqb _ _); split; lra.
Qed.

Lemma valence_bounds (e : Frustraiton.entry) (es : list Frustraiton.entry) :
  unit_interval (Frustraiton.valence_of (e :: es)).
Proof.
  unfold Frustraiton.valence_of.
  assert (Hall : Forall unit_interval (map Frustraiton.emo_val (e :: es))).
  { apply List.Forall_forall. intros x Hx. apply List.in_map_iff in Hx.
    destruct Hx as [y [<- _]]. apply emo_val_bounds. }
  destruct (sum_bounds _ Hall) as [H0 H1].
  rewrite length_map in H1.
  eapply mean_bounds; eauto; simpl length; lia.
Qed.

Lemma composite_bounds (a b c : Q) :
  unit_interval a -> unit_interval b -> unit_interval c ->
  unit_interval (Frustraiton.composite a b c).
Proof.
  unfold unit_interval, Frustraiton.composite. intros [? ?] [? ?] [? ?].
  split; lra.
Qed.

Lemma smoothstep_bounds (s : Q) :
  unit_interval s -> unit_interval (Frustraiton.smoothstep s).
Proof.
  unfold unit_interval, Frustraiton.smoothstep. intros [H0 H1].
  assert (Hsq : 0 <= s * s) by (apply Qmult_le_0_compat; lra).
  assert (Hlo : 0 <= (s * s) * (3 - 2 * s))
    by (apply Qmult_le_0_compat; lra).
  assert (Hsq' : 0 <= (1 - s) * (1 - s)) by (apply Qmult_le_0_compat; lra).
  assert (Hhi : 0 <= ((1 - s) * (1 - s)) * (1 + 2 * s))
    by (apply Qmult_le_0_compat; lra).
  split; lra.
Qed.

Lemma round_half_even_bounds (y : Q) (n : Z) :
  0 <= y -> y <= inject_Z n ->
  (0 <= Py.round_half_even y <= n)%Z.
Proof.
  intros H0 Hn. unfold Py.round_half_even.
  pose proof (Qfloor_le y) as Hfl. pose proof (Qlt_floor y) as Hfu.
  rewrite inject_Z_plus in Hfu. change (inject_Z 1) with 1 in Hfu.
  assert (Hf0 : (0 <= Qfloor y)%Z).
  { assert (H : inject_Z (-1) < inject_Z (Qfloor y))
      by (change (inject_Z (-1)) with (-1 # 1); lra).
    rewrite <- Zlt_Qlt in H. lia. }
  assert (Hfn : (Qfloor y <= n)%Z).
  { rewrite Zle_Qle. lra. }
  assert (Hup : 1 # 2 <= y - inject_Z (Qfloor y) -> (Qfloor y + 1 <= n)%Z).
  { intros Hhalf.
    assert (H : inject_Z (Qfloor y) < inject_Z n) by lra.
    rewrite <- Zlt_Qlt in H. lia. }
  destruct (Qcompare_spec (y - inject_Z (Qfloor y)) (1 # 2)) as [E|E|E].
  - destruct (Z.even (Qfloor y)); [lia|].
    assert ((Qfloor y + 1 <= n)%Z) by (apply Hup; lra). lia.
  - lia.
  - assert ((Qfloor y + 1 <= n)%Z) by (apply Hup; lra). lia.
Qed.

Lemma round2_bounds (x : Q) : unit_interval x -> unit_interval (Py.round2 x).
Proof.
  intros [H0 H1]. unfold Py.round2.
  destruct (round_half_even_bounds (x * 100) 100) as [Hr0 Hr1].
  - lra.
  - change (inject_Z 100) with 100. lra.
  - apply mean_bounds with (n := Py.round_half_even (x * 100)) (d := 100%Z).
    + change 0 with (inject_Z 0). rewrite <- Zle_Qle. exact Hr0.
    + apply Qle_refl.
    + exact Hr1.
    + lia.
Qed.

(** C7: for every list of interaction records, whatever the response
    times, correctness flags, skip flags and emotion labels, the scorer
    returns, and the score it returns lies in the closed interval from 0
    to 1. *)
Theorem C7_score_in_unit_interval (entries : list Frustraiton.entry) :
  exists score note,
    Frustraiton._compute_test_frustration entries = Py.Returns (score, note)
    /\ 0 <= score /\ score <= 1.
Proof.
  destruct entries as [|e es].
  - exists 0, Frustraiton.Low_frustration. simpl. repeat split; lra.
  - unfold Frustraiton._compute_test_frustration, Frustraiton.composite_of.
    destruct (baseline_returns (e :: es)) as [b ->]. simpl Py.bind.
    eexists _, _. split; [reflexivity|].
    apply round2_bounds, smoothstep_bounds, composite_bounds.
    + apply err_rate_bounds.
    + apply rt_norm_bounds.
    + apply valence_bounds.
Qed.

(** ** The note and the rounded score *)

(** C10: the note comes from the thresholds 0.4 and 0.75 applied to the
    smoothstep value before it is rounded: every non-empty list has a
    composite [s], and the scorer returns the rounded smoothstep of [s]
    with the note of the unrounded one. For the two records of
    [Examples.borderline_records] the scorer returns the score 0.4 with the note Moderate, although the
    thresholds applied to the returned score 0.4 give Low. *)
Theorem C10_note_uses_unrounded_score :
  (forall e es,
     exists s,
       Frustraiton.composite_of (e :: es) = Py.Returns s
       /\ Frustraiton._compute_test_frustration (e :: es)
          = Py.Returns (Py.round2 (Frustraiton.smoothstep s),
                        Frustraiton.note_of (Frustraiton.smoothstep s)))
  /\ (exists entries score,
        entries <> []
        /\ Frustraiton._compute_test_frustration entries
           = Py.Returns (score, Frustraiton.Moderate_frustration)
        /\ score == 0.4
        /\ Frustraiton.note_of score = Frustraiton.Low_frustration).
Proof.
  split.
  - intros e es. destruct (composite_returns (e :: es)) as [s Hs].
    exists s. split; [exact Hs|].
    unfold Frustraiton._compute_test_frustration. rewrite Hs. reflexivity.
  - exists Examples.borderline_records, (40 # 100).
    split; [discriminate|]. split; [vm_compute; reflexivity|].
    split; [reflexivity|]. vm_compute. reflexivity.
Qed.

(** ** The scorer against the reference definition *)

Lemma fold_left_Qplus_total (l : list Q) (a : Q) :
  fold_left Qplus l a == a + Spec.total l.
Proof.
  revert a. induction l as [|x l IH]; intros a.
  - cbn. lra.
  - change (fold_left Qplus (x :: l) a) with (fold_left Qplus l (a + x)).
    rewrite IH. change (Spec.total (x :: l)) with (x + Spec.total l). lra.
Qed.

Lemma sum_total (l : list Q) : Py.sum l == Spec.total l.
Proof. unfold Py.sum. rewrite fold_left_Qplus_total. lra. Qed.

Lemma round_half_even_comp (x y : Q) :
  x == y -> Py.round_half_even x = Py.round_half_even y.
Proof.
  intros E. unfold Py.round_half_even.
  rewrite (Qfloor_comp _ _ E).
  assert (Hc : Qcompare (x - inject_Z (Qfloor y)) (1 # 2)
               = Qcompare (y - inject_Z (Qfloor y)) (1 # 2))
    by (apply Qcompare_comp; [rewrite E|]; reflexivity).
  rewrite Hc. reflexivity.
Qed.

Lemma round2_comp (x y : Q) : x == y -> Py.round2 x = Py.round2 y.
Proof.
  intros E. unfold Py.round2.
  rewrite (round_half_even_comp (x * 100) (y * 100)); [reflexivity|].
  rewrite E. reflexivity.
Qed.

Lemma Qlt_bool_comp (a x y : Q) : x == y -> Py.Qlt_bool a x = Py.Qlt_bool a y.
Proof. intros E. unfold Py.Qlt_bool. rewrite E. reflexivity. Qed.

Lemma note_comp (x y : Q) : x == y -> Spec.note x = Frustraiton.note_of y.
Proof.
  intros E. unfold Spec.note, Frustraiton.note_of.
  rewrite (Qlt_bool_comp 0.75 x y E), (Qlt_bool_comp 0.4 x y E). reflexivity.
Qed.

Lemma filter_ext_bool {A : Type} (f g : A -> bool) (l : list A) :
  (forall a, f a = g a) -> List.filter f l = List.filter g l.
Proof.
  intros E. induction l as [|x l IH]; simpl; [reflexivity|].
  rewrite E, IH. reflexivity.
Qed.

Lemma baseline_spec (entries : list Frustraiton.entry) :
  Spec.baseline entries
  = match Frustraiton.baseline_of entries with
    | Py.Returns b => Some b
    | Py.Raises => None
    end.
Proof.
  unfold Spec.baseline, Frustraiton.baseline_of,
    Frustraiton.rts_correct, Frustraiton.rts_all.
  rewrite (filter_ext_bool
             (fun r => negb (Frustraiton.skipped r) && Frustraiton.correct r)
             (fun e => Frustraiton.correct e && negb (Frustraiton.skipped e)))
    by (intros a; apply andb_comm).
  rewrite !length_map.
  set (good := List.filter _ entries).
  set (answered := List.filter (fun r => negb (Frustraiton.skipped r)) entries).
  destruct (Nat.ltb_spec (length good) 2) as [H|H];
    destruct (Nat.leb_spec 2 (length good)) as [H'|H']; try lia.
  - destruct answered as [|x xs]; reflexivity.
  - reflexivity.
Qed.

Lemma smaller_min (x : Q) : Spec.smaller x 1 = Py.min x 1.
Proof.
  unfold Spec.smaller, Py.min, Py.Qlt_bool.
  destruct (Qle_bool x 1); reflexivity.
Qed.

Lemma excess_guarded_spec (b rt : Q) :
  Spec.excess_guarded b rt = Some (Frustraiton.excess_of b rt).
Proof.
  unfold Spec.excess_guarded, Spec.excess, Frustraiton.excess_of, Py.Qlt_bool.
  destruct (Qle_bool b 0) eqn:Eb; [reflexivity|].
  destruct (Qle_bool rt b) eqn:Ert; [reflexivity|]. simpl negb. cbv iota.
  unfold Spec.quotient.
  destruct (Qeq_bool (b * 1.5) 0) eqn:Ez.
  - apply Qeq_bool_eq in Ez. apply Qle_bool_false in Eb. lra.
  - simpl. rewrite smaller_min. reflexivity.
Qed.

Lemma rt_excess_spec (b : Q) (entries : list Frustraiton.entry) :
  Spec.all_defined
    (map (fun r => Spec.excess_guarded b (Frustraiton.response_time r))
       (List.filter (fun r => negb (Frustraiton.skipped r)) entries))
  = Some (Frustraiton.rt_excess b entries)
  /\ length (List.filter (fun r => negb (Frustraiton.skipped r)) entries)
     = length (Frustraiton.rt_excess b entries).
Proof.
  induction entries as [|e es [IH1 IH2]]; [split; reflexivity|].
  simpl. destruct (Frustraiton.skipped e); simpl; [split; assumption|].
  rewrite excess_guarded_spec, IH1, IH2. split; reflexivity.
Qed.

Lemma rt_norm_spec (b : Q) (entries : list Frustraiton.entry) :
  exists r, Spec.rt_norm Spec.excess_guarded b entries = Some r
            /\ r == Frustraiton.rt_norm_of b entries.
Proof.
  unfold Spec.rt_norm, Frustraiton.rt_norm_of.
  destruct (rt_excess_spec b entries) as [-> ->]. simpl.
  eexists. split; [reflexivity|]. rewrite sum_total. reflexivity.
Qed.

Lemma valence_spec (entries : list Frustraiton.entry) :
  Forall (fun r => Py.lower (Frustraiton.emotion r) = Frustraiton.emotion r)
    entries ->
  Spec.valence entries == Frustraiton.valence_of entries.
Proof.
  intros Hl. unfold Spec.valence, Frustraiton.valence_of.
  rewrite sum_total.
  assert (E : map (fun r => Spec.weight (Frustraiton.emotion r)) entries
              = map Frustraiton.emo_val entries).
  { induction Hl as [|r rs Hr _ IH]; [reflexivity|]. simpl. rewrite IH.
    unfold Frustraiton.emo_val. rewrite Hr. reflexivity. }
  rewrite E. reflexivity.
Qed.

(** C1 (as stated, refuted): three well-formed records answered correctly
    after 0, 0 and 1 seconds have the baseline 0; the excess of the third
    record is then a quotient by zero in the reference definition, which
    has no value, while the scorer returns a score. *)
Lemma C1_reference_undefined_at_zero_baseline :
  Forall Spec.well_formed Examples.zero_baseline_records
  /\ Frustraiton.baseline_of Examples.zero_baseline_records = Py.Returns 0
  /\ Frustraiton._compute_test_frustration Examples.zero_baseline_records
     = Py.Returns (0.04, Frustraiton.Low_frustration)
  /\ Spec.score Examples.zero_baseline_records = None
  /\ ~ Spec.agree
         (Frustraiton._compute_test_frustration Examples.zero_baseline_records)
         (Spec.score Examples.zero_baseline_records).
Proof.
  split.
  - repeat constructor; simpl; try lra; discriminate.
  - split; [reflexivity|]. split; [reflexivity|]. split; [reflexivity|].
    vm_compute. tauto.
Qed.

(** C1 (amended): for every list of interaction records with
    lowercase-normalized emotion labels, the scorer agrees with the
    reference definition in which the excess of a response time is 0
    whenever the baseline is not positive: both are defined, the scores
    are equal and the notes are the same. *)
Theorem C1_scorer_agrees_with_guarded_reference
    (entries : list Frustraiton.entry) :
  Forall (fun r => Py.lower (Frustraiton.emotion r) = Frustraiton.emotion r)
    entries ->
  Spec.agree (Frustraiton._compute_test_frustration entries)
    (Spec.score_guarded entries).
Proof.
  intros Hl. destruct entries as [|e es].
  - simpl. split; reflexivity.
  - unfold Spec.score_guarded, Spec.score_with,
      Frustraiton._compute_test_frustration, Frustraiton.composite_of.
    rewrite baseline_spec.
    destruct (baseline_returns (e :: es)) as [b ->]. simpl Py.bind.
    destruct (rt_norm_spec b (e :: es)) as [r [-> Hr]].
    cbv zeta. unfold Spec.agree.
    assert (Hs : 0.45 * Spec.err_rate (e :: es) + 0.25 * r
                 + 0.30 * Spec.valence (e :: es)
                 == Frustraiton.composite (Frustraiton.err_rate_of (e :: es))
                      (Frustraiton.rt_norm_of b (e :: es))
                      (Frustraiton.valence_of (e :: es))).
    { unfold Frustraiton.composite. rewrite Hr, (valence_spec _ Hl).
      reflexivity. }
    set (s' := 0.45 * Spec.err_rate (e :: es) + 0.25 * r
               + 0.30 * Spec.valence (e :: es)) in *.
    set (s := Frustraiton.composite _ _ _) in *.
    assert (Hsc : 3 * (s' * s') - 2 * (s' * s' * s')
                  == Frustraiton.smoothstep s).
    { unfold Frustraiton.smoothstep. rewrite Hs. ring. }
    split.
    + rewrite (round2_comp _ _ Hsc). reflexivity.
    + symmetry. apply note_comp. exact Hsc.
Qed.

(** The amended statement at two concrete records. *)
Lemma C1_scorer_agrees_witness :
  Spec.agree (Frustraiton._compute_test_frustration Examples.two_records)
    (Spec.score_guarded Examples.two_records).
Proof.
  apply C1_scorer_agrees_with_guarded_reference.
  repeat constructor.
Defined.

(** ** Response times and the latency component *)

(** C4 (as stated, refuted): raising the first response time of the test
    with times 1, 1, 10 from 1 to 10 moves the baseline from 1 to 10, and
    both rt_norm and the composite decrease, with err_rate and valence
    unchanged. *)
Lemma C4_raising_a_time_can_lower_rt_norm :
  Examples.slow_first_and_third_records
  = [ Spec.with_response_time
        (Frustraiton.mk_entry "visual" "q1" 1 true false "happy") 10;
      Frustraiton.mk_entry "visual" "q2" 1 true false "happy";
      Frustraiton.mk_entry "visual" "q3" 10 true false "happy" ]
  /\ Frustraiton.baseline_of Examples.slow_third_records = Py.Returns 1
  /\ Frustraiton.baseline_of Examples.slow_first_and_third_records
     = Py.Returns 10
  /\ Frustraiton.rt_norm_of 1 Examples.slow_third_records == 1 # 3
  /\ Frustraiton.rt_norm_of 10 Examples.slow_first_and_third_records == 0
  /\ Frustraiton.err_rate_of Examples.slow_first_and_third_records
     = Frustraiton.err_rate_of Examples.slow_third_records
  /\ Frustraiton.valence_of Examples.slow_first_and_third_records
     = Frustraiton.valence_of Examples.slow_third_records
  /\ exists s s',
       Frustraiton.composite_of Examples.slow_third_records = Py.Returns s
       /\ Frustraiton.composite_of Examples.slow_first_and_third_records
          = Py.Returns s'
       /\ s' < s.
Proof.
  repeat (split; [reflexivity|]).
  eexists _, _. split; [reflexivity|]. split; [reflexivity|].
  vm_compute. reflexivity.
Qed.

Lemma min_one_comp (x y : Q) : x == y -> Py.min x 1 == Py.min y 1.
Proof.
  intros E. unfold Py.min. rewrite (Qlt_bool_comp 1 x y E).
  destruct (Py.Qlt_bool 1 y); [reflexivity | exact E].
Qed.

Lemma min_one_mono (x y : Q) : x <= y -> Py.min x 1 <= Py.min y 1.
Proof.
  intros H. unfold Py.min.
  destruct (Py.Qlt_bool 1 x) eqn:Ex; destruct (Py.Qlt_bool 1 y) eqn:Ey;
    try apply Qlt_bool_true in Ex; try apply Qlt_bool_true in Ey;
    try apply Qlt_bool_false in Ex; try apply Qlt_bool_false in Ey; lra.
Qed.

Lemma excess_of_comp (b b' rt : Q) :
  b == b' -> Frustraiton.excess_of b rt == Frustraiton.excess_of b' rt.
Proof.
  intros E. unfold Frustraiton.excess_of.
  assert (E1 : Qle_bool b 0 = Qle_bool b' 0) by (rewrite E; reflexivity).
  assert (E2 : Qle_bool rt b = Qle_bool rt b') by (rewrite E; reflexivity).
  rewrite E1, E2.
  destruct (Qle_bool b' 0); [reflexivity|].
  destruct (Qle_bool rt b'); [reflexivity|].
  apply min_one_comp. rewrite E. reflexivity.
Qed.

Lemma excess_of_mono (b rt rt' : Q) :
  rt <= rt' -> Frustraiton.excess_of b rt <= Frustraiton.excess_of b rt'.
Proof.
  intros H. unfold Frustraiton.excess_of.
  destruct (Qle_bool b 0) eqn:Eb; [lra|]. apply Qle_bool_false in Eb.
  destruct (Qle_bool rt b) eqn:Ert.
  - destruct (Qle_bool rt' b) eqn:Ert'; [lra|]. apply Qle_bool_false in Ert'.
    apply (min_one_bounds _ (ratio_nonneg b rt' Eb Ert')).
  - apply Qle_bool_false in Ert.
    destruct (Qle_bool rt' b) eqn:Ert'.
    + apply Qle_bool_iff in Ert'. lra.
    + apply min_one_mono. apply Qmult_le_compat_r; [lra|].
      apply Qinv_le_0_compat. lra.
Qed.


Lemma rt_excess_slower (b b' : Q) (es es' : list Frustraiton.entry) :
  b == b' -> Forall2 Spec.slower es es' ->
  Forall2 Qle (Frustraiton.rt_excess b es) (Frustraiton.rt_excess b' es').
Proof.
  intros E H. induction H as [|e e' es es' [Hs Hrt] _ IH]; simpl.
  - constructor.
  - rewrite <- Hs. destruct (Frustraiton.skipped e); [exact IH|].
    constructor; [|exact IH].
    rewrite (excess_of_comp b b' _ E). apply excess_of_mono. exact Hrt.
Qed.

Lemma total_mono (l l' : list Q) :
  Forall2 Qle l l' -> Spec.total l <= Spec.total l'.
Proof.
  induction 1 as [|x y l l' Hxy _ IH]; simpl; [lra|].
  change (x + Spec.total l <= y + Spec.total l'). lra.
Qed.

Lemma Forall2_same_length {A B : Type} (R : A -> B -> Prop) l l' :
  Forall2 R l l' -> length l = length l'.
Proof. induction 1; simpl; congruence. Qed.

Lemma rt_norm_slower (b b' : Q) (es es' : list Frustraiton.entry) :
  b == b' -> Forall2 Spec.slower es es' ->
  Frustraiton.rt_norm_of b es <= Frustraiton.rt_norm_of b' es'.
Proof.
  intros E H. unfold Frustraiton.rt_norm_of.
  pose proof (rt_excess_slower b b' es es' E H) as Hx.
  rewrite (Forall2_same_length _ _ _ Hx), !sum_total.
  apply Qmult_le_compat_r; [apply total_mono; exact Hx|].
  apply Qinv_le_0_compat. change 0 with (inject_Z 0).
  rewrite <- Zle_Qle. lia.
Qed.

Lemma slower_refl (es : list Frustraiton.entry) : Forall2 Spec.slower es es.
Proof.
  induction es; constructor; [|assumption]. split; [reflexivity|lra].
Qed.

Lemma slower_at (pre post : list Frustraiton.entry) e rt' :
  Frustraiton.response_time e <= rt' ->
  Forall2 Spec.slower (pre ++ e :: post)
    (pre ++ Spec.with_response_time e rt' :: post).
Proof.
  intros H. apply Forall2_app; [apply slower_refl|].
  constructor; [|apply slower_refl]. split; [reflexivity|exact H].
Qed.

Lemma err_rate_with_response_time (pre post : list Frustraiton.entry) e rt' :
  Frustraiton.err_rate_of (pre ++ Spec.with_response_time e rt' :: post)
  = Frustraiton.err_rate_of (pre ++ e :: post).
Proof.
  unfold Frustraiton.err_rate_of, Frustraiton.err_count.
  rewrite !List.filter_app, !length_app. simpl.
  destruct (Frustraiton.skipped e || negb (Frustraiton.correct e));
    reflexivity.
Qed.

Lemma valence_with_response_time (pre post : list Frustraiton.entry) e rt' :
  Frustraiton.valence_of (pre ++ Spec.with_response_time e rt' :: post)
  = Frustraiton.valence_of (pre ++ e :: post).
Proof.
  unfold Frustraiton.valence_of. rewrite !map_app, !length_app. simpl.
  reflexivity.
Qed.

(** C4 (amended): increasing the response time of a single record, all
    other fields and records fixed, never decreases rt_norm and never
    decreases the composite [s], provided the increase leaves the baseline
    of the test unchanged. *)
Theorem C4_rt_norm_monotone_at_fixed_baseline
    (pre post : list Frustraiton.entry) (e : Frustraiton.entry)
    (rt' b b' : Q) :
  Frustraiton.response_time e <= rt' ->
  Frustraiton.baseline_of (pre ++ e :: post) = Py.Returns b ->
  Frustraiton.baseline_of (pre ++ Spec.with_response_time e rt' :: post)
  = Py.Returns b' ->
  b == b' ->
  Frustraiton.rt_norm_of b (pre ++ e :: post)
  <= Frustraiton.rt_norm_of b' (pre ++ Spec.with_response_time e rt' :: post)
  /\ exists s s',
       Frustraiton.composite_of (pre ++ e :: post) = Py.Returns s
       /\ Frustraiton.composite_of
            (pre ++ Spec.with_response_time e rt' :: post) = Py.Returns s'
       /\ s <= s'.
Proof.
  intros Hrt Hb Hb' E.
  pose proof (rt_norm_slower b b' _ _ E (slower_at pre post e rt' Hrt)) as Hn.
  split; [exact Hn|].
  unfold Frustraiton.composite_of. rewrite Hb, Hb'. simpl Py.bind.
  eexists _, _. split; [reflexivity|]. split; [reflexivity|].
  rewrite err_rate_with_response_time, valence_with_response_time.
  unfold Frustraiton.composite. lra.
Qed.

(** The amended statement on the test with times 1, 1, 10: raising the
    third time from 10 to 20 keeps the baseline 1. *)
Lemma C4_rt_norm_monotone_witness :
  Frustraiton.rt_norm_of 1 Examples.slow_third_records
  <= Frustraiton.rt_norm_of 1
       ([ Frustraiton.mk_entry "visual" "q1" 1 true false "happy";
          Frustraiton.mk_entry "visual" "q2" 1 true false "happy" ]
        ++ [ Spec.with_response_time
               (Frustraiton.mk_entry "visual" "q3" 10 true false "happy") 20 ]).
Proof.
  apply (C4_rt_norm_monotone_at_fixed_baseline
           [ Frustraiton.mk_entry "visual" "q1" 1 true false "happy";
             Frustraiton.mk_entry "visual" "q2" 1 true false "happy" ]
           [] (Frustraiton.mk_entry "visual" "q3" 10 true false "happy")
           20 1 1).
  - vm_compute. discriminate.
  - reflexivity.
  - reflexivity.
  - reflexivity.
Defined.

(** ** The batch scorer *)

Lemma scorer_returns (entries : list Frustraiton.entry) :
  exists r, Frustraiton._compute_test_frustration entries = Py.Returns r.
Proof.
  destruct entries as [|e es]; [simpl; eauto|].
  unfold Frustraiton._compute_test_frustration.
  destruct (composite_returns (e :: es)) as [s ->]. simpl. eauto.
Qed.

Lemma existing_fold (l : string) (rows : list Frustraiton.report_row)
    (acc : gset Z) (t : Z) :
  t ∈ fold_left
        (fun (existing : gset Z) row =>
           if String.eqb (Frustraiton.rep_learner_id row) l then
             match Frustraiton.rep_test_number row with
             | Some t => {[ t ]} ∪ existing
             | None => existing
             end
           else existing) rows acc
  <-> t ∈ acc \/ exists row, In row rows /\ Spec.row_of l t row.
Proof.
  revert acc. induction rows as [|row rows IH]; intros acc; simpl.
  - split; [auto|]. intros [H|[row [[] _]]]. exact H.
  - rewrite IH. unfold Spec.row_of.
    destruct (String.eqb_spec (Frustraiton.rep_learner_id row) l) as [El|El].
    + destruct (Frustraiton.rep_test_number row) as [t'|] eqn:Et.
      * rewrite elem_of_union, elem_of_singleton. split.
        -- intros [[->|H]|[r [Hr Hrow]]]; eauto 6.
        -- intros [H|[r [[<-|Hr] [Hl Ht]]]]; eauto 6.
           left. left. congruence.
      * split.
        -- intros [H|[r [Hr Hrow]]]; eauto 6.
        -- intros [H|[r [[<-|Hr] [Hl Ht]]]]; eauto 6. congruence.
    + split.
      * intros [H|[r [Hr Hrow]]]; eauto 6.
      * intros [H|[r [[<-|Hr] [Hl Ht]]]]; eauto 6. congruence.
Qed.

Lemma existing_tests_spec (out : option (list Frustraiton.report_row))
    (l : string) (t : Z) :
  t ∈ Frustraiton._existing_tests_in_report out l
  <-> exists row, In row (default [] out) /\ Spec.row_of l t row.
Proof.
  destruct out as [rows|]; simpl.
  - rewrite existing_fold. split; [|eauto].
    intros [H|H]; [|exact H]. exfalso. revert H. apply not_elem_of_empty.
  - split; [intros H; exfalso; revert H; apply not_elem_of_empty|].
    intros [row [[] _]].
Qed.

Lemma new_rows_spec (now : Z -> string) (l : string)
    (tests : gmap Z (list Frustraiton.entry)) (already : gset Z)
    (keys : list Z) :
  exists rows,
    Frustraiton.new_rows now l tests already keys = Py.Returns rows
    /\ (forall t, In t keys -> t ∉ already ->
                  exists row, In row rows /\ Spec.row_of l t row)
    /\ (rows = [] -> forall t, In t keys -> t ∈ already).
Proof.
  induction keys as [|k keys [rows [IH1 [IH2 IH3]]]]; simpl.
  - exists []. split; [reflexivity|]. split; [intros t []|intros _ t []].
  - case_bool_decide as Hk.
    + exists rows. split; [exact IH1|]. split.
      * intros t [<-|Ht] Hn; [contradiction|auto].
      * intros E t [<-|Ht]; auto.
    + destruct (scorer_returns (default [] (tests !! k))) as [[sc n] ->].
      simpl Py.bind. rewrite IH1. simpl Py.bind.
      eexists. split; [reflexivity|]. split.
      * intros t [<-|Ht] Hn.
        -- eexists. split; [left; reflexivity|]. split; reflexivity.
        -- destruct (IH2 t Ht Hn) as [row [Hrow Hof]].
           exists row. split; [right; exact Hrow|exact Hof].
      * discriminate.
Qed.

Lemma new_rows_all_scored (now : Z -> string) (l : string)
    (tests : gmap Z (list Frustraiton.entry)) (already : gset Z)
    (keys : list Z) :
  (forall t, In t keys -> t ∈ already) ->
  Frustraiton.new_rows now l tests already keys = Py.Returns [].
Proof.
  induction keys as [|k keys IH]; intros H; simpl; [reflexivity|].
  case_bool_decide as Hk.
  - apply IH. intros t Ht. apply H. right. exact Ht.
  - exfalso. apply Hk, H. left. reflexivity.
Qed.

(** C5: the batch scorer always returns, and a second run on the same
    interaction log and on the report the first run left appends no rows:
    every test number of the log is then already in the report for the
    learner and is skipped, so the second run leaves the report as it is;
    in particular the number of rows of any learner is unchanged. *)
Theorem C5_batch_scorer_idempotent (now now' : Z -> string)
    (log_file : option (list Frustraiton.log_row))
    (output_file : option (list Frustraiton.report_row)) :
  exists report report',
    Frustraiton.compute_frustration_per_test now log_file output_file
    = Py.Returns report
    /\ Frustraiton.compute_frustration_per_test now' log_file report
       = Py.Returns report'
    /\ report' = report
    /\ forall learner_id,
         Frustraiton.report_rows_of report' learner_id
         = Frustraiton.report_rows_of report learner_id.
Proof.
  assert (Hmain : exists report,
    Frustraiton.compute_frustration_per_test now log_file output_file
    = Py.Returns report
    /\ Frustraiton.compute_frustration_per_test now' log_file report
       = Py.Returns report).
  { unfold Frustraiton.compute_frustration_per_test.
    destruct (Frustraiton._read_log_grouped_by_test log_file)
      as [[l|] tests]; [|eauto].
    case_bool_decide as Hempty; [eauto|].
    set (out1 := Frustraiton._ensure_report_header output_file).
    set (keys := Frustraiton.sorted_tests tests).
    destruct (new_rows_spec now l tests
                (Frustraiton._existing_tests_in_report out1 l) keys)
      as [rows [-> [Hnew Hnil]]].
    simpl Py.bind.
    assert (Hens : forall rs, Frustraiton._ensure_report_header (Some rs)
                              = Some rs) by reflexivity.
    assert (Hout1 : out1 = Some (default [] out1)).
    { unfold out1. destruct output_file; reflexivity. }
    destruct rows as [|row rows].
    - exists out1. split; [reflexivity|].
      rewrite Hout1, Hens, <- Hout1.
      rewrite (new_rows_all_scored now' l tests _ keys (Hnil eq_refl)).
      reflexivity.
    - eexists. split; [reflexivity|]. rewrite Hens.
      rewrite new_rows_all_scored; [reflexivity|].
      intros t Ht. apply existing_tests_spec. simpl default.
      destruct (decide (t ∈ Frustraiton._existing_tests_in_report out1 l))
        as [Hin|Hnot].
      + apply existing_tests_spec in Hin. destruct Hin as [r [Hr Hof]].
        exists r. split; [|exact Hof]. apply in_or_app. left. exact Hr.
      + destruct (Hnew t Ht Hnot) as [r [Hr Hof]].
        exists r. split; [|exact Hof]. apply in_or_app. right. exact Hr. }
  destruct Hmain as [report [H1 H2]]. exists report, report.
  split; [exact H1|]. split; [exact H2|]. split; reflexivity.
Qed.

(** ** Reading and writing the preferred mode *)

Lemma first_preferred_app (l : string) (rows : list LearningApp.pref_row)
    (row : LearningApp.pref_row) :
  LearningApp.first_preferred l (rows ++ [row])
  = match LearningApp.first_preferred l rows with
    | Some m => Some m
    | None =>
        if String.eqb (LearningApp.pref_learner_id row) l
        then Some (LearningApp.pref_preferred_mode row) else None
    end.
Proof.
  induction rows as [|r rows IH]; simpl.
  - destruct (String.eqb _ l); reflexivity.
  - destruct (String.eqb (LearningApp.pref_learner_id r) l);
      [reflexivity|exact IH].
Qed.

Lemma get_after_save (fs : LearningApp.files) (l l' m : string) :
  LearningApp.get_preferred_mode (LearningApp.save_preferred_mode fs l m) l'
  = match LearningApp.get_preferred_mode fs l' with
    | Some m0 => Some m0
    | None => if String.eqb l l' then Some m else None
    end.
Proof.
  unfold LearningApp.get_preferred_mode, LearningApp.save_preferred_mode.
  simpl. rewrite first_preferred_app. simpl.
  destruct (LearningApp.PREFERRED_MODE_FILE fs) as [rows|]; reflexivity.
Qed.






(** ** Mode selection *)


Lemma latest_has_report (fs : LearningApp.files) (l : string) (x : Q) :
  Spec.latest_frustration fs l = Some x -> Spec.has_report fs l = true.
Proof.
  unfold Spec.latest_frustration, Spec.has_report.
  induction (default [] (LearningApp.frustration_report fs l)) as [|r rs IH];
    simpl; [discriminate|].
  destruct (String.eqb (Frustraiton.rep_learner_id r) l); [reflexivity|].
  exact IH.
Qed.

Lemma get_next_mode_cycle (m : string) :
  In m LearningApp.MODES ->
  LearningApp.get_next_mode m = Py.Returns (Spec.next_mode m)
  /\ Py.truthy m = true.
Proof.
  intros [<-|[<-|[<-|[]]]]; split; reflexivity.
Qed.

(** Apart from which report and which stored row are read, [start_quiz]
    follows the five-row table: when the score it reads is the latest one,
    the preference it reads is the one written last and is not empty, and
    the last-used mode is one of the three modes, it chooses the mode of
    the table. *)
Lemma start_quiz_follows_table (fs : LearningApp.files) (id_input : string) :
  Py.truthy (Py.strip id_input) = true ->
  LearningApp.get_frustration fs (Py.strip id_input)
  = Py.Returns (Spec.latest_frustration fs (Py.strip id_input)) ->
  LearningApp.get_preferred_mode fs (Py.strip id_input)
  = Spec.preferred_mode fs (Py.strip id_input) ->
  (forall pm, Spec.preferred_mode fs (Py.strip id_input) = Some pm ->
              Py.truthy pm = true) ->
  (forall m, LearningApp.get_last_used_mode fs (Py.strip id_input) = Some m ->
             In m LearningApp.MODES) ->
  exists fs',
    LearningApp.start_quiz fs id_input
    = Py.Returns (Some (Spec.select_mode_live fs (Py.strip id_input)), fs').
Proof.
  intros Hid Hf Hp Hpm Hm. unfold LearningApp.start_quiz, Spec.select_mode_live.
  set (lid := Py.strip id_input) in *. rewrite Hid, Hf, Hp. simpl.
  destruct (Spec.latest_frustration fs lid) as [score|] eqn:Hl.
  - rewrite (latest_has_report fs lid score Hl). simpl.
    destruct (Qle_bool 0.4 score).
    + destruct (LearningApp.get_last_used_mode fs lid) as [m|]; [|eauto].
      destruct (get_next_mode_cycle m (Hm m eq_refl)) as [-> ->]. simpl. eauto.
    + destruct (Spec.preferred_mode fs lid) as [pm|].
      * simpl. rewrite (Hpm pm eq_refl). eauto.
      * simpl.
        destruct (LearningApp.get_last_used_mode fs lid) as [m|]; [|eauto].
        destruct (get_next_mode_cycle m (Hm m eq_refl)) as [_ Ht].
        simpl. rewrite Ht. eauto.
  - destruct (Spec.has_report fs lid); eauto.
Qed.

(** C2 (the code at the failing input): learner 7 has the reports 0.8
    (test 1) and 0.1 (test 2, the latest) and last used the visual mode.
    The decision table, on the latest score 0.1, chooses visual;
    [start_quiz] reads the score of the first report, 0.8, and chooses
    auditory. *)
Theorem C2_start_quiz_reads_first_report :
  LearningApp.get_frustration Examples.calmed_down_files "7"
  = Py.Returns (Some 0.8)
  /\ Spec.latest_frustration Examples.calmed_down_files "7" = Some 0.1
  /\ LearningApp.get_last_used_mode Examples.calmed_down_files "7"
     = Some "visual"%string
  /\ Spec.select_mode_live Examples.calmed_down_files "7" = "visual"%string
  /\ LearningApp.start_quiz Examples.calmed_down_files "7"
     = Py.Returns (Some "auditory"%string, Examples.calmed_down_files).
Proof. repeat split; reflexivity. Qed.

(** C3 (as stated, refuted): learner 7 has a latest score of 0.1 and the
    stored preference kinesthetic, the row of the table with no side
    effect; [start_quiz] chooses kinesthetic and appends a second row
    (7, kinesthetic) to the store. *)
Lemma C3_store_written_with_existing_preference :
  LearningApp.get_frustration Examples.settled_files "7" = Py.Returns (Some 0.1)
  /\ Spec.latest_frustration Examples.settled_files "7" = Some 0.1
  /\ LearningApp.get_preferred_mode Examples.settled_files "7"
     = Some "kinesthetic"%string
  /\ (exists fs',
        LearningApp.start_quiz Examples.settled_files "7"
        = Py.Returns (Some "kinesthetic"%string, fs')
        /\ LearningApp.PREFERRED_MODE_FILE fs'
           = Some [ LearningApp.mk_pref_row "7" "kinesthetic";
                    LearningApp.mk_pref_row "7" "kinesthetic" ]
        /\ LearningApp.PREFERRED_MODE_FILE fs'
           <> LearningApp.PREFERRED_MODE_FILE Examples.settled_files).
Proof.
  split; [reflexivity|]. split; [reflexivity|]. split; [reflexivity|].
  eexists. split; [reflexivity|]. split; [reflexivity|]. discriminate.
Qed.

(** C3 (amended): whenever [start_quiz] returns, the report and the log
    are unchanged. The PreferredMode store is unchanged when the learner
    id is empty, when no frustration score is read, and when the score
    read is at least 0.4. When the score read is below 0.4, exactly one
    row (learner, chosen mode) is appended to the store, in all three
    low-frustration rows; where a non-empty PreferredMode is already
    readable, the chosen mode is that PreferredMode and the value read
    back is unchanged for every learner. *)
Theorem C3_preferred_mode_store_writes (fs fs' : LearningApp.files)
    (id_input : string) (chosen : option string) :
  LearningApp.start_quiz fs id_input = Py.Returns (chosen, fs') ->
  LearningApp.frustration_report fs' = LearningApp.frustration_report fs
  /\ LearningApp.learner_log fs' = LearningApp.learner_log fs
  /\ (Py.truthy (Py.strip id_input) = false -> fs' = fs)
  /\ (LearningApp.get_frustration fs (Py.strip id_input) = Py.Returns None ->
      fs' = fs)
  /\ (forall score,
        LearningApp.get_frustration fs (Py.strip id_input)
        = Py.Returns (Some score) ->
        0.4 <= score -> fs' = fs)
  /\ (forall score,
        Py.truthy (Py.strip id_input) = true ->
        LearningApp.get_frustration fs (Py.strip id_input)
        = Py.Returns (Some score) ->
        score < 0.4 ->
        exists current_mode,
          chosen = Some current_mode
          /\ LearningApp.PREFERRED_MODE_FILE fs'
             = Some (default [] (LearningApp.PREFERRED_MODE_FILE fs)
                     ++ [ LearningApp.mk_pref_row (Py.strip id_input)
                            current_mode ])
          /\ forall preferred_mode,
               LearningApp.get_preferred_mode fs (Py.strip id_input)
               = Some preferred_mode ->
               Py.truthy preferred_mode = true ->
               current_mode = preferred_mode
               /\ forall l, LearningApp.get_preferred_mode fs' l
                            = LearningApp.get_preferred_mode fs l).
Proof.
  unfold LearningApp.start_quiz.
  set (lid := Py.strip id_input).
  destruct (Py.truthy lid) eqn:Hid; simpl negb; cbv iota.
  2:{ intros H. injection H as <- <-.
      repeat split; try reflexivity; try discriminate. }
  destruct (LearningApp.get_frustration fs lid) as [[score|]|] eqn:Hf;
    simpl Py.bind; [| |discriminate].
  2:{ intros H. injection H as <- <-.
      repeat split; try reflexivity; try discriminate. }
  destruct (Qle_bool 0.4 score) eqn:Hs.
  - apply Qle_bool_iff in Hs. intros H.
    assert (Hfs : fs' = fs).
    { destruct (LearningApp.get_last_used_mode fs lid) as [m|];
        [destruct (Py.truthy m);
         [destruct (LearningApp.get_next_mode m); simpl in H|]|];
        congruence. }
    subst fs'. repeat split; try reflexivity; try discriminate.
    intros score' _ E Hlt. injection E as <-. lra.
  - apply Qle_bool_false in Hs. intros H. injection H as <- <-.
    split; [reflexivity|]. split; [reflexivity|].
    split; [discriminate|]. split; [discriminate|].
    split; [intros score' E Hle; injection E as <-; lra|].
    intros score' _ _ _. eexists. split; [reflexivity|].
    split; [reflexivity|].
    intros pm Hpm Ht. rewrite Hpm. simpl Py.truthy_opt. rewrite Ht.
    split; [reflexivity|]. intros l. rewrite get_after_save.
    destruct (LearningApp.get_preferred_mode fs l) as [m0|] eqn:El;
      [reflexivity|].
    destruct (String.eqb_spec lid l) as [<-|_]; [congruence|reflexivity].
Qed.

(** The amended statement for learner 7 with a calm report and the stored
    preference kinesthetic. *)
Lemma C3_preferred_mode_store_writes_witness :
  LearningApp.frustration_report
    (LearningApp.save_preferred_mode Examples.settled_files "7" "kinesthetic")
  = LearningApp.frustration_report Examples.settled_files.
Proof.
  apply (C3_preferred_mode_store_writes Examples.settled_files
           (LearningApp.save_preferred_mode Examples.settled_files "7"
              "kinesthetic")
           "7" (Some "kinesthetic"%string)).
  reflexivity.
Defined.

(** ** Answer submission *)

Lemma lower_upper_char (c : ascii) :
  Py.lower_char (Py.upper_char c) = Py.lower_char c.
Proof.
  destruct c as [[] [] [] [] [] [] [] []]; vm_compute; reflexivity.
Qed.

Lemma lower_upper (s : string) : Py.lower (Py.upper s) = Py.lower s.
Proof.
  induction s as [|c s IH]; simpl; [reflexivity|].
  rewrite lower_upper_char, IH. reflexivity.
Qed.

Lemma upper_SKIP (s : string) :
  Py.upper s = "SKIP"%string -> Py.lower s = "skip"%string.
Proof.
  intros H. rewrite <- lower_upper, H. reflexivity.
Qed.

Lemma lower_empty (s : string) : Py.lower s = ""%string -> s = ""%string.
Proof. destruct s; simpl; [reflexivity|discriminate]. Qed.

(** C8 (as stated, refuted): for the question whose answer key is "skip",
    the submitted answer "SKIP" is recorded as skipped and as correct, by
    the desktop application and by the web application. *)
Lemma C8_skip_sentinel_matching_the_answer_key :
  LearningApp.session_data
    (LearningApp.submit_answer Examples.desktop_state "SKIP" 103 "happy")
  = [ LearningApp.mk_session_row "7" 1 "visual"
        "Which word lets you pass a question?" (Py.round2 3) true true "happy" ]
  /\ learning_webapp.si_session_data
       (learning_webapp.submit_answer Examples.web_session "SKIP" 103 "happy")
     = [ LearningApp.mk_session_row "7" 1 "visual"
           "Which word lets you pass a question?" (Py.round2 3) true true
           "happy" ].
Proof. split; reflexivity. Qed.

(** C8 (amended): for every question whose answer key consists of ASCII
    characters, is not empty and is not the word "skip" in any letter
    case, and for every submitted answer that consists of ASCII
    characters, the record that answer submission appends has correct
    false whenever it has skipped true, in the desktop application and in
    the web application. *)
Theorem C8_skipped_implies_not_correct (st : LearningApp.app_state)
    (si : learning_webapp.session_info) (answer : string) (now : Q)
    (current_emotion : string) :
  Py.is_ascii answer = true ->
  Py.is_ascii (LearningApp.q_answer (LearningApp.current_question st)) = true ->
  Py.is_ascii (LearningApp.q_answer (learning_webapp.si_current_question si))
  = true ->
  LearningApp.q_answer (LearningApp.current_question st) <> ""%string ->
  Py.lower (LearningApp.q_answer (LearningApp.current_question st))
  <> "skip"%string ->
  LearningApp.q_answer (learning_webapp.si_current_question si) <> ""%string ->
  Py.lower (LearningApp.q_answer (learning_webapp.si_current_question si))
  <> "skip"%string ->
  (exists row,
     LearningApp.session_data
       (LearningApp.submit_answer st answer now current_emotion)
     = LearningApp.session_data st ++ [row]
     /\ (LearningApp.s_skipped row = true -> LearningApp.s_correct row = false))
  /\ (exists row,
        learning_webapp.si_session_data
          (learning_webapp.submit_answer si answer now current_emotion)
        = learning_webapp.si_session_data si ++ [row]
        /\ (LearningApp.s_skipped row = true ->
            LearningApp.s_correct row = false)).
Proof.
  intros _ _ _ Hk1 Hk2 Hw1 Hw2. split.
  - eexists. split; [reflexivity|]. simpl.
    set (key := LearningApp.q_answer (LearningApp.current_question st)) in *.
    intros Hskip.
    destruct (String.eqb_spec (Py.lower (Py.strip answer)) (Py.lower key))
      as [Hc|_]; [exfalso|reflexivity].
    destruct (String.eqb_spec answer "") as [->|_].
    + apply Hk1, lower_empty. rewrite <- Hc. reflexivity.
    + apply String.eqb_eq, upper_SKIP in Hskip. congruence.
  - eexists. split; [reflexivity|]. simpl.
    set (key := LearningApp.q_answer (learning_webapp.si_current_question si))
      in *.
    intros Hskip.
    destruct (String.eqb_spec (Py.lower (Py.strip answer)) (Py.lower key))
      as [Hc|_]; [exfalso|reflexivity].
    apply orb_true_iff in Hskip. destruct Hskip as [Hskip|Hskip].
    + apply String.eqb_eq, upper_SKIP in Hskip. congruence.
    + apply String.eqb_eq in Hskip. rewrite Hskip in Hc.
      apply Hw1, lower_empty. rewrite <- Hc. reflexivity.
Qed.

(** The amended statement for the question "2 + 2" with the key "4". *)
Lemma C8_skipped_implies_not_correct_witness :
  exists row,
    LearningApp.session_data
      (LearningApp.submit_answer Examples.desktop_state_sum "" 103 "happy")
    = LearningApp.session_data Examples.desktop_state_sum ++ [row]
    /\ (LearningApp.s_skipped row = true -> LearningApp.s_correct row = false).
Proof.
  apply (C8_skipped_implies_not_correct Examples.desktop_state_sum
           (learning_webapp.mk_session_info "7" "visual" 1 0 [] 100
              Examples.sum_question) "" 103 "happy");
    try reflexivity; simpl; discriminate.
Defined.

(** ** The inactivity monitor *)

Lemma dict_get_set_eq (k : Z) (v : string) (d : list (Z * string)) :
  Py.dict_get k (Py.dict_set k v d) = Some v.
Proof.
  induction d as [|[k' v'] d IH]; simpl.
  - rewrite Z.eqb_refl. reflexivity.
  - destruct (Z.eqb_spec k' k) as [->|Hne]; simpl.
    + rewrite Z.eqb_refl. reflexivity.
    + destruct (Z.eqb_spec k' k); [contradiction|exact IH].
Qed.

Lemma dict_get_set_ne (k k' : Z) (v : string) (d : list (Z * string)) :
  k <> k' -> Py.dict_get k' (Py.dict_set k v d) = Py.dict_get k' d.
Proof.
  intros Hne. induction d as [|[k0 v0] d IH]; simpl.
  - destruct (Z.eqb_spec k k'); [contradiction|reflexivity].
  - destruct (Z.eqb_spec k0 k) as [->|H0]; simpl.
    + destruct (Z.eqb_spec k k'); [contradiction|reflexivity].
    + destruct (Z.eqb_spec k0 k'); [reflexivity|exact IH].
Qed.

Lemma dict_get_None (k : Z) (d : list (Z * string)) :
  ~ In k (map fst d) -> Py.dict_get k d = None.
Proof.
  induction d as [|[k' v'] d IH]; simpl; [reflexivity|]. intros H.
  destruct (Z.eqb_spec k' k) as [->|_]; [exfalso; auto|]. apply IH. auto.
Qed.

Lemma dict_set_keys (k : Z) (v : string) (d : list (Z * string)) :
  forall k', In k' (map fst (Py.dict_set k v d)) <-> k' = k \/ In k' (map fst d).
Proof.
  induction d as [|[k0 v0] d IH]; intros k'; simpl.
  - intuition congruence.
  - destruct (Z.eqb_spec k0 k) as [->|Hne]; simpl.
    + intuition congruence.
    + rewrite IH. tauto.
Qed.

Lemma dict_set_NoDup (k : Z) (v : string) (d : list (Z * string)) :
  List.NoDup (map fst d) -> List.NoDup (map fst (Py.dict_set k v d)).
Proof.
  induction d as [|[k0 v0] d IH]; simpl; intros H.
  - constructor; [intros []|constructor].
  - inversion H as [|? ? Hnot Hd]; subst.
    destruct (Z.eqb_spec k0 k) as [->|Hne]; simpl.
    + constructor; assumption.
    + constructor; [|apply IH; exact Hd].
      rewrite dict_set_keys. intros [->|Hin]; [congruence|contradiction].
Qed.

Lemma load_rows_NoDup (rows : list run_addition_app.pm_row)
    (acc d : list (Z * string)) :
  run_addition_app.load_rows rows acc = Py.Returns d ->
  List.NoDup (map fst acc) -> List.NoDup (map fst d).
Proof.
  revert acc. induction rows as [|row rows IH]; simpl; intros acc H Hacc.
  - injection H as <-. exact Hacc.
  - destruct (run_addition_app.pm_learner_id row); [|discriminate].
    destruct (run_addition_app.pm_preferred_mode row); [|discriminate].
    eapply IH; [exact H|]. apply dict_set_NoDup. exact Hacc.
Qed.

Lemma load_NoDup (csv : option (list run_addition_app.pm_row)) :
  List.NoDup (map fst (run_addition_app.load_preferred_modes csv)).
Proof.
  unfold run_addition_app.load_preferred_modes.
  destruct csv as [rows|]; [|constructor].
  destruct (run_addition_app.load_rows rows []) as [d|] eqn:E; [|constructor].
  eapply load_rows_NoDup; [exact E|constructor].
Qed.

Lemma load_rows_written (d acc : list (Z * string)) (k : Z) :
  List.NoDup (map fst d) ->
  exists d',
    run_addition_app.load_rows (map run_addition_app.written_row d) acc
    = Py.Returns d'
    /\ Py.dict_get k d'
       = match Py.dict_get k d with
         | Some v => Some (run_addition_app.normalize_mode v)
         | None => Py.dict_get k acc
         end.
Proof.
  revert acc. induction d as [|[k0 v0] d IH]; intros acc Hd; simpl.
  - eauto.
  - inversion Hd as [|? ? Hnot Hd']; subst.
    destruct (IH (Py.dict_set k0 (run_addition_app.normalize_mode v0) acc) Hd')
      as [d' [Hload Hget]].
    exists d'. split; [exact Hload|]. rewrite Hget.
    destruct (Z.eqb_spec k0 k) as [->|Hne].
    + rewrite (dict_get_None k d Hnot). apply dict_get_set_eq.
    + destruct (Py.dict_get k d); [reflexivity|].
      apply dict_get_set_ne. exact Hne.
Qed.

Lemma normalize_mode_cycle (m : string) :
  run_addition_app.normalize_mode (run_addition_app.mode_cycle m)
  = run_addition_app.mode_cycle m.
Proof.
  unfold run_addition_app.mode_cycle.
  destruct (String.eqb m "visual"); [reflexivity|].
  destruct (String.eqb m "kinesthetic"); [reflexivity|].
  destruct (String.eqb m "auditory"); reflexivity.
Qed.

Lemma load_after_write (d : list (Z * string)) (l : Z) (m : string) :
  List.NoDup (map fst d) ->
  Py.dict_get l
    (run_addition_app.load_preferred_modes
       (Some (map run_addition_app.written_row
                (Py.dict_set l (run_addition_app.mode_cycle m) d))))
  = Some (run_addition_app.mode_cycle m).
Proof.
  intros Hd. unfold run_addition_app.load_preferred_modes.
  destruct (load_rows_written
              (Py.dict_set l (run_addition_app.mode_cycle m) d) [] l
              (dict_set_NoDup _ _ _ Hd)) as [d' [-> Hget]].
  rewrite Hget, dict_get_set_eq, normalize_mode_cycle. reflexivity.
Qed.

Lemma find_last {A : Type} (f : A -> bool) (l : list A) (x : A) :
  List.find f (l ++ [x])
  = match List.find f l with
    | Some y => Some y
    | None => if f x then Some x else None
    end.
Proof.
  induction l as [|y l IH]; simpl; [reflexivity|].
  destruct (f y); [reflexivity|exact IH].
Qed.

Lemma load_rows_last (l : Z) (rows : list run_addition_app.pm_row)
    (acc d : list (Z * string)) :
  run_addition_app.load_rows rows acc = Py.Returns d ->
  Py.dict_get l d
  = match run_addition_app.last_row_of l rows with
    | Some row =>
        option_map run_addition_app.normalize_mode
          (run_addition_app.pm_preferred_mode row)
    | None => Py.dict_get l acc
    end.
Proof.
  unfold run_addition_app.last_row_of.
  revert acc. induction rows as [|row rows IH]; simpl; intros acc H.
  - injection H as <-. reflexivity.
  - destruct (run_addition_app.pm_learner_id row) as [k|] eqn:Hk;
      [|discriminate].
    destruct (run_addition_app.pm_preferred_mode row) as [cell|] eqn:Hm;
      [|discriminate].
    rewrite (IH _ H), find_last, Hk.
    destruct (List.find _ (rev rows)); [reflexivity|].
    case_bool_decide as E.
    + injection E as ->. rewrite Hm. apply dict_get_set_eq.
    + apply dict_get_set_ne. congruence.
Qed.

Lemma load_rows_returns (rows : list run_addition_app.pm_row)
    (acc : list (Z * string)) :
  Forall (fun row => run_addition_app.pm_learner_id row <> None
                     /\ run_addition_app.pm_preferred_mode row <> None) rows ->
  exists d, run_addition_app.load_rows rows acc = Py.Returns d.
Proof.
  intros H. revert acc.
  induction H as [|row rows [Hid Hmode] _ IH]; intros acc.
  - simpl. eauto.
  - simpl. destruct (run_addition_app.pm_learner_id row); [|contradiction].
    destruct (run_addition_app.pm_preferred_mode row); [apply IH|].
    contradiction.
Qed.

Lemma exec_cons (w : run_addition_app.world) (a : run_addition_app.action)
    (rest : list run_addition_app.action) :
  run_addition_app.exec w (a :: rest)
  = (fst (run_addition_app.exec (fst (run_addition_app.act w a)) rest),
     match snd (run_addition_app.act w a) with
     | Some c =>
         c :: snd (run_addition_app.exec (fst (run_addition_app.act w a)) rest)
     | None => snd (run_addition_app.exec (fst (run_addition_app.act w a)) rest)
     end).
Proof.
  cbn [run_addition_app.exec].
  destruct (run_addition_app.act w a) as [w1 out]. cbn [fst snd].
  destruct (run_addition_app.exec w1 rest). reflexivity.
Qed.

Lemma act_Enter_due (st : run_addition_app.state)
    (threads : gmap nat run_addition_app.in_check) (thread : nat) (l : Z)
    (t_default t_now : Q) :
  threads !! thread = None ->
  l ∉ run_addition_app._launched_subtraction st ->
  run_addition_app._load_inactivity_threshold st l
  <= t_now - default t_default (run_addition_app._last_interaction_ts st !! l) ->
  run_addition_app.act (run_addition_app.mk_world st threads)
    (run_addition_app.Enter thread l t_default t_now)
  = (run_addition_app.mk_world st
       (<[thread := run_addition_app.Entered l]> threads), None).
Proof.
  intros Hfree Hflag Hdue.
  cbn [run_addition_app.act run_addition_app.shared run_addition_app.threads].
  rewrite Hfree.
  rewrite (proj2 (Qle_bool_iff _ 0)) by lra.
  rewrite bool_decide_eq_false_2 by exact Hflag. reflexivity.
Qed.

Lemma act_Enter_not_due (st : run_addition_app.state)
    (threads : gmap nat run_addition_app.in_check) (thread : nat) (l : Z)
    (t_default t_now : Q) :
  t_now - default t_default (run_addition_app._last_interaction_ts st !! l)
  < run_addition_app._load_inactivity_threshold st l ->
  run_addition_app.act (run_addition_app.mk_world st threads)
    (run_addition_app.Enter thread l t_default t_now)
  = (run_addition_app.mk_world st threads, None).
Proof.
  intros Hquiet.
  cbn [run_addition_app.act run_addition_app.shared run_addition_app.threads].
  destruct (threads !! thread); [reflexivity|].
  destruct (Qle_bool _ 0) eqn:E; [|reflexivity].
  apply Qle_bool_iff in E. lra.
Qed.

Lemma act_Enter_flagged (st : run_addition_app.state)
    (threads : gmap nat run_addition_app.in_check) (thread : nat) (l : Z)
    (t_default t_now : Q) :
  l ∈ run_addition_app._launched_subtraction st ->
  run_addition_app.act (run_addition_app.mk_world st threads)
    (run_addition_app.Enter thread l t_default t_now)
  = (run_addition_app.mk_world st threads, None).
Proof.
  intros Hflag.
  cbn [run_addition_app.act run_addition_app.shared run_addition_app.threads].
  destruct (threads !! thread); [reflexivity|].
  rewrite bool_decide_eq_true_2 by exact Hflag.
  rewrite andb_false_r. reflexivity.
Qed.

Lemma act_Load (st : run_addition_app.state)
    (threads : gmap nat run_addition_app.in_check) (thread : nat) (l : Z) :
  threads !! thread = Some (run_addition_app.Entered l) ->
  run_addition_app.act (run_addition_app.mk_world st threads)
    (run_addition_app.Load thread)
  = (run_addition_app.mk_world st
       (<[thread :=
            run_addition_app.Loaded l (run_addition_app.current_mode_of st l)
              (run_addition_app.mode_cycle
                 (run_addition_app.current_mode_of st l))
              (Py.dict_set l
                 (run_addition_app.mode_cycle
                    (run_addition_app.current_mode_of st l))
                 (run_addition_app.load_preferred_modes
                    (run_addition_app.preferred_modes_csv st)))]> threads),
     None).
Proof.
  intros H.
  cbn [run_addition_app.act run_addition_app.shared run_addition_app.threads].
  rewrite H. reflexivity.
Qed.

Lemma act_Store (st : run_addition_app.state)
    (threads : gmap nat run_addition_app.in_check) (thread : nat) (l : Z)
    (current_mode new_mode : string) (preferred_modes : list (Z * string))
    (write : run_addition_app.write_outcome) :
  threads !! thread
  = Some (run_addition_app.Loaded l current_mode new_mode preferred_modes) ->
  run_addition_app.act (run_addition_app.mk_world st threads)
    (run_addition_app.Store thread write)
  = match write with
    | run_addition_app.Written =>
        (run_addition_app.mk_world
           (run_addition_app.set_csv st
              (Some (map run_addition_app.written_row preferred_modes)))
           (<[thread := run_addition_app.Left_try l]> threads),
         Some (run_addition_app.mk_changed l current_mode new_mode))
    | run_addition_app.WriteRaises after =>
        (run_addition_app.mk_world (run_addition_app.set_csv st after)
           (<[thread := run_addition_app.Left_try l]> threads), None)
    end.
Proof.
  intros H.
  cbn [run_addition_app.act run_addition_app.shared run_addition_app.threads].
  rewrite H. destruct write; reflexivity.
Qed.

Lemma act_Add (st : run_addition_app.state)
    (threads : gmap nat run_addition_app.in_check) (thread : nat) (l : Z) :
  threads !! thread = Some (run_addition_app.Left_try l) ->
  run_addition_app.act (run_addition_app.mk_world st threads)
    (run_addition_app.Add thread)
  = (run_addition_app.mk_world (run_addition_app.add_flag st l)
       (delete thread threads), None).
Proof.
  intros H.
  cbn [run_addition_app.act run_addition_app.shared run_addition_app.threads].
  rewrite H. reflexivity.
Qed.

(** A check that no other thread interrupts is the function
    [_check_inactivity_and_launch]. *)
Lemma check_is_its_steps (st : run_addition_app.state)
    (threads : gmap nat run_addition_app.in_check) (thread : nat) (l : Z)
    (t_default t_now : Q) (write : run_addition_app.write_outcome) :
  threads !! thread = None ->
  run_addition_app.exec (run_addition_app.mk_world st threads)
    (run_addition_app.check_steps thread l t_default t_now write)
  = (run_addition_app.mk_world
       (fst (run_addition_app._check_inactivity_and_launch st l
               t_default t_now write))
       threads,
     match snd (run_addition_app._check_inactivity_and_launch st l
                  t_default t_now write) with
     | Some c => [c]
     | None => []
     end).
Proof.
  intros Hfree.
  assert (Hidle : forall st0,
    run_addition_app.exec (run_addition_app.mk_world st0 threads)
      [ run_addition_app.Load thread; run_addition_app.Store thread write;
        run_addition_app.Add thread ]
    = (run_addition_app.mk_world st0 threads, [])).
  { intros st0.
    assert (E1 : run_addition_app.act (run_addition_app.mk_world st0 threads)
                   (run_addition_app.Load thread)
                 = (run_addition_app.mk_world st0 threads, None)).
    { cbn [run_addition_app.act run_addition_app.threads]. rewrite Hfree.
      reflexivity. }
    assert (E2 : run_addition_app.act (run_addition_app.mk_world st0 threads)
                   (run_addition_app.Store thread write)
                 = (run_addition_app.mk_world st0 threads, None)).
    { cbn [run_addition_app.act run_addition_app.threads]. rewrite Hfree.
      reflexivity. }
    assert (E3 : run_addition_app.act (run_addition_app.mk_world st0 threads)
                   (run_addition_app.Add thread)
                 = (run_addition_app.mk_world st0 threads, None)).
    { cbn [run_addition_app.act run_addition_app.threads]. rewrite Hfree.
      reflexivity. }
    rewrite exec_cons, E1. cbn [fst snd]. rewrite exec_cons, E2.
    cbn [fst snd]. rewrite exec_cons, E3. reflexivity. }
  unfold run_addition_app.check_steps. rewrite exec_cons.
  unfold run_addition_app._check_inactivity_and_launch.
  destruct (Qle_bool _ 0) eqn:Edue.
  2:{ apply Qle_bool_false in Edue. rewrite act_Enter_not_due by lra.
      cbn [fst snd]. rewrite Hidle. reflexivity. }
  apply Qle_bool_iff in Edue.
  case_bool_decide as Hflag.
  { rewrite act_Enter_flagged by exact Hflag.
    cbn [fst snd]. rewrite Hidle. reflexivity. }
  rewrite act_Enter_due; [|exact Hfree|exact Hflag|lra].
  cbn [fst snd]. rewrite exec_cons, (act_Load _ _ _ l) by apply lookup_insert_eq.
  cbn [fst snd]. rewrite exec_cons.
  rewrite (act_Store _ _ _ l _ _ _ write) by apply lookup_insert_eq.
  destruct write as [|after]; cbn [fst snd]; rewrite exec_cons;
    rewrite (act_Add _ _ _ l) by apply lookup_insert_eq;
    cbn [fst snd run_addition_app.exec];
    rewrite !insert_insert_eq, delete_insert_eq, (delete_id _ _ Hfree);
    reflexivity.
Qed.

Lemma exec_app (w : run_addition_app.world)
    (s1 s2 : list run_addition_app.action) :
  run_addition_app.exec w (s1 ++ s2)
  = (fst (run_addition_app.exec (fst (run_addition_app.exec w s1)) s2),
     snd (run_addition_app.exec w s1)
     ++ snd (run_addition_app.exec (fst (run_addition_app.exec w s1)) s2)).
Proof.
  revert w. induction s1 as [|a s1 IH]; intros w.
  - simpl. destruct (run_addition_app.exec w s2). reflexivity.
  - rewrite <- app_comm_cons, !exec_cons, IH. cbn [fst snd].
    destruct (snd (run_addition_app.act w a)); reflexivity.
Qed.

Lemma check_due_fires (st : run_addition_app.state) (l : Z)
    (t_default t_now : Q) :
  l ∉ run_addition_app._launched_subtraction st ->
  run_addition_app._load_inactivity_threshold st l
  <= t_now - default t_default (run_addition_app._last_interaction_ts st !! l) ->
  run_addition_app._check_inactivity_and_launch st l t_default t_now
    run_addition_app.Written
  = (run_addition_app.add_flag
       (run_addition_app.set_csv st
          (Some (map run_addition_app.written_row
                   (Py.dict_set l
                      (run_addition_app.mode_cycle
                         (run_addition_app.current_mode_of st l))
                      (run_addition_app.load_preferred_modes
                         (run_addition_app.preferred_modes_csv st))))))
       l,
     Some (run_addition_app.mk_changed l
             (run_addition_app.current_mode_of st l)
             (run_addition_app.mode_cycle
                (run_addition_app.current_mode_of st l)))).
Proof.
  intros Hflag Hdue. unfold run_addition_app._check_inactivity_and_launch.
  rewrite (proj2 (Qle_bool_iff _ 0)) by lra.
  rewrite bool_decide_eq_false_2 by exact Hflag. reflexivity.
Qed.

Lemma check_flagged (st : run_addition_app.state) (l : Z)
    (t_default t_now : Q) (write : run_addition_app.write_outcome) :
  l ∈ run_addition_app._launched_subtraction st ->
  run_addition_app._check_inactivity_and_launch st l t_default t_now write
  = (st, None).
Proof.
  intros H. unfold run_addition_app._check_inactivity_and_launch.
  destruct (Qle_bool _ 0); [|reflexivity].
  rewrite bool_decide_eq_true_2 by exact H. reflexivity.
Qed.

Lemma current_mode_after_store (st : run_addition_app.state) (l : Z)
    (m : string) :
  run_addition_app.current_mode_of
    (run_addition_app.set_csv st
       (Some (map run_addition_app.written_row
                (Py.dict_set l (run_addition_app.mode_cycle m)
                   (run_addition_app.load_preferred_modes
                      (run_addition_app.preferred_modes_csv st))))))
    l
  = run_addition_app.mode_cycle m.
Proof.
  unfold run_addition_app.current_mode_of.
  cbn [run_addition_app.set_csv run_addition_app.preferred_modes_csv].
  rewrite load_after_write by apply load_NoDup. reflexivity.
Qed.

Ltac lookup_thread :=
  repeat first
    [ rewrite lookup_insert_eq
    | rewrite lookup_insert_ne by congruence
    | rewrite lookup_delete_ne by congruence
    | rewrite lookup_empty ];
  reflexivity.

(** C9 (the code at the failing input): a learner who is not flagged
    interacts at [t_last]; two checks of the learner, in two threads, read
    the clock when the learner has been idle for the threshold or longer.
    When the checks overlap, both pass the test of the flag, so both fire:
    two changes are printed for the learner in one epoch and the persisted
    mode moves two steps along the cycle. The same two checks one after
    the other fire once and move the mode one step, as the claim says. A
    check that reads the clock before the threshold is reached does
    nothing. The threshold is 120 seconds when none is stored, and the
    cycle is visual, kinesthetic, auditory, visual. *)
Theorem C9_overlapping_checks_fire_twice (st : run_addition_app.state)
    (l : Z) (t_last : Q) (a b : nat) (ta_default ta tb_default tb : Q) :
  a <> b ->
  l ∉ run_addition_app._launched_subtraction st ->
  run_addition_app._load_inactivity_threshold
    (run_addition_app._mark_interaction st l t_last) l <= ta - t_last ->
  run_addition_app._load_inactivity_threshold
    (run_addition_app._mark_interaction st l t_last) l <= tb - t_last ->
  run_addition_app.fired_for l
    (snd (run_addition_app.exec
            (run_addition_app.mk_world
               (run_addition_app._mark_interaction st l t_last) ∅)
            (run_addition_app.overlapping a b l ta_default ta tb_default tb)))
  = [ run_addition_app.mk_changed l
        (run_addition_app.current_mode_of st l)
        (run_addition_app.mode_cycle (run_addition_app.current_mode_of st l));
      run_addition_app.mk_changed l
        (run_addition_app.mode_cycle (run_addition_app.current_mode_of st l))
        (run_addition_app.mode_cycle
           (run_addition_app.mode_cycle
              (run_addition_app.current_mode_of st l))) ]
  /\ run_addition_app.current_mode_of
       (run_addition_app.shared
          (fst (run_addition_app.exec
                  (run_addition_app.mk_world
                     (run_addition_app._mark_interaction st l t_last) ∅)
                  (run_addition_app.overlapping a b l
                     ta_default ta tb_default tb)))) l
     = run_addition_app.mode_cycle
         (run_addition_app.mode_cycle (run_addition_app.current_mode_of st l))
  /\ run_addition_app.fired_for l
       (snd (run_addition_app.exec
               (run_addition_app.mk_world
                  (run_addition_app._mark_interaction st l t_last) ∅)
               (run_addition_app.one_after_the_other a b l
                  ta_default ta tb_default tb)))
     = [ run_addition_app.mk_changed l
           (run_addition_app.current_mode_of st l)
           (run_addition_app.mode_cycle
              (run_addition_app.current_mode_of st l)) ]
  /\ run_addition_app.current_mode_of
       (run_addition_app.shared
          (fst (run_addition_app.exec
                  (run_addition_app.mk_world
                     (run_addition_app._mark_interaction st l t_last) ∅)
                  (run_addition_app.one_after_the_other a b l
                     ta_default ta tb_default tb)))) l
     = run_addition_app.mode_cycle (run_addition_app.current_mode_of st l)
  /\ (forall thread t_default t_now,
        t_now - t_last
        < run_addition_app._load_inactivity_threshold
            (run_addition_app._mark_interaction st l t_last) l ->
        run_addition_app.act
          (run_addition_app.mk_world
             (run_addition_app._mark_interaction st l t_last) ∅)
          (run_addition_app.Enter thread l t_default t_now)
        = (run_addition_app.mk_world
             (run_addition_app._mark_interaction st l t_last) ∅, None))
  /\ (run_addition_app.INACTIVITY_TEST_SECONDS st = None ->
      run_addition_app.inactivity_thresholds st !! l = None ->
      run_addition_app._load_inactivity_threshold
        (run_addition_app._mark_interaction st l t_last) l = 120)
  /\ run_addition_app.mode_cycle "visual" = "kinesthetic"%string
  /\ run_addition_app.mode_cycle "kinesthetic" = "auditory"%string
  /\ run_addition_app.mode_cycle "auditory" = "visual"%string.
Proof.
  intros Hab Hflag Hdue_a Hdue_b.
  assert (Hthreshold :
    run_addition_app.INACTIVITY_TEST_SECONDS st = None ->
    run_addition_app.inactivity_thresholds st !! l = None ->
    run_addition_app._load_inactivity_threshold
      (run_addition_app._mark_interaction st l t_last) l = 120).
  { intros Henv Hth. unfold run_addition_app._load_inactivity_threshold.
    cbn [run_addition_app._mark_interaction
         run_addition_app.INACTIVITY_TEST_SECONDS
         run_addition_app.inactivity_thresholds].
    rewrite Henv, Hth. reflexivity. }
  assert (Hts : forall t_default,
            default t_default
              (run_addition_app._last_interaction_ts
                 (run_addition_app._mark_interaction st l t_last) !! l)
            = t_last).
  { intros t_default.
    cbn [run_addition_app._mark_interaction
         run_addition_app._last_interaction_ts].
    rewrite lookup_insert_eq. reflexivity. }
  assert (Hflag0 : l ∉ run_addition_app._launched_subtraction
                         (run_addition_app._mark_interaction st l t_last))
    by exact Hflag.
  assert (Hm0 : run_addition_app.current_mode_of
                  (run_addition_app._mark_interaction st l t_last) l
                = run_addition_app.current_mode_of st l) by reflexivity.
  revert Hdue_a Hdue_b Hthreshold Hts Hflag0 Hm0.
  generalize (run_addition_app._mark_interaction st l t_last) as st0.
  generalize (run_addition_app.current_mode_of st l) as m.
  intros m st0 Hdue_a Hdue_b Hthreshold Hts Hflag0 Hm0.
  remember (run_addition_app.add_flag
              (run_addition_app.set_csv st0
                 (Some (map run_addition_app.written_row
                          (Py.dict_set l (run_addition_app.mode_cycle m)
                             (run_addition_app.load_preferred_modes
                                (run_addition_app.preferred_modes_csv st0))))))
              l) as st2 eqn:Est2.
  assert (Hm1 : run_addition_app.current_mode_of st2 l
                = run_addition_app.mode_cycle m).
  { rewrite Est2. exact (current_mode_after_store st0 l m). }
  assert (Hflag2 : l ∈ run_addition_app._launched_subtraction st2).
  { rewrite Est2.
    cbn [run_addition_app.add_flag run_addition_app._launched_subtraction].
    set_solver. }
  assert (Hover :
    run_addition_app.exec (run_addition_app.mk_world st0 ∅)
      (run_addition_app.overlapping a b l ta_default ta tb_default tb)
    = (run_addition_app.mk_world
         (run_addition_app.add_flag
            (run_addition_app.set_csv st2
               (Some (map run_addition_app.written_row
                        (Py.dict_set l
                           (run_addition_app.mode_cycle
                              (run_addition_app.mode_cycle m))
                           (run_addition_app.load_preferred_modes
                              (run_addition_app.preferred_modes_csv st2))))))
            l)
         ∅,
       [ run_addition_app.mk_changed l m (run_addition_app.mode_cycle m);
         run_addition_app.mk_changed l (run_addition_app.mode_cycle m)
           (run_addition_app.mode_cycle (run_addition_app.mode_cycle m)) ])).
  { unfold run_addition_app.overlapping.
    rewrite exec_cons, act_Enter_due;
      [|apply lookup_empty|exact Hflag0|rewrite Hts; exact Hdue_a].
    cbn [fst snd].
    rewrite exec_cons, act_Enter_due;
      [|lookup_thread|exact Hflag0|rewrite Hts; exact Hdue_b].
    cbn [fst snd].
    rewrite exec_cons, (act_Load _ _ _ l) by lookup_thread.
    cbn [fst snd]. rewrite Hm0.
    rewrite exec_cons,
      (act_Store _ _ _ l _ _ _ run_addition_app.Written)
      by lookup_thread.
    cbn [fst snd].
    rewrite exec_cons, (act_Add _ _ _ l) by lookup_thread.
    cbn [fst snd]. rewrite <- Est2.
    rewrite exec_cons, (act_Load _ _ _ l) by lookup_thread.
    cbn [fst snd]. rewrite Hm1.
    rewrite exec_cons,
      (act_Store _ _ _ l _ _ _ run_addition_app.Written)
      by lookup_thread.
    cbn [fst snd].
    rewrite exec_cons, (act_Add _ _ _ l) by lookup_thread.
    cbn [fst snd run_addition_app.exec].
    f_equal. f_equal. apply map_eq. intros i.
    destruct (decide (i = b)) as [->|Hb];
      [rewrite lookup_delete_eq; symmetry; apply lookup_empty|].
    rewrite lookup_delete_ne, !lookup_insert_ne by congruence.
    destruct (decide (i = a)) as [->|Ha];
      [rewrite lookup_delete_eq; reflexivity|].
    rewrite lookup_delete_ne, !lookup_insert_ne by congruence.
    reflexivity. }
  assert (Hseq :
    run_addition_app.exec (run_addition_app.mk_world st0 ∅)
      (run_addition_app.one_after_the_other a b l
         ta_default ta tb_default tb)
    = (run_addition_app.mk_world st2 ∅,
       [ run_addition_app.mk_changed l m (run_addition_app.mode_cycle m) ])).
  { unfold run_addition_app.one_after_the_other.
    rewrite exec_app, check_is_its_steps by apply lookup_empty.
    rewrite check_due_fires; [|exact Hflag0|rewrite Hts; exact Hdue_a].
    cbn [fst snd]. rewrite Hm0, <- Est2.
    rewrite check_is_its_steps by apply lookup_empty.
    rewrite check_flagged by exact Hflag2. reflexivity. }
  rewrite Hover, Hseq. cbn [fst snd run_addition_app.shared].
  unfold run_addition_app.fired_for.
  cbn [List.filter run_addition_app.ch_learner_id]. rewrite Z.eqb_refl.
  split; [reflexivity|]. split.
  { apply current_mode_after_store. }
  split; [reflexivity|]. split; [exact Hm1|]. split.
  { intros thread t_default t_now Hquiet. apply act_Enter_not_due.
    rewrite Hts. exact Hquiet. }
  split; [exact Hthreshold|].
  repeat split; reflexivity.
Qed.

(** C9 at the failing input: learner 7 with the mode visual persisted and
    the default threshold of 120 seconds interacts at time 1000; the
    monitor thread and a request handler both check at time 1125. The
    checks overlap, and two changes are printed: visual to kinesthetic and
    kinesthetic to auditory. *)
Lemma C9_overlapping_checks_witness :
  run_addition_app.fired_for 7
    (snd (run_addition_app.exec
            (run_addition_app.mk_world
               (run_addition_app._mark_interaction Examples.idle_state 7 1000)
               ∅)
            (run_addition_app.overlapping 0 1 7 1125 1125 1125 1125)))
  = [ run_addition_app.mk_changed 7 "visual" "kinesthetic";
      run_addition_app.mk_changed 7 "kinesthetic" "auditory" ].
Proof.
  destruct (C9_overlapping_checks_fire_twice Examples.idle_state 7 1000
              0%nat 1%nat 1125 1125 1125 1125) as [H _].
  - discriminate.
  - vm_compute. discriminate.
  - vm_compute. discriminate.
  - vm_compute. discriminate.
  - exact H.
Defined.

(** * Further properties of the code *)

(** ** The baseline and the score *)

Lemma In_insert_sorted (a x : Q) (l : list Q) :
  In x (Py.insert_sorted a l) <-> x = a \/ In x l.
Proof.
  induction l as [|y l IH]; simpl; [intuition congruence|].
  destruct (Qle_bool a y); simpl; [intuition congruence|]. rewrite IH.
  intuition congruence.
Qed.

Lemma In_sorted (x : Q) (l : list Q) : In x (Py.sorted l) <-> In x l.
Proof.
  induction l as [|a l IH]; [reflexivity|].
  change (Py.sorted (a :: l)) with (Py.insert_sorted a (Py.sorted l)).
  rewrite In_insert_sorted, IH. simpl. intuition congruence.
Qed.

Lemma median_in_range (l : list Q) (lo hi : Q) :
  l <> [] -> (forall x, In x l -> lo <= x /\ x <= hi) ->
  exists m, Py.median l = Py.Returns m /\ lo <= m /\ m <= hi.
Proof.
  intros Hne Hall. unfold Py.median.
  assert (Hs : forall i a, nth_error (Py.sorted l) i = Some a ->
                           lo <= a /\ a <= hi).
  { intros i a H. apply Hall, In_sorted. eapply nth_error_In. exact H. }
  rewrite sorted_length.
  assert (Hlen : (0 < length l)%nat) by (destruct l; simpl; [congruence|lia]).
  destruct (Nat.eqb_spec (length l) 0) as [E|_]; [lia|].
  destruct (Nat.eqb_spec (length l mod 2) 1) as [_|Heven].
  - destruct (nth_error_in_range (Py.sorted l) (length l / 2)) as [a Ha].
    { rewrite sorted_length. apply Nat.div_lt; lia. }
    rewrite Ha. exists a. split; [reflexivity|]. eapply Hs. exact Ha.
  - assert (Hmod : (length l mod 2 = 0)%nat).
    { pose proof (Nat.mod_upper_bound (length l) 2). lia. }
    pose proof (Nat.div_mod_eq (length l) 2) as Hdm.
    destruct (nth_error_in_range (Py.sorted l) (length l / 2 - 1)) as [a Ha].
    { rewrite sorted_length. lia. }
    destruct (nth_error_in_range (Py.sorted l) (length l / 2)) as [b Hb].
    { rewrite sorted_length. lia. }
    rewrite Ha, Hb. simpl. eexists. split; [reflexivity|].
    destruct (Hs _ _ Ha) as [? ?]. destruct (Hs _ _ Hb) as [? ?].
    split.
    + apply Qle_shift_div_l; lra.
    + apply Qle_shift_div_r; lra.
Qed.

Lemma rts_all_In (entries : list Frustraiton.entry) (x : Q) :
  In x (Frustraiton.rts_all entries)
  <-> exists e, In e entries /\ Frustraiton.skipped e = false
                /\ Frustraiton.response_time e = x.
Proof.
  unfold Frustraiton.rts_all. rewrite List.in_map_iff. split.
  - intros [e [Hx He]]. apply List.filter_In in He. destruct He as [He Hs].
    exists e. split; [exact He|]. split; [|exact Hx].
    now destruct (Frustraiton.skipped e).
  - intros [e [He [Hs Hx]]]. exists e. split; [exact Hx|].
    apply List.filter_In. split; [exact He|]. rewrite Hs. reflexivity.
Qed.

Lemma rts_correct_In (entries : list Frustraiton.entry) (x : Q) :
  In x (Frustraiton.rts_correct entries) -> In x (Frustraiton.rts_all entries).
Proof.
  unfold Frustraiton.rts_correct, Frustraiton.rts_all.
  rewrite !List.in_map_iff. intros [e [Hx He]]. exists e. split; [exact Hx|].
  apply List.filter_In in He. destruct He as [He Hc].
  apply List.filter_In. split; [exact He|].
  apply andb_true_iff in Hc. tauto.
Qed.

(** X1: when a test has a non-skipped record, its baseline lies between
    the smallest and the largest response time of the non-skipped records:
    any bounds that hold for all of them hold for the baseline. *)
Theorem X1_baseline_within_response_times
    (entries : list Frustraiton.entry) (lo hi : Q) :
  (exists e, In e entries /\ Frustraiton.skipped e = false) ->
  (forall e, In e entries -> Frustraiton.skipped e = false ->
             lo <= Frustraiton.response_time e
             /\ Frustraiton.response_time e <= hi) ->
  exists b, Frustraiton.baseline_of entries = Py.Returns b
            /\ lo <= b /\ b <= hi.
Proof.
  intros [e0 [He0 Hs0]] Hall.
  assert (Hrange : forall x, In x (Frustraiton.rts_all entries) ->
                             lo <= x /\ x <= hi).
  { intros x Hx. apply rts_all_In in Hx. destruct Hx as [e [He [Hs <-]]].
    apply Hall; assumption. }
  unfold Frustraiton.baseline_of.
  destruct (Nat.leb_spec 2 (length (Frustraiton.rts_correct entries))) as [H|H].
  - apply median_in_range.
    + intros E. rewrite E in H. simpl in H. lia.
    + intros x Hx. apply Hrange, rts_correct_In, Hx.
  - destruct (Frustraiton.rts_all entries) as [|x xs] eqn:E.
    + exfalso.
      assert (Hin : In (Frustraiton.response_time e0)
                       (Frustraiton.rts_all entries))
        by (apply rts_all_In; eauto).
      rewrite E in Hin. exact Hin.
    + apply median_in_range; [discriminate|exact Hrange].
Qed.

(** X1 on the test with the times 1, 1 and 10. *)
Lemma X1_baseline_within_response_times_witness :
  exists b, Frustraiton.baseline_of Examples.slow_third_records = Py.Returns b
            /\ 1 <= b /\ b <= 10.
Proof.
  apply X1_baseline_within_response_times.
  - eexists. split; [left; reflexivity|reflexivity].
  - intros e [<-|[<-|[<-|[]]]] _; simpl; split; lra.
Defined.

Lemma note_of_comp (x y : Q) :
  x == y -> Frustraiton.note_of x = Frustraiton.note_of y.
Proof.
  intros E. unfold Frustraiton.note_of.
  rewrite (Qlt_bool_comp 0.75 x y E), (Qlt_bool_comp 0.4 x y E). reflexivity.
Qed.

Lemma smoothstep_comp (x y : Q) :
  x == y -> Frustraiton.smoothstep x == Frustraiton.smoothstep y.
Proof. intros E. unfold Frustraiton.smoothstep. rewrite E. reflexivity. Qed.

Lemma all_skipped_lists (entries : list Frustraiton.entry) (b : Q) :
  (forall e, In e entries -> Frustraiton.skipped e = true) ->
  Frustraiton.rts_correct entries = []
  /\ Frustraiton.rts_all entries = []
  /\ Frustraiton.rt_excess b entries = []
  /\ Frustraiton.err_count entries = length entries.
Proof.
  unfold Frustraiton.rts_correct, Frustraiton.rts_all, Frustraiton.err_count.
  induction entries as [|e es IH]; intros H; simpl; [repeat split|].
  rewrite (H e (or_introl eq_refl)). simpl.
  destruct IH as [H1 [H2 [H3 H4]]]; [intros x Hx; apply H; right; exact Hx|].
  rewrite andb_false_r. simpl. rewrite H4. repeat split; assumption.
Qed.

(** X2: for a test in which every record is skipped, the baseline is the
    constant 10, the error rate is 1 and the latency component is 0, so
    the score is the rounded smoothstep of 0.45 + 0.30 x valence, with the
    note of that smoothstep value. *)
Theorem X2_all_skipped_test (e : Frustraiton.entry)
    (es : list Frustraiton.entry) :
  (forall x, In x (e :: es) -> Frustraiton.skipped x = true) ->
  Frustraiton.baseline_of (e :: es) = Py.Returns 10
  /\ Frustraiton.err_rate_of (e :: es) == 1
  /\ Frustraiton.rt_norm_of 10 (e :: es) == 0
  /\ Frustraiton._compute_test_frustration (e :: es)
     = Py.Returns
         (Py.round2 (Frustraiton.smoothstep
                       (0.45 + 0.30 * Frustraiton.valence_of (e :: es))),
          Frustraiton.note_of
            (Frustraiton.smoothstep
               (0.45 + 0.30 * Frustraiton.valence_of (e :: es)))).
Proof.
  intros H. destruct (all_skipped_lists (e :: es) 10 H) as [H1 [H2 [H3 H4]]].
  assert (Hb : Frustraiton.baseline_of (e :: es) = Py.Returns 10).
  { unfold Frustraiton.baseline_of. rewrite H1, H2. reflexivity. }
  assert (He : Frustraiton.err_rate_of (e :: es) == 1).
  { unfold Frustraiton.err_rate_of. rewrite H4. apply Qmult_inv_r.
    simpl length. intros E.
    assert (Hz : inject_Z 0 < inject_Z (Z.of_nat (S (length es))))
      by (rewrite <- Zlt_Qlt; lia).
    change (inject_Z 0) with 0 in Hz. lra. }
  assert (Hr : Frustraiton.rt_norm_of 10 (e :: es) == 0).
  { unfold Frustraiton.rt_norm_of. rewrite H3. reflexivity. }
  split; [exact Hb|]. split; [exact He|]. split; [exact Hr|].
  unfold Frustraiton._compute_test_frustration, Frustraiton.composite_of.
  rewrite Hb. simpl Py.bind.
  assert (Hs : Frustraiton.composite (Frustraiton.err_rate_of (e :: es))
                 (Frustraiton.rt_norm_of 10 (e :: es))
                 (Frustraiton.valence_of (e :: es))
               == 0.45 + 0.30 * Frustraiton.valence_of (e :: es)).
  { unfold Frustraiton.composite. rewrite He, Hr. ring. }
  rewrite (round2_comp _ _ (smoothstep_comp _ _ Hs)),
    (note_of_comp _ _ (smoothstep_comp _ _ Hs)). reflexivity.
Qed.

(** X2 on a test of two skipped questions. *)
Lemma X2_all_skipped_test_witness :
  Frustraiton.baseline_of
    [ Frustraiton.mk_entry "visual" "q1" 4 false true "sad";
      Frustraiton.mk_entry "visual" "q2" 6 false true "happy" ]
  = Py.Returns 10.
Proof.
  apply (X2_all_skipped_test
           (Frustraiton.mk_entry "visual" "q1" 4 false true "sad")
           [ Frustraiton.mk_entry "visual" "q2" 6 false true "happy" ]).
  intros x [<-|[<-|[]]]; reflexivity.
Defined.

(** ** The returned score and the note *)

Lemma round_half_even_floor (y : Q) :
  (Qfloor y <= Py.round_half_even y <= Qfloor y + 1)%Z.
Proof.
  unfold Py.round_half_even.
  destruct (Qcompare _ _); [destruct (Z.even _)| |]; lia.
Qed.

Lemma round_half_even_mono (x y : Q) :
  x <= y -> (Py.round_half_even x <= Py.round_half_even y)%Z.
Proof.
  intros H. pose proof (Qfloor_resp_le x y H) as Hf.
  destruct (Z.eq_dec (Qfloor x) (Qfloor y)) as [E|Hne].
  - unfold Py.round_half_even. rewrite E.
    destruct (Qcompare_spec (x - inject_Z (Qfloor y)) (1 # 2)) as [Ex|Ex|Ex];
      destruct (Qcompare_spec (y - inject_Z (Qfloor y)) (1 # 2)) as [Ey|Ey|Ey];
      try lia; try lra; destruct (Z.even (Qfloor y)); lia.
  - pose proof (round_half_even_floor x). pose proof (round_half_even_floor y).
    lia.
Qed.

Lemma round2_mono (x y : Q) : x <= y -> Py.round2 x <= Py.round2 y.
Proof.
  intros H. unfold Py.round2.
  apply Qmult_le_compat_r; [|vm_compute; discriminate].
  rewrite <- Zle_Qle. apply round_half_even_mono. lra.
Qed.

(** X3: the note is consistent with the returned score up to the rounding:
    with the note High the returned score is at least 0.75, with the note
    Moderate it is between 0.4 and 0.75, and with the note Low it is at
    most 0.4. *)
Theorem X3_note_bounds_returned_score (entries : list Frustraiton.entry)
    (score : Q) (note : Frustraiton.Note) :
  Frustraiton._compute_test_frustration entries = Py.Returns (score, note) ->
  match note with
  | Frustraiton.High_frustration => 0.75 <= score
  | Frustraiton.Moderate_frustration => 0.4 <= score /\ score <= 0.75
  | Frustraiton.Low_frustration => score <= 0.4
  end.
Proof.
  destruct entries as [|e es]; simpl.
  - intros H. injection H as <- <-. lra.
  - destruct (Frustraiton.composite_of (e :: es)) as [s|]; simpl;
      [|discriminate].
    intros H. injection H as <- <-. unfold Frustraiton.note_of.
    set (v := Frustraiton.smoothstep s).
    assert (R75 : Py.round2 0.75 == 0.75) by reflexivity.
    assert (R40 : Py.round2 0.4 == 0.4) by reflexivity.
    destruct (Py.Qlt_bool 0.75 v) eqn:E1.
    + apply Qlt_bool_true in E1. rewrite <- R75. apply round2_mono. lra.
    + apply Qlt_bool_false in E1.
      destruct (Py.Qlt_bool 0.4 v) eqn:E2.
      * apply Qlt_bool_true in E2. split.
        -- rewrite <- R40. apply round2_mono. lra.
        -- rewrite <- R75. apply round2_mono. exact E1.
      * apply Qlt_bool_false in E2. rewrite <- R40. apply round2_mono.
        exact E2.
Qed.

(** X3 on the two records whose score rounds down to 0.4. *)
Lemma X3_note_bounds_returned_score_witness :
  0.4 <= 40 # 100 /\ 40 # 100 <= 0.75.
Proof.
  apply (X3_note_bounds_returned_score Examples.borderline_records (40 # 100)
           Frustraiton.Moderate_frustration).
  reflexivity.
Defined.

Lemma smoothstep_mono (s s' : Q) :
  0 <= s -> s <= s' -> s' <= 1 ->
  Frustraiton.smoothstep s <= Frustraiton.smoothstep s'.
Proof.
  intros H0 Hle H1. unfold Frustraiton.smoothstep.
  assert (A1 : 0 <= s * (1 - s)) by (apply Qmult_le_0_compat; lra).
  assert (A2 : 0 <= s' * (1 - s')) by (apply Qmult_le_0_compat; lra).
  assert (A3 : 0 <= s * (1 - s')) by (apply Qmult_le_0_compat; lra).
  assert (A4 : 0 <= s' * (1 - s)) by (apply Qmult_le_0_compat; lra).
  assert (A : 0 <= (s' - s)
                   * (2 * (s * (1 - s)) + 2 * (s' * (1 - s'))
                      + s * (1 - s') + s' * (1 - s)))
    by (apply Qmult_le_0_compat; lra).
  lra.
Qed.

Lemma composite_of_bounds (e : Frustraiton.entry)
    (es : list Frustraiton.entry) (s : Q) :
  Frustraiton.composite_of (e :: es) = Py.Returns s -> unit_interval s.
Proof.
  unfold Frustraiton.composite_of.
  destruct (Frustraiton.baseline_of (e :: es)) as [b|]; simpl; [|discriminate].
  intros H. injection H as <-.
  apply composite_bounds;
    [apply err_rate_bounds|apply rt_norm_bounds|apply valence_bounds].
Qed.

(** X4: the returned score and the note never decrease with the composite:
    of two non-empty tests, the one with the larger composite [s] gets a
    returned score that is at least as large, it is noted High whenever the
    other is, and the other is noted Low whenever it is. *)
Theorem X4_score_monotone_in_composite
    (e e' : Frustraiton.entry) (es es' : list Frustraiton.entry) (s s' : Q) :
  Frustraiton.composite_of (e :: es) = Py.Returns s ->
  Frustraiton.composite_of (e' :: es') = Py.Returns s' ->
  s <= s' ->
  exists score note score' note',
    Frustraiton._compute_test_frustration (e :: es) = Py.Returns (score, note)
    /\ Frustraiton._compute_test_frustration (e' :: es')
       = Py.Returns (score', note')
    /\ score <= score'
    /\ (note = Frustraiton.High_frustration ->
        note' = Frustraiton.High_frustration)
    /\ (note' = Frustraiton.Low_frustration ->
        note = Frustraiton.Low_frustration).
Proof.
  intros Hs Hs' Hle.
  destruct (composite_of_bounds e es s Hs) as [H0 H1].
  destruct (composite_of_bounds e' es' s' Hs') as [H0' H1'].
  pose proof (smoothstep_mono s s' H0 Hle H1') as Hm.
  unfold Frustraiton._compute_test_frustration. rewrite Hs, Hs'. simpl Py.bind.
  eexists _, _, _, _. split; [reflexivity|]. split; [reflexivity|].
  split; [apply round2_mono; exact Hm|].
  unfold Frustraiton.note_of.
  destruct (Py.Qlt_bool 0.75 (Frustraiton.smoothstep s)) eqn:E1;
    destruct (Py.Qlt_bool 0.75 (Frustraiton.smoothstep s')) eqn:E1';
    destruct (Py.Qlt_bool 0.4 (Frustraiton.smoothstep s)) eqn:E2;
    destruct (Py.Qlt_bool 0.4 (Frustraiton.smoothstep s')) eqn:E2';
    try apply Qlt_bool_true in E1; try apply Qlt_bool_true in E1';
    try apply Qlt_bool_true in E2; try apply Qlt_bool_true in E2';
    try apply Qlt_bool_false in E1; try apply Qlt_bool_false in E1';
    try apply Qlt_bool_false in E2; try apply Qlt_bool_false in E2';
    split; intros; try reflexivity; try discriminate; exfalso; lra.
Qed.

(** X4 on the two tests with the times 1, 1, 10 and 10, 1, 10. *)
Lemma X4_score_monotone_in_composite_witness :
  exists score note score' note',
    Frustraiton._compute_test_frustration Examples.slow_first_and_third_records
    = Py.Returns (score, note)
    /\ Frustraiton._compute_test_frustration Examples.slow_third_records
       = Py.Returns (score', note')
    /\ score <= score'
    /\ (note = Frustraiton.High_frustration ->
        note' = Frustraiton.High_frustration)
    /\ (note' = Frustraiton.Low_frustration ->
        note = Frustraiton.Low_frustration).
Proof.
  eapply (X4_score_monotone_in_composite
            (Frustraiton.mk_entry "visual" "q1" 10 true false "happy")
            (Frustraiton.mk_entry "visual" "q1" 1 true false "happy")).
  - reflexivity.
  - reflexivity.
  - vm_compute. discriminate.
Defined.

(** ** Strings: case mapping and stripping *)

Lemma is_space_upper_char (c : ascii) :
  Py.is_space (Py.upper_char c) = Py.is_space c.
Proof. destruct c as [[] [] [] [] [] [] [] []]; vm_compute; reflexivity. Qed.

Lemma is_space_lower_char (c : ascii) :
  Py.is_space (Py.lower_char c) = Py.is_space c.
Proof. destruct c as [[] [] [] [] [] [] [] []]; vm_compute; reflexivity. Qed.

Lemma lower_lower_char (c : ascii) :
  Py.lower_char (Py.lower_char c) = Py.lower_char c.
Proof. destruct c as [[] [] [] [] [] [] [] []]; vm_compute; reflexivity. Qed.

Lemma lower_lower (s : string) : Py.lower (Py.lower s) = Py.lower s.
Proof.
  induction s as [|c s IH]; simpl; [reflexivity|].
  rewrite lower_lower_char, IH. reflexivity.
Qed.

Lemma lstrip_upper (s : string) : Py.lstrip (Py.upper s) = Py.upper (Py.lstrip s).
Proof.
  induction s as [|c s IH]; simpl; [reflexivity|].
  rewrite is_space_upper_char. destruct (Py.is_space c); [exact IH|reflexivity].
Qed.

Lemma lstrip_lower (s : string) : Py.lstrip (Py.lower s) = Py.lower (Py.lstrip s).
Proof.
  induction s as [|c s IH]; simpl; [reflexivity|].
  rewrite is_space_lower_char. destruct (Py.is_space c); [exact IH|reflexivity].
Qed.

Lemma rstrip_upper (s : string) : Py.rstrip (Py.upper s) = Py.upper (Py.rstrip s).
Proof.
  induction s as [|c s IH]; simpl; [reflexivity|].
  rewrite IH, is_space_upper_char.
  destruct (Py.rstrip s); simpl; [destruct (Py.is_space c)|]; reflexivity.
Qed.

Lemma rstrip_lower (s : string) : Py.rstrip (Py.lower s) = Py.lower (Py.rstrip s).
Proof.
  induction s as [|c s IH]; simpl; [reflexivity|].
  rewrite IH, is_space_lower_char.
  destruct (Py.rstrip s); simpl; [destruct (Py.is_space c)|]; reflexivity.
Qed.

Lemma strip_upper (s : string) : Py.strip (Py.upper s) = Py.upper (Py.strip s).
Proof. unfold Py.strip. rewrite lstrip_upper, rstrip_upper. reflexivity. Qed.

Lemma strip_lower (s : string) : Py.strip (Py.lower s) = Py.lower (Py.strip s).
Proof. unfold Py.strip. rewrite lstrip_lower, rstrip_lower. reflexivity. Qed.

Lemma rstrip_rstrip (s : string) : Py.rstrip (Py.rstrip s) = Py.rstrip s.
Proof.
  induction s as [|c s IH]; simpl; [reflexivity|].
  destruct (Py.rstrip s) as [|d r] eqn:E.
  - destruct (Py.is_space c) eqn:Ec; simpl; [reflexivity|].
    rewrite Ec. reflexivity.
  - simpl in *. rewrite IH. reflexivity.
Qed.

Lemma lstrip_no_leading_space (s : string) :
  match Py.lstrip s with
  | EmptyString => True
  | String c _ => Py.is_space c = false
  end.
Proof.
  induction s as [|c s IH]; simpl; [exact I|].
  destruct (Py.is_space c) eqn:E; [exact IH|exact E].
Qed.

Lemma rstrip_keeps_head (c : ascii) (s : string) :
  Py.is_space c = false -> exists r, Py.rstrip (String c s) = String c r.
Proof.
  intros E. simpl. destruct (Py.rstrip s); [rewrite E|]; eauto.
Qed.

Lemma strip_no_leading_space (s : string) :
  Py.lstrip (Py.strip s) = Py.strip s.
Proof.
  unfold Py.strip. pose proof (lstrip_no_leading_space s) as H.
  destruct (Py.lstrip s) as [|c t]; [reflexivity|].
  destruct (rstrip_keeps_head c t H) as [r ->]. simpl. rewrite H. reflexivity.
Qed.

Lemma strip_strip (s : string) : Py.strip (Py.strip s) = Py.strip s.
Proof.
  unfold Py.strip at 1. rewrite strip_no_leading_space.
  unfold Py.strip. apply rstrip_rstrip.
Qed.

(** X5: [_to_bool] reads a truth value without regard to letter case and
    to surrounding white space: for a cell of ASCII characters, changing
    the case of the cell or stripping it does not change the result. *)
Theorem X5_to_bool_ignores_case_and_padding (v : string) :
  Py.is_ascii v = true ->
  Frustraiton._to_bool (Py.upper v) = Frustraiton._to_bool v
  /\ Frustraiton._to_bool (Py.lower v) = Frustraiton._to_bool v
  /\ Frustraiton._to_bool (Py.strip v) = Frustraiton._to_bool v.
Proof.
  intros _. unfold Frustraiton._to_bool.
  rewrite strip_upper, lower_upper, strip_lower, lower_lower, strip_strip.
  repeat split; reflexivity.
Qed.

(** X5 for the cell " yEs ", which reads as true however it is cased. *)
Lemma X5_to_bool_witness :
  Frustraiton._to_bool (Py.upper " yEs ") = Frustraiton._to_bool " yEs "
  /\ Frustraiton._to_bool (Py.lower " yEs ") = Frustraiton._to_bool " yEs "
  /\ Frustraiton._to_bool (Py.strip " yEs ") = Frustraiton._to_bool " yEs ".
Proof.
  apply (X5_to_bool_ignores_case_and_padding " yEs "). reflexivity.
Defined.

(** ** Reading the log *)

Lemma read_log_fold_lookup (rows : list Frustraiton.log_row)
    (lid : option string) (tests : gmap Z (list Frustraiton.entry)) (t : Z) :
  snd (fold_left Frustraiton.read_log_step rows (lid, tests)) !! t
  = match Frustraiton.entries_of_test t rows with
    | [] => tests !! t
    | es => Some (default [] (tests !! t) ++ es)
    end.
Proof.
  revert lid tests. induction rows as [|row rows IH]; intros lid tests.
  - reflexivity.
  - cbn [fold_left]. unfold Frustraiton.entries_of_test. cbn [flat_map].
    fold (Frustraiton.entries_of_test t rows).
    unfold Frustraiton.read_log_step at 2, Frustraiton.parsed_row.
    destruct (Frustraiton.log_test_number row) as [t'|];
      [|rewrite IH; reflexivity].
    destruct (Frustraiton.log_response_time_sec row) as [rt|];
      [|rewrite IH; reflexivity].
    rewrite IH. destruct (Z.eqb_spec t' t) as [->|Hne].
    + rewrite lookup_insert_eq. simpl.
      destruct (Frustraiton.entries_of_test t rows); [reflexivity|].
      rewrite <- app_assoc. reflexivity.
    + rewrite lookup_insert_ne by exact Hne. reflexivity.
Qed.

(** X6: [_read_log_grouped_by_test] groups the rows of the log by test
    number: a test number is mapped to the entries of its convertible
    rows, in the order of the file; rows that fail to convert are skipped;
    a test number with no convertible row is absent, so no test is ever
    mapped to an empty list. A missing file gives no tests. *)
Theorem X6_log_grouped_by_test (rows : list Frustraiton.log_row) (t : Z) :
  snd (Frustraiton._read_log_grouped_by_test (Some rows)) !! t
  = match Frustraiton.entries_of_test t rows with
    | [] => None
    | es => Some es
    end
  /\ snd (Frustraiton._read_log_grouped_by_test (Some rows)) !! t <> Some []
  /\ Frustraiton._read_log_grouped_by_test None = (None, ∅).
Proof.
  assert (H : snd (Frustraiton._read_log_grouped_by_test (Some rows)) !! t
              = match Frustraiton.entries_of_test t rows with
                | [] => None
                | es => Some es
                end).
  { unfold Frustraiton._read_log_grouped_by_test.
    rewrite read_log_fold_lookup, lookup_empty. reflexivity. }
  split; [exact H|]. split; [|reflexivity].
  rewrite H. destruct (Frustraiton.entries_of_test t rows); discriminate.
Qed.

(** ** What the batch scorer appends *)

Lemma scorer_score_bounds (entries : list Frustraiton.entry) (score : Q)
    (note : Frustraiton.Note) :
  Frustraiton._compute_test_frustration entries = Py.Returns (score, note) ->
  0 <= score /\ score <= 1.
Proof.
  destruct entries as [|e es]; simpl.
  - intros H. injection H as <- _. split; lra.
  - destruct (Frustraiton.composite_of (e :: es)) as [s|] eqn:Hs; simpl;
      [|discriminate].
    intros H. injection H as <- _.
    apply round2_bounds, smoothstep_bounds, (composite_of_bounds e es s Hs).
Qed.

Lemma StronglySorted_filter_Z (R : Z -> Z -> Prop) (f : Z -> bool)
    (l : list Z) :
  StronglySorted R l -> StronglySorted R (List.filter f l).
Proof.
  induction 1 as [|x l Hl IH Hx]; simpl; [constructor|].
  destruct (f x); [|exact IH]. constructor; [exact IH|].
  apply List.Forall_forall. intros y Hy. apply List.filter_In in Hy.
  rewrite List.Forall_forall in Hx. apply Hx. tauto.
Qed.

Lemma StronglySorted_le_lt (l : list Z) :
  StronglySorted Z.le l -> List.NoDup l -> StronglySorted Z.lt l.
Proof.
  induction 1 as [|x l Hl IH Hx]; intros Hnd; [constructor|].
  inversion Hnd as [|? ? Hnot Hnd']; subst.
  constructor; [apply IH; exact Hnd'|].
  apply List.Forall_forall. intros y Hy.
  rewrite List.Forall_forall in Hx. specialize (Hx y Hy).
  assert (x <> y) by (intros ->; contradiction). lia.
Qed.

Lemma sorted_tests_ascending (tests : gmap Z (list Frustraiton.entry)) :
  StronglySorted Z.lt (Frustraiton.sorted_tests tests)
  /\ forall k, In k (Frustraiton.sorted_tests tests) <-> is_Some (tests !! k).
Proof.
  unfold Frustraiton.sorted_tests. split.
  - apply StronglySorted_le_lt.
    + apply StronglySorted_merge_sort; apply _.
    + apply NoDup_ListNoDup. rewrite merge_sort_Permutation.
      apply NoDup_elements.
  - intros k. rewrite <- list_elem_of_In, merge_sort_Permutation,
      elem_of_elements, elem_of_dom. reflexivity.
Qed.

Lemma new_rows_scored (now : Z -> string) (l : string)
    (tests : gmap Z (list Frustraiton.entry)) (already : gset Z)
    (keys : list Z) :
  exists rows,
    Frustraiton.new_rows now l tests already keys = Py.Returns rows
    /\ Forall2
         (fun r t =>
            Frustraiton.rep_learner_id r = l
            /\ Frustraiton.rep_test_number r = Some t
            /\ exists score note,
                 Frustraiton._compute_test_frustration
                   (default [] (tests !! t)) = Py.Returns (score, note)
                 /\ Frustraiton.rep_frustration_score r = Some score
                 /\ Frustraiton.rep_notes r = Frustraiton.note_text note
                 /\ 0 <= score /\ score <= 1)
         rows (List.filter (fun k => negb (bool_decide (k ∈ already))) keys).
Proof.
  induction keys as [|k keys [rows [IH1 IH2]]]; simpl.
  - exists []. split; [reflexivity|constructor].
  - case_bool_decide as Hk; simpl.
    + exists rows. split; assumption.
    + destruct (Frustraiton._compute_test_frustration
                  (default [] (tests !! k))) as [[sc n]|] eqn:Hsc.
      2:{ destruct (scorer_returns (default [] (tests !! k))) as [r Hr].
          congruence. }
      simpl Py.bind. rewrite IH1. simpl Py.bind.
      eexists. split; [reflexivity|].
      constructor; [|exact IH2]. simpl.
      split; [reflexivity|]. split; [reflexivity|].
      exists sc, n. split; [exact Hsc|]. split; [reflexivity|].
      split; [reflexivity|]. apply (scorer_score_bounds _ _ _ Hsc).
Qed.

(** X7: the batch scorer only appends to the report. The rows that were in
    the report stay, in place. When no row of the log names a learner,
    nothing is appended. Otherwise the appended rows are in strictly
    ascending order of test number and there is exactly one for every test
    of the log that the report did not have for the learner; each carries
    the learner, the test number, and the score and the note that
    [_compute_test_frustration] gives for the entries of that test, a
    score between 0 and 1. *)
Theorem X7_report_append_only (now : Z -> string)
    (log_file : option (list Frustraiton.log_row))
    (output_file : option (list Frustraiton.report_row)) :
  exists report rows tests_scored,
    Frustraiton.compute_frustration_per_test now log_file output_file
    = Py.Returns report
    /\ default [] report = default [] output_file ++ rows
    /\ StronglySorted Z.lt tests_scored
    /\ match fst (Frustraiton._read_log_grouped_by_test log_file) with
       | None => rows = []
       | Some learner_id =>
           (forall t,
              In t tests_scored
              <-> is_Some
                    (snd (Frustraiton._read_log_grouped_by_test log_file) !! t)
                  /\ forall old, In old (default [] output_file) ->
                                 ~ Spec.row_of learner_id t old)
           /\ Forall2
                (fun r t =>
                   Frustraiton.rep_learner_id r = learner_id
                   /\ Frustraiton.rep_test_number r = Some t
                   /\ exists entries score note,
                        snd (Frustraiton._read_log_grouped_by_test log_file)
                          !! t = Some entries
                        /\ Frustraiton._compute_test_frustration entries
                           = Py.Returns (score, note)
                        /\ Frustraiton.rep_frustration_score r = Some score
                        /\ Frustraiton.rep_notes r = Frustraiton.note_text note
                        /\ 0 <= score /\ score <= 1)
                rows tests_scored
       end.
Proof.
  unfold Frustraiton.compute_frustration_per_test.
  destruct (Frustraiton._read_log_grouped_by_test log_file)
    as [[l|] tests] eqn:Hread; cbn [fst snd].
  2:{ exists output_file, [], []. split; [reflexivity|].
      rewrite app_nil_r. split; [reflexivity|].
      split; [constructor|reflexivity]. }
  case_bool_decide as Hempty.
  { exists output_file, [], []. split; [reflexivity|].
    rewrite app_nil_r. split; [reflexivity|]. split; [constructor|].
    split; [|constructor].
    intros t. split; [intros []|]. intros [[x Hx] _].
    rewrite Hempty, lookup_empty in Hx. discriminate. }
  set (out1 := Frustraiton._ensure_report_header output_file).
  assert (Hout1 : default [] out1 = default [] output_file)
    by (destruct output_file; reflexivity).
  destruct (new_rows_scored now l tests
              (Frustraiton._existing_tests_in_report out1 l)
              (Frustraiton.sorted_tests tests)) as [rows [-> Hall]].
  simpl Py.bind. destruct (sorted_tests_ascending tests) as [Hsorted Hkeys].
  set (ks := List.filter _ (Frustraiton.sorted_tests tests)) in *.
  assert (Hks : forall t,
            In t ks
            <-> is_Some (tests !! t)
                /\ forall old, In old (default [] output_file) ->
                               ~ Spec.row_of l t old).
  { intros t. unfold ks. rewrite List.filter_In, Hkeys, negb_true_iff,
      bool_decide_eq_false, existing_tests_spec, Hout1.
    split; intros [H1 H2]; (split; [exact H1|]).
    - intros old Hold Hrow. apply H2. exists old. split; assumption.
    - intros [old [Hold Hrow]]. exact (H2 old Hold Hrow). }
  assert (Hall' : Forall2
            (fun r t =>
               Frustraiton.rep_learner_id r = l
               /\ Frustraiton.rep_test_number r = Some t
               /\ exists entries score note,
                    tests !! t = Some entries
                    /\ Frustraiton._compute_test_frustration entries
                       = Py.Returns (score, note)
                    /\ Frustraiton.rep_frustration_score r = Some score
                    /\ Frustraiton.rep_notes r = Frustraiton.note_text note
                    /\ 0 <= score /\ score <= 1) rows ks).
  { assert (Hin : forall t, In t ks -> is_Some (tests !! t))
      by (intros t Ht; apply Hks; exact Ht).
    clear Hks. induction Hall as [|r t rows' ks' [H1 [H2 H3]] Hrest IH];
      [constructor|].
    constructor; [|apply IH; intros t' Ht'; apply Hin; right; exact Ht'].
    split; [exact H1|]. split; [exact H2|].
    destruct H3 as [score [note H3]].
    destruct (Hin t (or_introl eq_refl)) as [entries He].
    rewrite He in H3. exists entries, score, note.
    split; [exact He|exact H3]. }
  assert (Hsort : StronglySorted Z.lt ks)
    by (apply StronglySorted_filter_Z; exact Hsorted).
  destruct rows as [|row rows].
  - exists out1, [], ks. split; [reflexivity|].
    rewrite Hout1, app_nil_r. split; [reflexivity|].
    split; [exact Hsort|]. split; [exact Hks|exact Hall'].
  - exists (Some (default [] out1 ++ row :: rows)), (row :: rows), ks.
    split; [reflexivity|]. simpl default. rewrite Hout1.
    split; [reflexivity|]. split; [exact Hsort|].
    split; [exact Hks|exact Hall'].
Qed.

(** ** The last-used mode *)

Lemma last_used_loop_spec (rows : list Frustraiton.log_row)
    (last_mode : option string) (max_test_number : Z) :
  (forall r, In r rows -> Frustraiton.log_test_number r <> None) ->
  exists res,
    LearningApp.last_used_loop rows last_mode max_test_number = Py.Returns res
    /\ ((res = last_mode
         /\ forall r t, In r rows -> Frustraiton.log_test_number r = Some t ->
                        (t < max_test_number)%Z)
        \/ exists pre row post t,
             rows = pre ++ row :: post
             /\ res = Some (Frustraiton.log_mode row)
             /\ Frustraiton.log_test_number row = Some t
             /\ (max_test_number <= t)%Z
             /\ (forall r t', In r pre ->
                   Frustraiton.log_test_number r = Some t' -> (t' <= t)%Z)
             /\ (forall r t', In r post ->
                   Frustraiton.log_test_number r = Some t' -> (t' < t)%Z)).
Proof.
  revert last_mode max_test_number.
  induction rows as [|row rows IH]; intros last_mode mx Hall; simpl.
  - exists last_mode. split; [reflexivity|]. left. split; [reflexivity|].
    intros r t [].
  - destruct (Frustraiton.log_test_number row) as [t0|] eqn:Ht0.
    2:{ exfalso. apply (Hall row); [left; reflexivity|exact Ht0]. }
    assert (Hall' : forall r, In r rows ->
                              Frustraiton.log_test_number r <> None)
      by (intros r Hr; apply Hall; right; exact Hr).
    destruct (Z.leb_spec mx t0) as [Hle|Hlt].
    + destruct (IH (Some (Frustraiton.log_mode row)) t0 Hall')
        as [res [Hres Hcase]].
      exists res. split; [exact Hres|]. right.
      destruct Hcase as [[-> Hsmall]|Hex].
      * exists [], row, rows, t0. repeat split; try assumption.
        intros r t' [].
      * destruct Hex as [pre [row' [post [t [-> [Hr [Ht [Hmx [Hpre Hpost]]]]]]]]].
        exists (row :: pre), row', post, t.
        repeat split; try assumption; [lia|].
        intros r t' [<-|Hin] Hrt; [|eapply Hpre; eassumption].
        rewrite Ht0 in Hrt. injection Hrt as <-. exact Hmx.
    + destruct (IH last_mode mx Hall') as [res [Hres Hcase]].
      exists res. split; [exact Hres|].
      destruct Hcase as [[-> Hsmall]|Hex].
      * left. split; [reflexivity|].
        intros r t [<-|Hin] Hrt; [|eapply Hsmall; eassumption].
        rewrite Ht0 in Hrt. injection Hrt as <-. exact Hlt.
      * right.
        destruct Hex as [pre [row' [post [t [-> [Hr [Ht [Hmx [Hpre Hpost]]]]]]]]].
        exists (row :: pre), row', post, t.
        repeat split; try assumption.
        intros r t' [<-|Hin] Hrt; [|eapply Hpre; eassumption].
        rewrite Ht0 in Hrt. injection Hrt as <-. lia.
Qed.

Lemma last_used_loop_raises (rows : list Frustraiton.log_row)
    (last_mode : option string) (max_test_number : Z) :
  (exists r, In r rows /\ Frustraiton.log_test_number r = None) ->
  LearningApp.last_used_loop rows last_mode max_test_number = Py.Raises.
Proof.
  revert last_mode max_test_number.
  induction rows as [|row rows IH]; intros last_mode mx [r [Hin Hr]];
    [destruct Hin|]. simpl.
  destruct (Frustraiton.log_test_number row) as [t0|] eqn:Ht0; [|reflexivity].
  destruct Hin as [<-|Hin]; [congruence|].
  destruct (mx <=? t0)%Z; apply IH; eauto.
Qed.

(** X8: when every row of the learner's log has an integer test number,
    the mode [get_last_used_mode] returns is the mode of the last row
    among those with the highest test number, which is not negative: no
    row before it has a higher test number and every row after it has a
    lower one. One row whose test number does not convert makes the
    function return no mode at all. *)
Theorem X8_last_used_mode_is_of_highest_test (fs : LearningApp.files)
    (learner_id : string) (rows : list Frustraiton.log_row) :
  LearningApp.learner_log fs learner_id = Some rows ->
  (forall m,
     (forall r, In r rows -> Frustraiton.log_test_number r <> None) ->
     LearningApp.get_last_used_mode fs learner_id = Some m ->
     exists pre row post t,
       rows = pre ++ row :: post
       /\ Frustraiton.log_mode row = m
       /\ Frustraiton.log_test_number row = Some t
       /\ (0 <= t)%Z
       /\ (forall r t', In r pre ->
             Frustraiton.log_test_number r = Some t' -> (t' <= t)%Z)
       /\ (forall r t', In r post ->
             Frustraiton.log_test_number r = Some t' -> (t' < t)%Z))
  /\ ((exists r, In r rows /\ Frustraiton.log_test_number r = None) ->
      LearningApp.get_last_used_mode fs learner_id = None).
Proof.
  intros Hlog. unfold LearningApp.get_last_used_mode. rewrite Hlog. split.
  - intros m Hall.
    destruct (last_used_loop_spec rows None 0 Hall)
      as [res [-> [[-> _]|Hex]]]; [discriminate|].
    destruct Hex as [pre [row [post [t [-> [-> [Ht [H0 [Hpre Hpost]]]]]]]]].
    intros H. injection H as <-.
    exists pre, row, post, t. repeat split; assumption.
  - intros Hbad. rewrite (last_used_loop_raises rows None 0 Hbad).
    reflexivity.
Qed.

(** X8 on the log of learner 7 with the tests 1 and 2. *)
Lemma X8_last_used_mode_witness :
  exists pre row post t,
    [ Examples.log_of_7 1 "visual"; Examples.log_of_7 2 "visual" ]
    = pre ++ row :: post
    /\ Frustraiton.log_mode row = "visual"%string
    /\ Frustraiton.log_test_number row = Some t
    /\ (0 <= t)%Z
    /\ (forall r t', In r pre ->
          Frustraiton.log_test_number r = Some t' -> (t' <= t)%Z)
    /\ (forall r t', In r post ->
          Frustraiton.log_test_number r = Some t' -> (t' < t)%Z).
Proof.
  apply (X8_last_used_mode_is_of_highest_test Examples.calmed_down_files "7"
           [ Examples.log_of_7 1 "visual"; Examples.log_of_7 2 "visual" ]
           eq_refl).
  - intros r [<-|[<-|[]]]; discriminate.
  - reflexivity.
Defined.

(** ** The cycle of modes *)

(** X9: [get_next_mode] returns exactly for the three modes: its result is
    then another one of the three modes, and three steps lead back to the
    mode one started from; for any other string it raises. *)
Theorem X9_next_mode_cycle (m : string) :
  (In m LearningApp.MODES ->
   exists m1 m2,
     LearningApp.get_next_mode m = Py.Returns m1
     /\ LearningApp.get_next_mode m1 = Py.Returns m2
     /\ LearningApp.get_next_mode m2 = Py.Returns m
     /\ In m1 LearningApp.MODES /\ In m2 LearningApp.MODES
     /\ m1 <> m /\ m2 <> m /\ m1 <> m2)
  /\ (~ In m LearningApp.MODES -> LearningApp.get_next_mode m = Py.Raises).
Proof.
  split.
  - intros [<-|[<-|[<-|[]]]]; eexists _, _;
      repeat split; try reflexivity; simpl; try tauto; discriminate.
  - intros Hnot. unfold LearningApp.get_next_mode, LearningApp.MODES.
    cbn [LearningApp.index].
    destruct (String.eqb_spec "visual" m) as [E|_];
      [exfalso; apply Hnot; left; exact E|].
    destruct (String.eqb_spec "auditory" m) as [E|_];
      [exfalso; apply Hnot; right; left; exact E|].
    destruct (String.eqb_spec "kinesthetic" m) as [E|_];
      [exfalso; apply Hnot; right; right; left; exact E|].
    reflexivity.
Qed.

(** ** The preferred-mode file *)

(** X10: a preferred mode saved for a learner who has no row in the file
    is read back; saving for one learner never changes what is read for
    another learner, and it leaves the reports and the logs as they are. *)
Theorem X10_first_save_is_read_back (fs : LearningApp.files)
    (l mode : string) :
  (LearningApp.get_preferred_mode fs l = None ->
   LearningApp.get_preferred_mode (LearningApp.save_preferred_mode fs l mode) l
   = Some mode)
  /\ (forall l', l' <> l ->
        LearningApp.get_preferred_mode
          (LearningApp.save_preferred_mode fs l mode) l'
        = LearningApp.get_preferred_mode fs l')
  /\ (forall l',
        LearningApp.get_frustration (LearningApp.save_preferred_mode fs l mode) l'
        = LearningApp.get_frustration fs l'
        /\ LearningApp.get_last_used_mode
             (LearningApp.save_preferred_mode fs l mode) l'
           = LearningApp.get_last_used_mode fs l').
Proof.
  split; [|split].
  - intros H. rewrite get_after_save, H, String.eqb_refl. reflexivity.
  - intros l' Hne. rewrite get_after_save.
    destruct (LearningApp.get_preferred_mode fs l'); [reflexivity|].
    destruct (String.eqb_spec l l'); [congruence|reflexivity].
  - intros l'. split; reflexivity.
Qed.

(** X11: starting the quiz again gives the same mode. If [start_quiz]
    returns with a chosen mode, a second call on the files it left, with
    the reports and the log unchanged, returns with the same mode. *)
Theorem X11_start_quiz_choice_is_stable (fs fs' : LearningApp.files)
    (id_input : string) (chosen : option string) :
  LearningApp.start_quiz fs id_input = Py.Returns (chosen, fs') ->
  exists fs'',
    LearningApp.start_quiz fs' id_input = Py.Returns (chosen, fs'').
Proof.
  unfold LearningApp.start_quiz.
  set (lid := Py.strip id_input).
  destruct (Py.truthy lid) eqn:Hid; simpl negb; cbv iota.
  2:{ intros H. injection H as <- <-. eauto. }
  destruct (LearningApp.get_frustration fs lid) as [[score|]|] eqn:Hf;
    simpl Py.bind; [| |discriminate].
  2:{ intros H. injection H as <- <-. rewrite Hf. simpl. eauto. }
  destruct (Qle_bool 0.4 score) eqn:Hs.
  - intros H.
    assert (Hfs : fs' = fs).
    { destruct (LearningApp.get_last_used_mode fs lid) as [m|];
        [destruct (Py.truthy m);
         [destruct (LearningApp.get_next_mode m); simpl in H|]|];
        congruence. }
    subst fs'. rewrite Hf. simpl Py.bind. rewrite Hs. rewrite H. eauto.
  - intros H. injection H as <- <-.
    change (LearningApp.get_frustration
              (LearningApp.save_preferred_mode fs lid _) lid)
      with (LearningApp.get_frustration fs lid).
    rewrite Hf. simpl Py.bind. rewrite Hs.
    change (LearningApp.get_last_used_mode
              (LearningApp.save_preferred_mode fs lid _) lid)
      with (LearningApp.get_last_used_mode fs lid).
    rewrite get_after_save, String.eqb_refl.
    destruct (LearningApp.get_preferred_mode fs lid) as [pm|] eqn:Hp.
    + eauto.
    + destruct (LearningApp.get_last_used_mode fs lid) as [m|] eqn:Hm.
      * simpl. destruct (Py.truthy m) eqn:Ht; simpl; rewrite ?Ht; eauto.
      * simpl. eauto.
Qed.

(** X11 for learner 7 with a calm report and a stored preference. *)
Lemma X11_start_quiz_choice_is_stable_witness :
  exists fs'',
    LearningApp.start_quiz
      (LearningApp.save_preferred_mode Examples.settled_files "7" "kinesthetic")
      "7"
    = Py.Returns (Some "kinesthetic"%string, fs'').
Proof.
  apply (X11_start_quiz_choice_is_stable Examples.settled_files).
  reflexivity.
Defined.

(** ** The recorded response time and the two submit handlers *)

Lemma round_half_even_error (y : Q) :
  inject_Z (Py.round_half_even y) - (1 # 2) <= y
  /\ y <= inject_Z (Py.round_half_even y) + (1 # 2).
Proof.
  unfold Py.round_half_even.
  pose proof (Qfloor_le y) as Hfl. pose proof (Qlt_floor y) as Hfu.
  rewrite inject_Z_plus in Hfu. change (inject_Z 1) with 1 in Hfu.
  destruct (Qcompare_spec (y - inject_Z (Qfloor y)) (1 # 2)) as [E|E|E].
  - destruct (Z.even (Qfloor y)).
    + split; lra.
    + rewrite inject_Z_plus. change (inject_Z 1) with 1. split; lra.
  - split; lra.
  - rewrite inject_Z_plus. change (inject_Z 1) with 1. split; lra.
Qed.

Lemma round2_error (x : Q) :
  x - (1 # 200) <= Py.round2 x /\ Py.round2 x <= x + (1 # 200).
Proof.
  unfold Py.round2. destruct (round_half_even_error (x * 100)) as [H1 H2].
  set (r := inject_Z (Py.round_half_even (x * 100))) in *.
  split.
  - apply Qle_shift_div_l; lra.
  - apply Qle_shift_div_r; lra.
Qed.

(** X12: the response time recorded for an answer is the elapsed time
    between the start of the question and the submission, rounded to 2
    decimals: it differs from the elapsed time by at most 0.005 seconds,
    and it is not negative when the clock did not run backwards. This
    holds for the desktop handler and for the web handler. *)
Theorem X12_recorded_response_time (st : LearningApp.app_state)
    (si : learning_webapp.session_info) (answer : string) (now : Q)
    (current_emotion : string) :
  (exists row,
     LearningApp.session_data
       (LearningApp.submit_answer st answer now current_emotion)
     = LearningApp.session_data st ++ [row]
     /\ (now - LearningApp.question_start_time st) - (1 # 200)
        <= LearningApp.s_response_time_sec row
     /\ LearningApp.s_response_time_sec row
        <= (now - LearningApp.question_start_time st) + (1 # 200)
     /\ (LearningApp.question_start_time st <= now ->
         0 <= LearningApp.s_response_time_sec row))
  /\ (exists row,
        learning_webapp.si_session_data
          (learning_webapp.submit_answer si answer now current_emotion)
        = learning_webapp.si_session_data si ++ [row]
        /\ (now - learning_webapp.si_question_start_time si) - (1 # 200)
           <= LearningApp.s_response_time_sec row
        /\ LearningApp.s_response_time_sec row
           <= (now - learning_webapp.si_question_start_time si) + (1 # 200)
        /\ (learning_webapp.si_question_start_time si <= now ->
            0 <= LearningApp.s_response_time_sec row)).
Proof.
  assert (Hnonneg : forall x, 0 <= x -> 0 <= Py.round2 x).
  { intros x Hx. assert (R0 : Py.round2 0 == 0) by reflexivity.
    rewrite <- R0. apply round2_mono. exact Hx. }
  split; eexists; (split; [reflexivity|]); simpl.
  - pose proof (round2_error (now - LearningApp.question_start_time st))
      as [H1 H2].
    repeat split; [exact H1|exact H2|].
    intros H. apply Hnonneg. lra.
  - pose proof (round2_error (now - learning_webapp.si_question_start_time si))
      as [H1 H2].
    repeat split; [exact H1|exact H2|].
    intros H. apply Hnonneg. lra.
Qed.

(** X13: the desktop handler and the web handler record the same correct
    flag for the same question and answer, and the same skipped flag,
    except for an answer that is not empty and consists of white space
    only: the desktop handler records it as not skipped, the web handler
    as skipped. *)
Theorem X13_handlers_agree_except_on_blank_answers
    (st : LearningApp.app_state) (si : learning_webapp.session_info)
    (answer : string) (now : Q) (current_emotion : string) :
  LearningApp.current_question st = learning_webapp.si_current_question si ->
  exists row row',
    LearningApp.session_data
      (LearningApp.submit_answer st answer now current_emotion)
    = LearningApp.session_data st ++ [row]
    /\ learning_webapp.si_session_data
         (learning_webapp.submit_answer si answer now current_emotion)
       = learning_webapp.si_session_data si ++ [row']
    /\ LearningApp.s_correct row = LearningApp.s_correct row'
    /\ (LearningApp.s_skipped row = LearningApp.s_skipped row'
        \/ (answer <> ""%string /\ Py.strip answer = ""%string
            /\ LearningApp.s_skipped row = false
            /\ LearningApp.s_skipped row' = true)).
Proof.
  intros Hq. eexists _, _. split; [reflexivity|]. split; [reflexivity|].
  simpl. rewrite Hq. split; [reflexivity|].
  destruct (String.eqb_spec answer "") as [->|Hne].
  - left. reflexivity.
  - destruct (String.eqb_spec (Py.strip answer) "") as [Hs|_].
    + right. rewrite Hs. simpl. split; [exact Hne|]. repeat split; reflexivity.
    + left. rewrite orb_false_r. reflexivity.
Qed.

(** X13 for the question "2 + 2" and an answer of two spaces. *)
Lemma X13_handlers_agree_witness :
  exists row row',
    LearningApp.session_data
      (LearningApp.submit_answer Examples.desktop_state_sum "  " 103 "happy")
    = LearningApp.session_data Examples.desktop_state_sum ++ [row]
    /\ learning_webapp.si_session_data
         (learning_webapp.submit_answer
            (learning_webapp.mk_session_info "7" "visual" 1 0 [] 100
               Examples.sum_question) "  " 103 "happy")
       = [] ++ [row']
    /\ LearningApp.s_correct row = LearningApp.s_correct row'
    /\ (LearningApp.s_skipped row = LearningApp.s_skipped row'
        \/ ("  "%string <> ""%string /\ Py.strip "  " = ""%string
            /\ LearningApp.s_skipped row = false
            /\ LearningApp.s_skipped row' = true)).
Proof.
  apply (X13_handlers_agree_except_on_blank_answers Examples.desktop_state_sum
           (learning_webapp.mk_session_info "7" "visual" 1 0 [] 100
              Examples.sum_question)).
  reflexivity.
Defined.

(** ** The web application: progress through the modes *)

Lemma in_strings_In (s : string) (l : list string) :
  Frustraiton.in_strings s l = true <-> In s l.
Proof.
  unfold Frustraiton.in_strings. rewrite existsb_exists. split.
  - intros [x [Hx E]]. apply String.eqb_eq in E. subst. exact Hx.
  - intros H. exists s. split; [exact H|apply String.eqb_refl].
Qed.

Lemma in_strings_not_In (s : string) (l : list string) :
  Frustraiton.in_strings s l = false <-> ~ In s l.
Proof.
  rewrite <- in_strings_In. destruct (Frustraiton.in_strings s l); split;
    congruence.
Qed.

Lemma mark_completed_spec (cur : string) (completed : list string) :
  In cur (learning_webapp.mark_completed cur completed)
  /\ (forall m, In m (learning_webapp.mark_completed cur completed)
                <-> m = cur \/ In m completed).
Proof.
  unfold learning_webapp.mark_completed.
  destruct (Frustraiton.in_strings cur completed) eqn:E.
  - apply in_strings_In in E. split; [exact E|].
    intros m. split; [tauto|]. intros [->|H]; assumption.
  - split.
    + apply in_or_app. right. left. reflexivity.
    + intros m. rewrite in_app_iff. simpl. intuition congruence.
Qed.

Lemma three_in_short_list (a b c : string) (l : list string) :
  (length l < 3)%nat -> In a l -> In b l -> In c l ->
  a <> b -> b <> c -> a <> c -> False.
Proof.
  intros Hlen Ha Hb Hc Hab Hbc Hac.
  destruct l as [|x [|y [|z l]]]; simpl in *; try lia;
    intuition congruence.
Qed.

(** X14: when the last question of a mode is answered, the finished mode
    is recorded as completed and nothing recorded is lost; with fewer than
    three modes recorded the session switches to one of the three modes
    that is not recorded as completed, and otherwise the session is
    complete. This needs the finished mode to be one of the three modes. *)
Theorem X14_next_mode_is_not_completed (current_mode_finished : string)
    (completed_modes : list string) :
  In current_mode_finished LearningApp.MODES ->
  exists completed next,
    learning_webapp.finish_mode current_mode_finished completed_modes
    = Py.Returns (completed, next)
    /\ In current_mode_finished completed
    /\ (forall m, In m completed_modes -> In m completed)
    /\ match next with
       | Some next_mode =>
           In next_mode LearningApp.MODES /\ ~ In next_mode completed
           /\ (length completed < 3)%nat
       | None => (3 <= length completed)%nat
       end.
Proof.
  intros Hcur. unfold learning_webapp.finish_mode.
  destruct (mark_completed_spec current_mode_finished completed_modes)
    as [Hin Hspec].
  set (c := learning_webapp.mark_completed current_mode_finished
              completed_modes) in *.
  assert (Hkeep : forall m, In m completed_modes -> In m c).
  { intros m Hm. apply Hspec. right. exact Hm. }
  destruct (Nat.ltb_spec (length c) 3) as [Hlt|Hge].
  2:{ exists c, None. repeat split; assumption. }
  assert (Hstep : forall a b d : string,
    In a c -> In b LearningApp.MODES -> In d LearningApp.MODES ->
    a <> b -> b <> d -> a <> d ->
    LearningApp.get_next_mode b = Py.Returns d ->
    exists nm, learning_webapp.advance_mode 5 c b = Py.Returns nm
               /\ In nm LearningApp.MODES /\ ~ In nm c).
  { intros a b d Ha Hb Hd Hab Hbd Had Hnext.
    cbn [learning_webapp.advance_mode].
    destruct (Frustraiton.in_strings b c) eqn:Eb.
    - apply in_strings_In in Eb. rewrite Hnext. cbn [Py.bind].
      destruct (Frustraiton.in_strings d c) eqn:Ed.
      + apply in_strings_In in Ed. exfalso.
        exact (three_in_short_list a b d c Hlt Ha Eb Ed Hab Hbd Had).
      + apply in_strings_not_In in Ed. exists d. auto.
    - apply in_strings_not_In in Eb. exists b. auto. }
  simpl in Hcur. destruct Hcur as [<-|[<-|[<-|[]]]].
  - destruct (Hstep "visual" "auditory" "kinesthetic")%string
      as [nm [E [H1 H2]]]; try discriminate; try reflexivity;
      [exact Hin|simpl; tauto|simpl; tauto|].
    exists c, (Some nm).
    change (LearningApp.get_next_mode "visual") with (Py.Returns "auditory"%string).
    cbn [Py.bind]. rewrite E. cbn [Py.bind]. repeat split; assumption.
  - destruct (Hstep "auditory" "kinesthetic" "visual")%string
      as [nm [E [H1 H2]]]; try discriminate; try reflexivity;
      [exact Hin|simpl; tauto|simpl; tauto|].
    exists c, (Some nm).
    change (LearningApp.get_next_mode "auditory")
      with (Py.Returns "kinesthetic"%string).
    cbn [Py.bind]. rewrite E. cbn [Py.bind]. repeat split; assumption.
  - destruct (Hstep "kinesthetic" "visual" "auditory")%string
      as [nm [E [H1 H2]]]; try discriminate; try reflexivity;
      [exact Hin|simpl; tauto|simpl; tauto|].
    exists c, (Some nm).
    change (LearningApp.get_next_mode "kinesthetic")
      with (Py.Returns "visual"%string).
    cbn [Py.bind]. rewrite E. cbn [Py.bind]. repeat split; assumption.
Qed.

(** X14 for a session that finishes the auditory mode with the visual mode
    completed before. *)
Lemma X14_next_mode_is_not_completed_witness :
  exists completed next,
    learning_webapp.finish_mode "auditory" ["visual"%string]
    = Py.Returns (completed, next)
    /\ In "auditory"%string completed
    /\ (forall m, In m ["visual"%string] -> In m completed)
    /\ match next with
       | Some next_mode =>
           In next_mode LearningApp.MODES /\ ~ In next_mode completed
           /\ (length completed < 3)%nat
       | None => (3 <= length completed)%nat
       end.
Proof.
  apply (X14_next_mode_is_not_completed "auditory" ["visual"%string]).
  simpl. right. left. reflexivity.
Defined.

(** X15: a session starts in some mode with nothing completed. Whichever
    of the three modes it starts in, finishing the mode it is in three
    times in a row takes it through the three modes, each once, and only
    the third finish completes the session: the modes recorded then are
    the three modes, in the order in which they were played. *)
Theorem X15_session_plays_each_mode_once (start : string) :
  In start LearningApp.MODES ->
  exists second third,
    learning_webapp.finish_mode start []
    = Py.Returns ([start], Some second)
    /\ learning_webapp.finish_mode second [start]
       = Py.Returns ([start; second], Some third)
    /\ learning_webapp.finish_mode third [start; second]
       = Py.Returns ([start; second; third], None)
    /\ List.NoDup [start; second; third]
    /\ (forall m, In m LearningApp.MODES <-> In m [start; second; third]).
Proof.
  intros Hs. simpl in Hs.
  assert (Hnd : forall a b c : string, a <> b -> b <> c -> a <> c ->
                List.NoDup [a; b; c]).
  { intros a b c Hab Hbc Hac. repeat constructor; simpl; intuition congruence. }
  destruct Hs as [<-|[<-|[<-|[]]]].
  - exists "auditory"%string, "kinesthetic"%string.
    repeat split; try reflexivity;
      try (apply Hnd; discriminate); simpl; tauto.
  - exists "kinesthetic"%string, "visual"%string.
    repeat split; try reflexivity;
      try (apply Hnd; discriminate); simpl; tauto.
  - exists "visual"%string, "auditory"%string.
    repeat split; try reflexivity;
      try (apply Hnd; discriminate); simpl; tauto.
Qed.

(** X15 for a session that starts in the visual mode, as the web
    application starts every session. *)
Lemma X15_session_plays_each_mode_once_witness :
  exists second third,
    learning_webapp.finish_mode "visual" []
    = Py.Returns (["visual"%string], Some second)
    /\ learning_webapp.finish_mode second ["visual"%string]
       = Py.Returns (["visual"%string; second], Some third)
    /\ learning_webapp.finish_mode third ["visual"%string; second]
       = Py.Returns (["visual"%string; second; third], None)
    /\ List.NoDup ["visual"%string; second; third]
    /\ (forall m, In m LearningApp.MODES
                  <-> In m ["visual"%string; second; third]).
Proof.
  apply (X15_session_plays_each_mode_once "visual").
  simpl. left. reflexivity.
Defined.

(** ** The web application: the inactivity threshold *)

Lemma fold_left_Qplus_range (l : list Q) (a lo hi : Q) :
  (forall x, In x l -> lo <= x /\ x <= hi) ->
  a + lo * inject_Z (Z.of_nat (length l)) <= fold_left Qplus l a
  /\ fold_left Qplus l a <= a + hi * inject_Z (Z.of_nat (length l)).
Proof.
  revert a. induction l as [|x l IH]; intros a Hl.
  - cbn [fold_left length]. change (inject_Z (Z.of_nat 0)) with 0.
    split; lra.
  - destruct (Hl x (or_introl eq_refl)) as [Hx0 Hx1].
    destruct (IH (a + x) (fun y Hy => Hl y (or_intror Hy))) as [H1 H2].
    change (fold_left Qplus (x :: l) a) with (fold_left Qplus l (a + x)).
    replace (Z.of_nat (length (x :: l))) with (Z.of_nat (length l) + 1)%Z
      by (simpl length; lia).
    rewrite inject_Z_plus. change (inject_Z 1) with 1. split; lra.
Qed.

Lemma mean_in_range (l : list Q) (lo hi : Q) :
  l <> [] -> (forall x, In x l -> lo <= x /\ x <= hi) ->
  lo <= Py.sum l / inject_Z (Z.of_nat (length l))
  /\ Py.sum l / inject_Z (Z.of_nat (length l)) <= hi.
Proof.
  intros Hne Hl. destruct (fold_left_Qplus_range l 0 lo hi Hl) as [H1 H2].
  fold (Py.sum l) in H1, H2.
  assert (Hn : 0 < inject_Z (Z.of_nat (length l))).
  { change 0 with (inject_Z 0). rewrite <- Zlt_Qlt.
    destruct l; [congruence|simpl length; lia]. }
  split.
  - apply Qle_shift_div_l; [exact Hn|lra].
  - apply Qle_shift_div_r; [exact Hn|lra].
Qed.

Lemma times_list_In (val : Q) (test_number : Z)
    (records : list Frustraiton.log_row) :
  In val (learning_webapp.times_list
            (learning_webapp.filtered_rows test_number records))
  <-> exists row, In row records
        /\ Frustraiton.log_test_number row = Some test_number
        /\ Frustraiton.log_response_time_sec row = Some val
        /\ 0 <= val.
Proof.
  unfold learning_webapp.filtered_rows.
  induction records as [|r records IH].
  - simpl. split; [tauto|]. intros [row [[] _]].
  - cbn [List.filter].
    assert (Hskip :
      In val (learning_webapp.times_list
                (List.filter
                   (fun row => match Frustraiton.log_test_number row with
                               | Some tn_val => (tn_val =? test_number)%Z
                               | None => false
                               end) records))
      -> exists row, In row (r :: records)
           /\ Frustraiton.log_test_number row = Some test_number
           /\ Frustraiton.log_response_time_sec row = Some val
           /\ 0 <= val).
    { intros H. apply IH in H. destruct H as [row [H1 H2]].
      exists row. split; [right; exact H1|exact H2]. }
    destruct (Frustraiton.log_test_number r) as [tn|] eqn:Etn.
    + destruct (Z.eqb_spec tn test_number) as [->|Hne].
      * cbn [learning_webapp.times_list].
        destruct (Frustraiton.log_response_time_sec r) as [v|] eqn:Ev.
        -- destruct (Qle_bool 0 v) eqn:Ele.
           ++ split.
              ** intros [<-|H]; [|exact (Hskip H)].
                 exists r. apply Qle_bool_iff in Ele.
                 repeat split; auto. left. reflexivity.
              ** intros [row [[<-|Hin] [H1 [H2 H3]]]].
                 --- left. congruence.
                 --- right. apply IH. exists row. auto.
           ++ split; [exact Hskip|].
              intros [row [[<-|Hin] [H1 [H2 H3]]]].
              ** exfalso. assert (v = val) by congruence. subst v.
                 apply Qle_bool_iff in H3. congruence.
              ** apply IH. exists row. auto.
        -- split; [exact Hskip|].
           intros [row [[<-|Hin] [H1 [H2 H3]]]]; [congruence|].
           apply IH. exists row. auto.
      * split; [exact Hskip|].
        intros [row [[<-|Hin] [H1 [H2 H3]]]]; [congruence|].
        apply IH. exists row. auto.
    + split; [exact Hskip|].
      intros [row [[<-|Hin] [H1 [H2 H3]]]]; [congruence|].
      apply IH. exists row. auto.
Qed.



(** X17: when the log has at least one response time for the test that is
    a number and not negative, and these times all lie between [lo] and
    [hi], the threshold that is computed and stored lies between
    [120 + lo] and [120 + hi]; this is the threshold returned when the
    thresholds file does not hold a value other than an object and the
    write succeeds. Rows of other tests, rows whose test number or time is
    not a number, and negative times do not count. *)
Theorem X17_inactivity_threshold_in_range
    (records : list Frustraiton.log_row)
    (output_file : learning_webapp.thresholds_file)
    (learner_id : string) (test_number : Z) (now : string) (lo hi : Q) :
  (forall raw, output_file <> learning_webapp.JsonOther raw) ->
  (exists row val, In row records
     /\ Frustraiton.log_test_number row = Some test_number
     /\ Frustraiton.log_response_time_sec row = Some val /\ 0 <= val) ->
  (forall row val, In row records ->
     Frustraiton.log_test_number row = Some test_number ->
     Frustraiton.log_response_time_sec row = Some val -> 0 <= val ->
     lo <= val /\ val <= hi) ->
  120 + lo
  <= fst (learning_webapp._compute_and_store_inactivity_threshold
            (learning_webapp.LogRows records) output_file
            learning_webapp.WriteOk learner_id test_number now)
  /\ fst (learning_webapp._compute_and_store_inactivity_threshold
            (learning_webapp.LogRows records) output_file
            learning_webapp.WriteOk learner_id test_number now)
     <= 120 + hi.
Proof.
  intros Hfile [row0 [val0 Hrow0]] Hrange.
  unfold learning_webapp._compute_and_store_inactivity_threshold.
  destruct (learning_webapp.existing_of output_file) as [existing|] eqn:Ex.
  2:{ exfalso. destruct output_file; try discriminate.
      eapply Hfile. reflexivity. }
  cbn [fst].
  set (filtered := learning_webapp.filtered_rows test_number records).
  assert (Hin0 : In val0 (learning_webapp.times_list filtered)).
  { apply times_list_In. exists row0. exact Hrow0. }
  assert (Hall : forall x, In x (learning_webapp.times_list filtered) ->
                           (0 <= x) /\ lo <= x /\ x <= hi).
  { intros x Hx. apply times_list_In in Hx.
    destruct Hx as [row [H1 [H2 [H3 H4]]]].
    split; [exact H4|]. exact (Hrange row x H1 H2 H3 H4). }
  assert (Havg : 0 <= learning_webapp.avg_of filtered
                 /\ lo <= learning_webapp.avg_of filtered
                 /\ learning_webapp.avg_of filtered <= hi).
  { unfold learning_webapp.avg_of.
    destruct filtered as [|f filtered'] eqn:Ef; [destruct Hin0|].
    rewrite <- Ef in *. clear Ef.
    destruct (learning_webapp.times_list filtered) as [|t times] eqn:Et;
      [destruct Hin0|].
    assert (Hne : t :: times <> []) by discriminate.
    destruct (mean_in_range (t :: times) lo hi Hne
                (fun x Hx => proj2 (Hall x Hx))) as [M1 M2].
    assert (Hhi : forall x, In x (t :: times) -> 0 <= x /\ x <= hi).
    { intros x Hx. destruct (Hall x Hx) as [? [? ?]]. auto. }
    destruct (mean_in_range (t :: times) 0 hi Hne Hhi) as [M3 _].
    auto. }
  destruct Havg as [A0 [A1 A2]].
  unfold Py.max. destruct (Py.Qlt_bool 0 (learning_webapp.avg_of filtered)) eqn:E.
  - split; lra.
  - apply Qlt_bool_false in E. split; lra.
Qed.

(** X17 for a log with the times 4 and 6 in test 2, a time 50 in test 1
    and a row of test 2 whose time is not a number, and no thresholds
    file: the threshold lies between 124 and 126. *)
Lemma X17_inactivity_threshold_in_range_witness :
  120 + 4
  <= fst (learning_webapp._compute_and_store_inactivity_threshold
            (learning_webapp.LogRows
               [ Frustraiton.mk_log_row "7" (Some 1%Z) "visual" "2 + 2"
                   (Some 50) "True" "False" "happy";
                 Frustraiton.mk_log_row "7" (Some 2%Z) "visual" "2 + 2"
                   (Some 4) "True" "False" "happy";
                 Frustraiton.mk_log_row "7" (Some 2%Z) "visual" "3 + 3"
                   None "True" "False" "happy";
                 Frustraiton.mk_log_row "7" (Some 2%Z) "visual" "4 + 4"
                   (Some 6) "False" "False" "sad" ])
            learning_webapp.NoFile learning_webapp.WriteOk
            "7" 2 "2024-01-01T10:00:00")
  /\ fst (learning_webapp._compute_and_store_inactivity_threshold
            (learning_webapp.LogRows
               [ Frustraiton.mk_log_row "7" (Some 1%Z) "visual" "2 + 2"
                   (Some 50) "True" "False" "happy";
                 Frustraiton.mk_log_row "7" (Some 2%Z) "visual" "2 + 2"
                   (Some 4) "True" "False" "happy";
                 Frustraiton.mk_log_row "7" (Some 2%Z) "visual" "3 + 3"
                   None "True" "False" "happy";
                 Frustraiton.mk_log_row "7" (Some 2%Z) "visual" "4 + 4"
                   (Some 6) "False" "False" "sad" ])
            learning_webapp.NoFile learning_webapp.WriteOk
            "7" 2 "2024-01-01T10:00:00")
     <= 120 + 6.
Proof.
  apply X17_inactivity_threshold_in_range.
  - intros raw. discriminate.
  - eexists _, 4. split; [right; left; reflexivity|].
    repeat split; try reflexivity. discriminate.
  - intros row val [<-|[<-|[<-|[<-|[]]]]] Ht Hv H0; simpl in Ht, Hv;
      try discriminate; injection Hv as <-; split; discriminate.
Defined.

(** ** The preferred modes the addition application persists *)

Lemma load_rows_raises (rows : list run_addition_app.pm_row)
    (acc : list (Z * string)) :
  Exists (fun row => run_addition_app.pm_learner_id row = None
                     \/ run_addition_app.pm_preferred_mode row = None) rows ->
  run_addition_app.load_rows rows acc = Py.Raises.
Proof.
  intros H. revert acc. induction H as [row rows Hrow|row rows _ IH];
    intros acc; simpl.
  - destruct Hrow as [Hrow|Hrow]; rewrite Hrow; [reflexivity|].
    destruct (run_addition_app.pm_learner_id row); reflexivity.
  - destruct (run_addition_app.pm_learner_id row); [|reflexivity].
    destruct (run_addition_app.pm_preferred_mode row); [apply IH|reflexivity].
Qed.

Lemma find_none_iff {A : Type} (f : A -> bool) (l : list A) :
  List.find f l = None <-> (forall x, In x l -> f x = false).
Proof.
  induction l as [|a l IH]; simpl.
  - split; [intros _ x []|reflexivity].
  - destruct (f a) eqn:E.
    + split; [discriminate|]. intros H. rewrite (H a) in E; [discriminate|].
      left. reflexivity.
    + rewrite IH. split.
      * intros H x [<-|Hx]; auto.
      * intros H x Hx. apply H. right. exact Hx.
Qed.

Lemma last_row_of_split (l : Z) (pre post : list run_addition_app.pm_row)
    (row : run_addition_app.pm_row) :
  run_addition_app.pm_learner_id row = Some l ->
  (forall r, In r post -> run_addition_app.pm_learner_id r <> Some l) ->
  run_addition_app.last_row_of l (pre ++ row :: post) = Some row.
Proof.
  intros Hrow Hpost. unfold run_addition_app.last_row_of.
  rewrite rev_app_distr. cbn [rev]. rewrite <- app_assoc. cbn [app].
  assert (Hnone : List.find
            (fun row0 => bool_decide
               (run_addition_app.pm_learner_id row0 = Some l)) (rev post)
          = None).
  { apply find_none_iff. intros x Hx. apply in_rev in Hx.
    apply bool_decide_eq_false. apply Hpost. exact Hx. }
  revert Hnone. generalize (rev post) as q. intros q.
  induction q as [|a q IH]; cbn [app List.find].
  - intros _. rewrite bool_decide_eq_true_2; [reflexivity|exact Hrow].
  - destruct (bool_decide _); [discriminate|]. exact IH.
Qed.

Lemma last_row_of_none (l : Z) (rows : list run_addition_app.pm_row) :
  (forall r, In r rows -> run_addition_app.pm_learner_id r <> Some l) ->
  run_addition_app.last_row_of l rows = None.
Proof.
  intros H. unfold run_addition_app.last_row_of. apply find_none_iff.
  intros x Hx. apply in_rev in Hx. apply bool_decide_eq_false. apply H.
  exact Hx.
Qed.

Lemma normalize_mode_idempotent (cell : string) :
  run_addition_app.normalize_mode (run_addition_app.normalize_mode cell)
  = run_addition_app.normalize_mode cell.
Proof.
  unfold run_addition_app.normalize_mode.
  destruct (String.eqb_spec (Py.lower (Py.strip cell)) "interactive")
    as [E|E].
  - reflexivity.
  - rewrite strip_lower, strip_strip, lower_lower.
    destruct (String.eqb_spec (Py.lower (Py.strip cell)) "interactive");
      [contradiction|reflexivity].
Qed.

Lemma loaded_modes_normalized (csv : option (list run_addition_app.pm_row))
    (k : Z) (v : string) :
  Py.dict_get k (run_addition_app.load_preferred_modes csv) = Some v ->
  run_addition_app.normalize_mode v = v.
Proof.
  unfold run_addition_app.load_preferred_modes.
  destruct csv as [rows|]; [|discriminate].
  destruct (run_addition_app.load_rows rows []) as [d|] eqn:E;
    [|discriminate].
  rewrite (load_rows_last k rows [] d E).
  destruct (run_addition_app.last_row_of k rows) as [row|]; [|discriminate].
  destruct (run_addition_app.pm_preferred_mode row); [|discriminate].
  intros H. injection H as <-. apply normalize_mode_idempotent.
Qed.

Lemma NoDup_map_Some {A : Type} (l : list A) :
  List.NoDup l -> List.NoDup (map Some l).
Proof.
  induction 1 as [|x l Hx _ IH]; simpl; constructor; [|exact IH].
  intros Hin. apply List.in_map_iff in Hin. destruct Hin as [y [E Hy]].
  injection E as ->. contradiction.
Qed.

(** X18: reading the file of preferred modes is all or nothing. When one
    row has a learner id that is not an integer, or has no cell for the
    mode, no learner has a mode. When every row has an integer id and a
    mode, the mode of a learner is that of the learner's last row (for a
    cell of ASCII characters: with white space stripped, in lower case and
    with interactive read as kinesthetic); a learner without a row has
    none. *)
Theorem X18_load_preferred_modes_last_row_wins
    (rows : list run_addition_app.pm_row) :
  (Exists (fun row => run_addition_app.pm_learner_id row = None
                      \/ run_addition_app.pm_preferred_mode row = None) rows ->
   run_addition_app.load_preferred_modes (Some rows) = [])
  /\ (Forall (fun row => run_addition_app.pm_learner_id row <> None
                         /\ run_addition_app.pm_preferred_mode row <> None)
             rows ->
      forall l : Z,
        (forall pre row post cell,
           rows = pre ++ row :: post ->
           run_addition_app.pm_learner_id row = Some l ->
           run_addition_app.pm_preferred_mode row = Some cell ->
           Py.is_ascii cell = true ->
           (forall r, In r post -> run_addition_app.pm_learner_id r <> Some l) ->
           Py.dict_get l (run_addition_app.load_preferred_modes (Some rows))
           = Some (run_addition_app.normalize_mode cell))
        /\ ((forall r, In r rows -> run_addition_app.pm_learner_id r <> Some l) ->
            Py.dict_get l (run_addition_app.load_preferred_modes (Some rows))
            = None)).
Proof.
  split.
  - intros H. unfold run_addition_app.load_preferred_modes.
    rewrite (load_rows_raises rows [] H). reflexivity.
  - intros Hall l. unfold run_addition_app.load_preferred_modes.
    destruct (load_rows_returns rows [] Hall) as [d Hd]. rewrite Hd.
    rewrite (load_rows_last l rows [] d Hd). split.
    + intros pre row post cell -> Hrow Hcell _ Hpost.
      rewrite (last_row_of_split l pre post row Hrow Hpost), Hcell.
      reflexivity.
    + intros Hnone. rewrite (last_row_of_none l rows Hnone). reflexivity.
Qed.

(** X18 for a file with two rows of learner 8: the last one counts. *)
Lemma X18_load_preferred_modes_witness :
  Py.dict_get 8
    (run_addition_app.load_preferred_modes
       (Some [ run_addition_app.mk_pm_row (Some 8%Z) (Some "Visual"%string);
               run_addition_app.mk_pm_row (Some 7%Z) (Some "visual"%string);
               run_addition_app.mk_pm_row (Some 8%Z)
                 (Some " Interactive "%string) ]))
  = Some (run_addition_app.normalize_mode " Interactive ").
Proof.
  destruct (X18_load_preferred_modes_last_row_wins
              [ run_addition_app.mk_pm_row (Some 8%Z) (Some "Visual"%string);
                run_addition_app.mk_pm_row (Some 7%Z) (Some "visual"%string);
                run_addition_app.mk_pm_row (Some 8%Z)
                  (Some " Interactive "%string) ])
    as [_ H].
  assert (Hall : Forall
            (fun row => run_addition_app.pm_learner_id row <> None
                        /\ run_addition_app.pm_preferred_mode row <> None)
            [ run_addition_app.mk_pm_row (Some 8%Z) (Some "Visual"%string);
              run_addition_app.mk_pm_row (Some 7%Z) (Some "visual"%string);
              run_addition_app.mk_pm_row (Some 8%Z)
                (Some " Interactive "%string) ])
    by (repeat constructor; discriminate).
  destruct (H Hall 8%Z) as [H1 _].
  apply (H1 [ run_addition_app.mk_pm_row (Some 8%Z) (Some "Visual"%string);
              run_addition_app.mk_pm_row (Some 7%Z) (Some "visual"%string) ]
            (run_addition_app.mk_pm_row (Some 8%Z)
               (Some " Interactive "%string)) [] " Interactive "%string).
  - reflexivity.
  - reflexivity.
  - reflexivity.
  - reflexivity.
  - intros r [].
Defined.

(** X19: a check that fires changes the persisted mode of no other
    learner, as the application reads it, and leaves a file with one row
    per learner, each with an integer id and a mode. *)
Theorem X19_firing_check_keeps_other_learners
    (st st' : run_addition_app.state) (l : Z) (t_default t_now : Q)
    (write : run_addition_app.write_outcome)
    (c : run_addition_app.changed) :
  run_addition_app._check_inactivity_and_launch st l t_default t_now write
  = (st', Some c) ->
  (forall other, other <> l ->
     Py.dict_get other
       (run_addition_app.load_preferred_modes
          (run_addition_app.preferred_modes_csv st'))
     = Py.dict_get other
         (run_addition_app.load_preferred_modes
            (run_addition_app.preferred_modes_csv st)))
  /\ exists rows,
       run_addition_app.preferred_modes_csv st' = Some rows
       /\ List.NoDup (map run_addition_app.pm_learner_id rows)
       /\ Forall (fun row => run_addition_app.pm_learner_id row <> None
                             /\ run_addition_app.pm_preferred_mode row <> None)
                 rows.
Proof.
  unfold run_addition_app._check_inactivity_and_launch.
  destruct (Qle_bool _ 0); [|discriminate].
  case_bool_decide; [discriminate|].
  destruct write as [|after]; [|discriminate].
  intros Hres. injection Hres as <- _.
  cbn [run_addition_app.preferred_modes_csv].
  set (d := run_addition_app.load_preferred_modes
              (run_addition_app.preferred_modes_csv st)).
  set (d1 := Py.dict_set l _ d).
  assert (Hd : List.NoDup (map fst d)) by apply load_NoDup.
  assert (Hd1 : List.NoDup (map fst d1)) by (apply dict_set_NoDup; exact Hd).
  split.
  - intros other Hne.
    destruct (load_rows_written d1 [] other Hd1) as [d' [Hload Hget]].
    unfold run_addition_app.load_preferred_modes at 1. rewrite Hload, Hget.
    unfold d1. rewrite dict_get_set_ne by congruence.
    destruct (Py.dict_get other d) as [v|] eqn:Ev; [|reflexivity].
    rewrite (loaded_modes_normalized _ other v Ev). reflexivity.
  - exists (map run_addition_app.written_row d1).
    split; [reflexivity|]. split.
    + rewrite map_map. cbn [run_addition_app.written_row
                             run_addition_app.pm_learner_id].
      rewrite <- (map_map fst Some).
      apply NoDup_map_Some. exact Hd1.
    + apply List.Forall_forall. intros row Hrow.
      apply List.in_map_iff in Hrow. destruct Hrow as [item [<- _]].
      split; discriminate.
Qed.

(** X19 for a file with a row of learner 7 and two rows of learner 8: the
    check of learner 7 fires after 125 idle seconds. *)
Lemma X19_firing_check_witness :
  (forall other, other <> 7%Z ->
     Py.dict_get other
       (run_addition_app.load_preferred_modes
          (run_addition_app.preferred_modes_csv
             (fst (run_addition_app._check_inactivity_and_launch
                     Examples.shared_file_state 7 1125 1125
                     run_addition_app.Written))))
     = Py.dict_get other
         (run_addition_app.load_preferred_modes
            (run_addition_app.preferred_modes_csv
               Examples.shared_file_state)))
  /\ exists rows,
       run_addition_app.preferred_modes_csv
         (fst (run_addition_app._check_inactivity_and_launch
                 Examples.shared_file_state 7 1125 1125
                 run_addition_app.Written))
       = Some rows
       /\ List.NoDup (map run_addition_app.pm_learner_id rows)
       /\ Forall (fun row => run_addition_app.pm_learner_id row <> None
                             /\ run_addition_app.pm_preferred_mode row <> None)
                 rows.
Proof.
  apply (X19_firing_check_keeps_other_learners Examples.shared_file_state
           _ 7 1125 1125 run_addition_app.Written
           (run_addition_app.mk_changed 7 "visual" "kinesthetic")).
  vm_compute. reflexivity.
Defined.

(** X20: when the file of preferred modes is missing, or has a row whose
    learner id is not an integer or that has no cell for the mode, a check
    that fires replaces the file by a single row, the mode kinesthetic
    for the checked learner: the modes of all other learners in the file
    are lost. *)
Theorem X20_firing_check_on_unreadable_file
    (st st' : run_addition_app.state) (l : Z) (t_default t_now : Q)
    (write : run_addition_app.write_outcome)
    (c : run_addition_app.changed) :
  match run_addition_app.preferred_modes_csv st with
  | None => True
  | Some rows =>
      Exists (fun row => run_addition_app.pm_learner_id row = None
                         \/ run_addition_app.pm_preferred_mode row = None) rows
  end ->
  run_addition_app._check_inactivity_and_launch st l t_default t_now write
  = (st', Some c) ->
  run_addition_app.preferred_modes_csv st'
  = Some [ run_addition_app.mk_pm_row (Some l) (Some "kinesthetic"%string) ]
  /\ c = run_addition_app.mk_changed l "visual" "kinesthetic".
Proof.
  intros Hfile.
  assert (Hload : run_addition_app.load_preferred_modes
                    (run_addition_app.preferred_modes_csv st) = []).
  { destruct (run_addition_app.preferred_modes_csv st) as [rows|];
      [|reflexivity].
    unfold run_addition_app.load_preferred_modes.
    rewrite (load_rows_raises rows [] Hfile). reflexivity. }
  unfold run_addition_app._check_inactivity_and_launch,
    run_addition_app.current_mode_of.
  destruct (Qle_bool _ 0); [|discriminate].
  case_bool_decide; [discriminate|].
  destruct write as [|after]; [|discriminate].
  rewrite Hload. intros Hres. injection Hres as <- <-.
  split; reflexivity.
Qed.

(** X20 for a file whose second row has the learner id "x". *)
Lemma X20_firing_check_on_unreadable_file_witness :
  run_addition_app.preferred_modes_csv
    (fst (run_addition_app._check_inactivity_and_launch
            Examples.malformed_file_state 7 1125 1125
            run_addition_app.Written))
  = Some [ run_addition_app.mk_pm_row (Some 7%Z) (Some "kinesthetic"%string) ]
  /\ run_addition_app.mk_changed 7 "visual" "kinesthetic"
     = run_addition_app.mk_changed 7 "visual" "kinesthetic".
Proof.
  apply (X20_firing_check_on_unreadable_file Examples.malformed_file_state
           _ 7 1125 1125 run_addition_app.Written).
  - simpl. right. left. left. reflexivity.
  - vm_compute. reflexivity.
Defined.

(** ** The analyzer of preferred modes *)

Lemma get_update_eq {V : Type} (k : string) (f : option V -> V)
    (d : list (string * V)) :
  preferred_mode_analyzer.get k (preferred_mode_analyzer.update k f d)
  = Some (f (preferred_mode_analyzer.get k d)).
Proof.
  induction d as [|[k' v] d IH]; simpl.
  - rewrite String.eqb_refl. reflexivity.
  - destruct (String.eqb_spec k' k) as [->|Hne]; simpl.
    + rewrite String.eqb_refl. reflexivity.
    + destruct (String.eqb_spec k' k); [contradiction|exact IH].
Qed.

Lemma get_update_ne {V : Type} (k k' : string) (f : option V -> V)
    (d : list (string * V)) :
  k <> k' ->
  preferred_mode_analyzer.get k' (preferred_mode_analyzer.update k f d)
  = preferred_mode_analyzer.get k' d.
Proof.
  intros Hne. induction d as [|[k0 v] d IH]; simpl.
  - destruct (String.eqb_spec k k'); [contradiction|reflexivity].
  - destruct (String.eqb_spec k0 k) as [->|Hne0]; simpl.
    + destruct (String.eqb_spec k k'); [contradiction|reflexivity].
    + rewrite IH. reflexivity.
Qed.

Lemma analyze_fold_scores (l m : string) (rows : list Frustraiton.report_row)
    (acc : list (string * list (string * list Q))) :
  default [] (preferred_mode_analyzer.get m
    (default [] (preferred_mode_analyzer.get l
       (fold_left preferred_mode_analyzer.analyze_row rows acc))))
  = default [] (preferred_mode_analyzer.get m
      (default [] (preferred_mode_analyzer.get l acc)))
    ++ preferred_mode_analyzer.scores_of l m rows.
Proof.
  revert acc. induction rows as [|row rows IH]; intros acc.
  - simpl. rewrite app_nil_r. reflexivity.
  - cbn [fold_left preferred_mode_analyzer.scores_of]. rewrite IH.
    unfold preferred_mode_analyzer.analyze_row. cbn zeta.
    destruct (Frustraiton.rep_frustration_score row) as [s|].
    2:{ destruct (_ && _); reflexivity. }
    destruct (String.eqb_spec (Frustraiton.rep_learner_id row) l) as [->|Hl].
    + rewrite get_update_eq. cbn [default from_option id andb].
      destruct (String.eqb_spec
                  (preferred_mode_analyzer._normalize_mode_name
                     (Frustraiton.rep_mode row)) m) as [->|Hm].
      * rewrite get_update_eq. cbn [default from_option id]. rewrite <- app_assoc.
        reflexivity.
      * rewrite get_update_ne by exact Hm. reflexivity.
    + rewrite get_update_ne by exact Hl. reflexivity.
Qed.

Lemma analyze_fold_nonempty (rows : list Frustraiton.report_row)
    (acc : list (string * list (string * list Q))) :
  (forall l ms m sc, preferred_mode_analyzer.get l acc = Some ms ->
     preferred_mode_analyzer.get m ms = Some sc -> sc <> []) ->
  forall l ms m sc,
    preferred_mode_analyzer.get l
      (fold_left preferred_mode_analyzer.analyze_row rows acc) = Some ms ->
    preferred_mode_analyzer.get m ms = Some sc -> sc <> [].
Proof.
  revert acc. induction rows as [|row rows IH]; intros acc Hacc; [exact Hacc|].
  cbn [fold_left]. apply IH. clear IH.
  unfold preferred_mode_analyzer.analyze_row. cbn zeta.
  destruct (Frustraiton.rep_frustration_score row) as [s|]; [|exact Hacc].
  intros l ms m sc.
  destruct (String.eqb_spec (Frustraiton.rep_learner_id row) l) as [->|Hl].
  - rewrite get_update_eq. intros E. injection E as <-.
    destruct (String.eqb_spec
                (preferred_mode_analyzer._normalize_mode_name
                   (Frustraiton.rep_mode row)) m) as [->|Hm].
    + rewrite get_update_eq. intros E. injection E as <-.
      destruct (default [] _); discriminate.
    + rewrite get_update_ne by exact Hm.
      destruct (preferred_mode_analyzer.get l acc) as [ms0|] eqn:E0.
      * cbn [default from_option id]. apply (Hacc l ms0 m sc E0).
      * cbn [default from_option id]. discriminate.
  - rewrite get_update_ne by exact Hl. apply Hacc.
Qed.

(** X21: the analyzer groups the scores of a report by learner and by
    normalized mode name: the scores listed for a learner and a mode are
    those of the learner's rows with that mode name, in the order of the
    file, without the rows whose score is not a number. No mode is listed
    with an empty list of scores. A missing file, or one without a column
    'mode', gives nothing. *)
Theorem X21_analyzer_groups_scores (rows : list Frustraiton.report_row)
    (learner_id mode : string) :
  default [] (preferred_mode_analyzer.get mode
    (default [] (preferred_mode_analyzer.get learner_id
       (preferred_mode_analyzer.analyze_frustration_by_mode true (Some rows)))))
  = preferred_mode_analyzer.scores_of learner_id mode rows
  /\ (forall mode_scores,
        preferred_mode_analyzer.get learner_id
          (preferred_mode_analyzer.analyze_frustration_by_mode true (Some rows))
        = Some mode_scores ->
        preferred_mode_analyzer.get mode mode_scores <> Some [])
  /\ preferred_mode_analyzer.analyze_frustration_by_mode false (Some rows) = []
  /\ (forall mode_column,
        preferred_mode_analyzer.analyze_frustration_by_mode mode_column None
        = []).
Proof.
  unfold preferred_mode_analyzer.analyze_frustration_by_mode.
  split; [|split; [|split; reflexivity]].
  - rewrite analyze_fold_scores. reflexivity.
  - intros ms Hms E.
    assert (Hempty : forall l ms0 m (sc : list Q),
              preferred_mode_analyzer.get l
                (@nil (string * list (string * list Q))) = Some ms0 ->
              preferred_mode_analyzer.get m ms0 = Some sc -> sc <> [])
      by (intros; discriminate).
    exact (analyze_fold_nonempty rows [] Hempty learner_id ms mode [] Hms E
             eq_refl).
Qed.

Lemma min_by_value_spec (items : list (string * Q)) (best : string * Q) :
  exists pre post,
    best :: items
    = pre ++ preferred_mode_analyzer.min_by_value best items :: post
    /\ (forall kv, In kv pre ->
          snd (preferred_mode_analyzer.min_by_value best items) < snd kv)
    /\ (forall kv, In kv post ->
          snd (preferred_mode_analyzer.min_by_value best items) <= snd kv).
Proof.
  revert best. induction items as [|item rest IH]; intros best.
  - exists [], []. simpl. repeat split; intros kv [].
  - cbn [preferred_mode_analyzer.min_by_value].
    destruct (Py.Qlt_bool (snd item) (snd best)) eqn:E.
    + apply Qlt_bool_true in E.
      destruct (IH item) as [pre [post [Hsplit [Hpre Hpost]]]].
      set (r := preferred_mode_analyzer.min_by_value item rest) in *.
      assert (Hitem : snd r <= snd item).
      { assert (Hin : In item (pre ++ r :: post)).
        { rewrite <- Hsplit. left. reflexivity. }
        apply in_app_or in Hin. destruct Hin as [Hin|[E1|Hin]].
        - apply Qlt_le_weak. apply Hpre. exact Hin.
        - rewrite E1. apply Qle_refl.
        - apply Hpost. exact Hin. }
      exists (best :: pre), post. rewrite Hsplit. split; [reflexivity|].
      split; [|exact Hpost].
      intros kv [<-|Hin]; [lra|apply Hpre; exact Hin].
    + apply Qlt_bool_false in E.
      destruct (IH best) as [pre [post [Hsplit [Hpre Hpost]]]].
      set (r := preferred_mode_analyzer.min_by_value best rest) in *.
      destruct pre as [|b pre'].
      * simpl in Hsplit. injection Hsplit as Hb Hrest.
        exists [], (item :: rest). rewrite <- Hb. split; [reflexivity|].
        split; [intros kv []|].
        intros kv [<-|Hin]; [exact E|].
        rewrite Hb. apply Hpost. rewrite <- Hrest. exact Hin.
      * simpl in Hsplit. injection Hsplit as Hb Hrest. subst b.
        exists (best :: item :: pre'), post. rewrite Hrest.
        split; [reflexivity|]. split; [|exact Hpost].
        assert (Hbest : snd r < snd best) by (apply Hpre; left; reflexivity).
        intros kv [<-|[<-|Hin]]; [exact Hbest|lra|].
        apply Hpre. right. exact Hin.
Qed.

Lemma find_preferred_fold (mean : list Q -> Q)
    (P : string -> preferred_mode_analyzer.preferred -> Prop)
    (all items : list (string * list (string * list Q)))
    (acc : list (string * preferred_mode_analyzer.preferred)) :
  (forall l ms first rest,
     In (l, ms) all ->
     preferred_mode_analyzer.mode_averages_of mean ms = first :: rest ->
     P l {| preferred_mode_analyzer.preferred_mode :=
              fst (preferred_mode_analyzer.min_by_value first rest);
            preferred_mode_analyzer.avg_frustration :=
              snd (preferred_mode_analyzer.min_by_value first rest);
            preferred_mode_analyzer.mode_scores := first :: rest |}) ->
  (forall item, In item items -> In item all) ->
  (forall l p, preferred_mode_analyzer.get l acc = Some p -> P l p) ->
  forall l p,
    preferred_mode_analyzer.get l
      (fold_left
         (fun preferred_modes item =>
            match preferred_mode_analyzer.mode_averages_of mean (snd item) with
            | [] => preferred_modes
            | first :: rest =>
                let best := preferred_mode_analyzer.min_by_value first rest in
                preferred_mode_analyzer.update (fst item)
                  (fun _ =>
                     {| preferred_mode_analyzer.preferred_mode := fst best;
                        preferred_mode_analyzer.avg_frustration := snd best;
                        preferred_mode_analyzer.mode_scores := first :: rest |})
                  preferred_modes
            end) items acc) = Some p ->
    P l p.
Proof.
  intros HP. revert acc. induction items as [|[k ms] items IH];
    intros acc Hincl Hacc; [exact Hacc|].
  cbn [fold_left]. apply IH.
  - intros item Hin. apply Hincl. right. exact Hin.
  - cbn [fst snd].
    destruct (preferred_mode_analyzer.mode_averages_of mean ms)
      as [|first rest] eqn:Eavg; [exact Hacc|].
    cbn zeta. intros l p.
    destruct (String.eqb_spec k l) as [->|Hne].
    + rewrite get_update_eq. intros E. injection E as <-.
      apply (HP l ms first rest); [|exact Eavg].
      apply Hincl. left. reflexivity.
    + rewrite get_update_ne by exact Hne. apply Hacc.
Qed.

Lemma In_update {V : Type} (k k0 : string) (v : V) (f : option V -> V)
    (d : list (string * V)) :
  In (k, v) (preferred_mode_analyzer.update k0 f d) ->
  In (k, v) d \/ (k = k0 /\ exists o, v = f o).
Proof.
  induction d as [|[k' v'] d IH]; simpl.
  - intros [E|[]]. injection E as <- <-. right. eauto.
  - destruct (String.eqb_spec k' k0) as [->|Hne]; simpl.
    + intros [E|H]; [|left; right; exact H].
      injection E as <- <-. right. eauto.
    + intros [E|H]; [left; left; exact E|].
      destruct (IH H) as [H1|H1]; [left; right; exact H1|right; exact H1].
Qed.

Lemma mode_averages_In (mean : list Q -> Q)
    (all items : list (string * list Q)) (acc : list (string * Q)) :
  (forall item, In item items -> In item all) ->
  (forall m a, In (m, a) acc ->
     exists scores, In (m, scores) all /\ scores <> [] /\ a = mean scores) ->
  forall m a,
    In (m, a)
       (fold_left
          (fun mode_averages item =>
             match snd item with
             | [] => mode_averages
             | scores =>
                 preferred_mode_analyzer.update (fst item)
                   (fun _ => mean scores) mode_averages
             end) items acc) ->
    exists scores, In (m, scores) all /\ scores <> [] /\ a = mean scores.
Proof.
  revert acc. induction items as [|[k sc] items IH]; intros acc Hincl Hacc;
    [exact Hacc|].
  cbn [fold_left fst snd]. apply IH.
  - intros item Hin. apply Hincl. right. exact Hin.
  - destruct sc as [|x sc]; [exact Hacc|].
    intros m a Hin. apply In_update in Hin.
    destruct Hin as [Hin|[-> [_ ->]]]; [apply Hacc; exact Hin|].
    exists (x :: sc). split; [apply Hincl; left; reflexivity|].
    split; [discriminate|reflexivity].
Qed.

(** X22: the mode the analyzer prefers for a learner has the lowest of the
    averages computed for the modes of the learner that have scores: the
    modes listed before it have a higher average, the modes listed after
    it an average that is not lower, so the first of several lowest modes
    is preferred. Every average listed is the computed average of the
    scores of that mode in one entry of the learner in the scores
    analyzed. This holds however the averages are rounded. *)
Theorem X22_preferred_mode_has_lowest_average (mean : list Q -> Q)
    (learner_mode_scores : list (string * list (string * list Q)))
    (learner_id : string) (p : preferred_mode_analyzer.preferred) :
  preferred_mode_analyzer.get learner_id
    (preferred_mode_analyzer.find_preferred_modes mean learner_mode_scores)
  = Some p ->
  (exists mode_scores,
     In (learner_id, mode_scores) learner_mode_scores
     /\ preferred_mode_analyzer.mode_scores p
        = preferred_mode_analyzer.mode_averages_of mean mode_scores
     /\ forall mode average,
          In (mode, average) (preferred_mode_analyzer.mode_scores p) ->
          exists scores,
            In (mode, scores) mode_scores /\ scores <> []
            /\ average = mean scores)
  /\ exists pre post,
       preferred_mode_analyzer.mode_scores p
       = pre ++ (preferred_mode_analyzer.preferred_mode p,
                 preferred_mode_analyzer.avg_frustration p) :: post
       /\ (forall kv, In kv pre ->
             preferred_mode_analyzer.avg_frustration p < snd kv)
       /\ (forall kv, In kv post ->
             preferred_mode_analyzer.avg_frustration p <= snd kv).
Proof.
  unfold preferred_mode_analyzer.find_preferred_modes.
  apply (find_preferred_fold mean
           (fun l p =>
              (exists mode_scores,
                 In (l, mode_scores) learner_mode_scores
                 /\ preferred_mode_analyzer.mode_scores p
                    = preferred_mode_analyzer.mode_averages_of mean mode_scores
                 /\ forall mode average,
                      In (mode, average)
                         (preferred_mode_analyzer.mode_scores p) ->
                      exists scores,
                        In (mode, scores) mode_scores /\ scores <> []
                        /\ average = mean scores)
              /\ exists pre post,
                   preferred_mode_analyzer.mode_scores p
                   = pre ++ (preferred_mode_analyzer.preferred_mode p,
                             preferred_mode_analyzer.avg_frustration p) :: post
                   /\ (forall kv, In kv pre ->
                         preferred_mode_analyzer.avg_frustration p < snd kv)
                   /\ (forall kv, In kv post ->
                         preferred_mode_analyzer.avg_frustration p <= snd kv))
           learner_mode_scores learner_mode_scores []).
  - intros l ms first rest Hin Eavg. split.
    + exists ms. split; [exact Hin|].
      cbn [preferred_mode_analyzer.mode_scores].
      split; [symmetry; exact Eavg|]. rewrite <- Eavg.
      unfold preferred_mode_analyzer.mode_averages_of.
      apply mode_averages_In; [auto|]. intros m a [].
    + cbn [preferred_mode_analyzer.mode_scores
           preferred_mode_analyzer.preferred_mode
           preferred_mode_analyzer.avg_frustration].
      rewrite <- surjective_pairing. apply min_by_value_spec.
  - auto.
  - intros l p0 E. discriminate.
Qed.

(** X22 with averages that binary floating point computes exactly: for a
    learner with the average 0.625 in the visual mode and 0.25 in the
    auditory and in the kinesthetic mode, auditory is preferred. *)
Lemma X22_preferred_mode_witness :
  (exists mode_scores,
     In ("7"%string, mode_scores)
        [ ("7"%string, [ ("visual"%string, [0.5; 0.75]);
                         ("auditory"%string, [0.25]);
                         ("kinesthetic"%string, [0.125; 0.375]) ]) ]
     /\ [ ("visual"%string, preferred_mode_analyzer.exact_mean [0.5; 0.75]);
          ("auditory"%string, preferred_mode_analyzer.exact_mean [0.25]);
          ("kinesthetic"%string,
           preferred_mode_analyzer.exact_mean [0.125; 0.375]) ]
        = preferred_mode_analyzer.mode_averages_of
            preferred_mode_analyzer.exact_mean mode_scores
     /\ forall mode average,
          In (mode, average)
             [ ("visual"%string,
                preferred_mode_analyzer.exact_mean [0.5; 0.75]);
               ("auditory"%string, preferred_mode_analyzer.exact_mean [0.25]);
               ("kinesthetic"%string,
                preferred_mode_analyzer.exact_mean [0.125; 0.375]) ] ->
          exists scores,
            In (mode, scores) mode_scores /\ scores <> []
            /\ average = preferred_mode_analyzer.exact_mean scores)
  /\ exists pre post,
       [ ("visual"%string, preferred_mode_analyzer.exact_mean [0.5; 0.75]);
         ("auditory"%string, preferred_mode_analyzer.exact_mean [0.25]);
         ("kinesthetic"%string,
          preferred_mode_analyzer.exact_mean [0.125; 0.375]) ]
       = pre ++ ("auditory"%string,
                 preferred_mode_analyzer.exact_mean [0.25]) :: post
       /\ (forall kv, In kv pre ->
             preferred_mode_analyzer.exact_mean [0.25] < snd kv)
       /\ (forall kv, In kv post ->
             preferred_mode_analyzer.exact_mean [0.25] <= snd kv).
Proof.
  apply (X22_preferred_mode_has_lowest_average
           preferred_mode_analyzer.exact_mean
           [ ("7"%string, [ ("visual"%string, [0.5; 0.75]);
                            ("auditory"%string, [0.25]);
                            ("kinesthetic"%string, [0.125; 0.375]) ]) ]
           "7"
           (preferred_mode_analyzer.mk_preferred "auditory"
              (preferred_mode_analyzer.exact_mean [0.25])
              [ ("visual"%string,
                 preferred_mode_analyzer.exact_mean [0.5; 0.75]);
                ("auditory"%string, preferred_mode_analyzer.exact_mean [0.25]);
                ("kinesthetic"%string,
                 preferred_mode_analyzer.exact_mean [0.125; 0.375]) ])).
  vm_compute. reflexivity.
Defined.

(** X23: the mode names the analyzer computes are stable: normalizing a
    normalized name changes nothing, and the addition application, which
    normalizes the names it reads from the file of preferred modes in its
    own way, reads a name the analyzer computed as it is. *)
Theorem X23_normalized_mode_names_are_stable (raw_mode : string) :
  preferred_mode_analyzer._normalize_mode_name
    (preferred_mode_analyzer._normalize_mode_name raw_mode)
  = preferred_mode_analyzer._normalize_mode_name raw_mode
  /\ run_addition_app.normalize_mode
       (preferred_mode_analyzer._normalize_mode_name raw_mode)
     = preferred_mode_analyzer._normalize_mode_name raw_mode.
Proof.
  unfold preferred_mode_analyzer._normalize_mode_name,
    run_addition_app.normalize_mode.
  set (m := Py.lower (Py.strip raw_mode)).
  assert (Hm : Py.lower (Py.strip m) = m).
  { unfold m. rewrite strip_lower, strip_strip, lower_lower. reflexivity. }
  destruct (Frustraiton.in_strings m
              ["interactive"; "kinaesthetic"; "hands-on"; "hands on";
               "kinesthetics"]%string) eqn:E.
  - split; reflexivity.
  - assert (Hres : (if Frustraiton.in_strings m
                         ["visual"; "auditory"; "kinesthetic"]%string
                    then m else m) = m)
      by (destruct (Frustraiton.in_strings m
                      ["visual"; "auditory"; "kinesthetic"]%string);
          reflexivity).
    rewrite Hres, Hm, E, Hres. split; [reflexivity|].
    unfold Frustraiton.in_strings in E. cbn [existsb] in E.
    apply orb_false_elim in E. destruct E as [E _]. rewrite E. reflexivity.
Qed.

(** ** The emotion reported for a question *)

Lemma counter_add_keys (label : string) (counts : list (string * nat)) :
  map fst (Emoitiontracker.counter_add label counts)
  = if Frustraiton.in_strings label (map fst counts) then map fst counts
    else map fst counts ++ [label].
Proof.
  unfold Frustraiton.in_strings.
  induction counts as [|[k n] counts IH]; simpl; [reflexivity|].
  rewrite (String.eqb_sym label k).
  destruct (String.eqb k label); simpl; [reflexivity|].
  rewrite IH. destruct (existsb _ _); reflexivity.
Qed.

Lemma NoDup_snoc {A : Type} (l : list A) (a : A) :
  List.NoDup l -> ~ In a l -> List.NoDup (l ++ [a]).
Proof.
  induction 1 as [|x l Hx Hl IH]; intros Ha; simpl.
  - constructor; [intros []|constructor].
  - constructor.
    + rewrite in_app_iff. simpl. intros [H|[H|[]]]; [contradiction|].
      apply Ha. left. symmetry. exact H.
    + apply IH. intros H. apply Ha. right. exact H.
Qed.

Lemma counter_add_In (a k : string) (n : nat) (c : list (string * nat)) :
  List.NoDup (map fst c) ->
  In (k, n) (Emoitiontracker.counter_add a c) ->
  (k <> a /\ In (k, n) c)
  \/ (k = a /\ ((exists m, In (a, m) c /\ n = S m)
               \/ (~ In a (map fst c) /\ n = 1%nat))).
Proof.
  induction c as [|[k0 n0] c IH]; intros Hnd Hin.
  - simpl in Hin. destruct Hin as [E|[]]. injection E as <- <-.
    right. split; [reflexivity|]. right. split; [intros []|reflexivity].
  - inversion Hnd as [|? ? Hk0 Hnd']; subst.
    cbn [Emoitiontracker.counter_add] in Hin.
    destruct (String.eqb_spec k0 a) as [->|Hne].
    + destruct Hin as [E|Hin].
      * injection E as <- <-. right. split; [reflexivity|]. left.
        exists n0. split; [left; reflexivity|reflexivity].
      * left. split; [|right; exact Hin].
        intros ->. apply Hk0. apply (in_map fst) in Hin. exact Hin.
    + destruct Hin as [E|Hin].
      * injection E as <- <-. left. split; [exact Hne|left; reflexivity].
      * destruct (IH Hnd' Hin) as [[H1 H2]|[H1 [[m [H2 H3]]|[H2 H3]]]].
        -- left. split; [exact H1|right; exact H2].
        -- right. split; [exact H1|]. left. exists m.
           split; [right; exact H2|exact H3].
        -- right. split; [exact H1|]. right. split; [|exact H3].
           simpl. intros [E|E]; [contradiction|]. apply H2. exact E.
Qed.

Lemma Counter_snoc (l : list string) (a : string) :
  Emoitiontracker.Counter (l ++ [a])
  = Emoitiontracker.counter_add a (Emoitiontracker.Counter l).
Proof. unfold Emoitiontracker.Counter. rewrite fold_left_app. reflexivity. Qed.

Lemma Counter_spec (l : list string) :
  (forall k, In k (map fst (Emoitiontracker.Counter l)) <-> In k l)
  /\ List.NoDup (map fst (Emoitiontracker.Counter l))
  /\ (forall k n, In (k, n) (Emoitiontracker.Counter l) ->
        n = count_occ string_dec l k)
  /\ (forall p1 r p2 x,
        map fst (Emoitiontracker.Counter l) = p1 ++ r :: p2 -> In x p2 ->
        exists pre post, l = pre ++ r :: post /\ ~ In x pre).
Proof.
  induction l as [|a l [HK [HN [HC HO]]]] using rev_ind.
  - split; [intros k; simpl; tauto|]. split; [constructor|].
    split; [intros k n []|].
    intros p1 r p2 x E. destruct p1; discriminate.
  - rewrite Counter_snoc.
    set (c := Emoitiontracker.Counter l) in *.
    pose proof (counter_add_keys a c) as Hkeys.
    destruct (Frustraiton.in_strings a (map fst c)) eqn:Ein.
    + apply in_strings_In in Ein. rewrite Hkeys.
      split; [|split; [exact HN|split]].
      * intros k. rewrite HK, in_app_iff. simpl. split; [tauto|].
        intros [H|[<-|[]]]; [exact H|]. apply HK. exact Ein.
      * intros k n Hin. rewrite count_occ_app.
        destruct (counter_add_In a k n c HN Hin)
          as [[H1 H2]|[-> [[m [H2 ->]]|[H2 _]]]].
        -- rewrite (HC k n H2). simpl.
           destruct (string_dec a k); [congruence|lia].
        -- rewrite (HC a m H2). simpl.
           destruct (string_dec a a); [lia|congruence].
        -- contradiction.
      * intros p1 r p2 x E Hx.
        destruct (HO p1 r p2 x E Hx) as [pre [post [-> Hpre]]].
        exists pre, (post ++ [a]). rewrite <- app_assoc. split; [reflexivity|].
        exact Hpre.
    + apply in_strings_not_In in Ein. rewrite Hkeys.
      assert (Hal : ~ In a l) by (rewrite <- HK; exact Ein).
      split; [|split; [apply NoDup_snoc; assumption|split]].
      * intros k. rewrite !in_app_iff, HK. reflexivity.
      * intros k n Hin. rewrite count_occ_app.
        destruct (counter_add_In a k n c HN Hin)
          as [[H1 H2]|[-> [[m [H2 ->]]|[_ ->]]]].
        -- rewrite (HC k n H2). simpl.
           destruct (string_dec a k); [congruence|lia].
        -- exfalso. apply Ein. apply (in_map fst) in H2. exact H2.
        -- rewrite (count_occ_not_In string_dec l a) in Hal. rewrite Hal.
           simpl. destruct (string_dec a a); [reflexivity|congruence].
      * intros p1 r p2 x E Hx.
        destruct (exists_last (l := p2)) as [p2' [a' ->]].
        { intros ->. destruct Hx. }
        change (p1 ++ r :: p2' ++ [a']) with (p1 ++ (r :: p2') ++ [a']) in E.
        rewrite app_assoc in E. apply app_inj_tail in E.
        destruct E as [E <-].
        apply in_app_or in Hx. destruct Hx as [Hx|[<-|[]]].
        -- destruct (HO p1 r p2' x E Hx) as [pre [post [-> Hpre]]].
           exists pre, (post ++ [a]). rewrite <- app_assoc.
           split; [reflexivity|exact Hpre].
        -- assert (Hr : In r l).
           { apply HK. rewrite E. apply in_or_app. right. left. reflexivity. }
           destruct (in_split r l Hr) as [pre [post ->]].
           exists pre, (post ++ [a]). rewrite <- app_assoc.
           split; [reflexivity|].
           intros H. apply Hal. apply in_or_app. left. exact H.
Qed.

Lemma max_by_count_spec (items : list (string * nat)) (best : string * nat) :
  exists pre post,
    best :: items = pre ++ Emoitiontracker.max_by_count best items :: post
    /\ (forall kv, In kv pre ->
          (snd kv < snd (Emoitiontracker.max_by_count best items))%nat)
    /\ (forall kv, In kv post ->
          (snd kv <= snd (Emoitiontracker.max_by_count best items))%nat).
Proof.
  revert best. induction items as [|item rest IH]; intros best.
  - exists [], []. simpl. repeat split; intros kv [].
  - cbn [Emoitiontracker.max_by_count].
    destruct (Nat.ltb_spec (snd best) (snd item)) as [E|E].
    + destruct (IH item) as [pre [post [Hsplit [Hpre Hpost]]]].
      set (r := Emoitiontracker.max_by_count item rest) in *.
      assert (Hitem : (snd item <= snd r)%nat).
      { assert (Hin : In item (pre ++ r :: post)).
        { rewrite <- Hsplit. left. reflexivity. }
        apply in_app_or in Hin. destruct Hin as [Hin|[E1|Hin]].
        - apply Nat.lt_le_incl. apply Hpre. exact Hin.
        - rewrite E1. apply Nat.le_refl.
        - apply Hpost. exact Hin. }
      exists (best :: pre), post. rewrite Hsplit. split; [reflexivity|].
      split; [|exact Hpost].
      intros kv [<-|Hin]; [lia|apply Hpre; exact Hin].
    + destruct (IH best) as [pre [post [Hsplit [Hpre Hpost]]]].
      set (r := Emoitiontracker.max_by_count best rest) in *.
      destruct pre as [|b pre'].
      * simpl in Hsplit. injection Hsplit as Hb Hrest.
        exists [], (item :: rest). rewrite <- Hb. split; [reflexivity|].
        split; [intros kv []|].
        intros kv [<-|Hin]; [exact E|].
        rewrite Hb. apply Hpost. rewrite <- Hrest. exact Hin.
      * simpl in Hsplit. injection Hsplit as Hb Hrest. subst b.
        exists (best :: item :: pre'), post. rewrite Hrest.
        split; [reflexivity|]. split; [|exact Hpost].
        assert (Hbest : (snd best < snd r)%nat)
          by (apply Hpre; left; reflexivity).
        intros kv [<-|[<-|Hin]]; [exact Hbest|lia|].
        apply Hpre. right. exact Hin.
Qed.

(** X24: [stop_emotion_tracking] never raises. Without samples it returns
    "Unknown". With samples it returns a label that occurs among them and
    that no other label outnumbers; of several labels with the highest
    count it returns the one that was sampled first. *)
Theorem X24_most_frequent_emotion_is_reported (emotion_list : list string) :
  Emoitiontracker.stop_emotion_tracking [] = Py.Returns "Unknown"%string
  /\ (emotion_list <> [] ->
      exists label,
        Emoitiontracker.stop_emotion_tracking emotion_list = Py.Returns label
        /\ In label emotion_list
        /\ (forall other,
              (count_occ string_dec emotion_list other
               <= count_occ string_dec emotion_list label)%nat)
        /\ (forall other, other <> label ->
              count_occ string_dec emotion_list other
              = count_occ string_dec emotion_list label ->
              exists pre post,
                emotion_list = pre ++ label :: post /\ ~ In other pre)).
Proof.
  split; [reflexivity|]. intros Hne.
  destruct (Counter_spec emotion_list) as [HK [HN [HC HO]]].
  unfold Emoitiontracker.stop_emotion_tracking.
  destruct emotion_list as [|e0 l0] eqn:El; [congruence|].
  rewrite <- El in *. clear Hne.
  unfold Emoitiontracker.most_common_1.
  destruct (Emoitiontracker.Counter emotion_list) as [|first rest] eqn:Ec.
  { exfalso. assert (H : In e0 emotion_list) by (rewrite El; left; reflexivity).
    apply HK in H. destruct H. }
  destruct (max_by_count_spec rest first) as [pre [post [Hsplit [Hpre Hpost]]]].
  set (best := Emoitiontracker.max_by_count first rest) in *.
  exists (fst best). split; [reflexivity|].
  assert (Hbest : In best (first :: rest)).
  { rewrite Hsplit. apply in_or_app. right. left. reflexivity. }
  assert (Hcount : snd best = count_occ string_dec emotion_list (fst best)).
  { apply HC. rewrite <- surjective_pairing. exact Hbest. }
  assert (Hlabel : In (fst best) emotion_list).
  { apply HK. apply in_map. exact Hbest. }
  assert (Hitem : forall other, In other emotion_list ->
            In (other, count_occ string_dec emotion_list other)
               (first :: rest)).
  { intros other Hin. apply HK in Hin. apply List.in_map_iff in Hin.
    destruct Hin as [[k n] [Hk Hin]]. simpl in Hk. subst k.
    rewrite <- (HC other n Hin). exact Hin. }
  split; [exact Hlabel|]. split.
  - intros other. rewrite <- Hcount.
    destruct (in_dec string_dec other emotion_list) as [Hin|Hnin].
    + pose proof (Hitem other Hin) as H. rewrite Hsplit in H.
      apply in_app_or in H. destruct H as [H|[H|H]].
      * apply Hpre in H. simpl in H. lia.
      * rewrite H. simpl. lia.
      * apply Hpost in H. exact H.
    + rewrite (count_occ_not_In string_dec) in Hnin. rewrite Hnin. lia.
  - intros other Hother Heq.
    assert (Hin : In other emotion_list).
    { apply (count_occ_In string_dec). rewrite Heq.
      apply (count_occ_In string_dec). exact Hlabel. }
    pose proof (Hitem other Hin) as H. rewrite Hsplit in H.
    apply in_app_or in H. destruct H as [H|[H|H]].
    + apply Hpre in H. simpl in H. lia.
    + exfalso. apply Hother. rewrite H. reflexivity.
    + apply (HO (map fst pre) (fst best) (map fst post) other).
      * rewrite Hsplit, map_app. reflexivity.
      * apply (in_map fst) in H. exact H.
Qed.

(** X24 for the samples sad, happy, happy, sad: both labels occur twice,
    and sad, which was sampled first, is reported. *)
Lemma X24_most_frequent_emotion_witness :
  exists label,
    Emoitiontracker.stop_emotion_tracking
      ["sad"; "happy"; "happy"; "sad"]%string = Py.Returns label
    /\ In label ["sad"; "happy"; "happy"; "sad"]%string
    /\ (forall other,
          (count_occ string_dec ["sad"; "happy"; "happy"; "sad"]%string other
           <= count_occ string_dec ["sad"; "happy"; "happy"; "sad"]%string
                label)%nat)
    /\ (forall other, other <> label ->
          count_occ string_dec ["sad"; "happy"; "happy"; "sad"]%string other
          = count_occ string_dec ["sad"; "happy"; "happy"; "sad"]%string label ->
          exists pre post,
            ["sad"; "happy"; "happy"; "sad"]%string = pre ++ label :: post
            /\ ~ In other pre).
Proof.
  apply (proj2 (X24_most_frequent_emotion_is_reported
                  ["sad"; "happy"; "happy"; "sad"]%string)).
  discriminate.
Defined.
